(** * Shopping-centre financial analysis: a shallow embedding

    The development follows the Python package [shopping_analysis]:
    - [core/enums.py], [core/exceptions.py], [core/models.py]: the data model;
    - [formatters/brazilian.py]: the debtor risk classification;
    - [analyzers/delinquency_analyzer.py]: conversion of the ledger, ranking,
      concentration (Gini);
    - [analyzers/cashflow_analyzer.py]: volatility, per-metric trend, alerts;
    - [analyzers/trend_analyzer.py]: the entry guard of the generic engine;
    - [insights/insight_engine.py]: the final ordering of the insights.

    Numbers.  [Decimal] values are exact rationals ([Q]).  A Python [float] is
    modelled by the rational it denotes and float [+ - * /] are taken exact;
    the only irrational operation of the code, the square root inside
    [statistics.stdev], is the correctly rounded binary64 square root of the
    exact quotient ([fsqrt] below).  [Decimal.quantize] rounds half-to-even,
    the default of the decimal context.  Exceptions are values of [exn] and
    fallible code returns [result]. *)

From Stdlib Require Import ZArith QArith Qpower Qround Qabs Qminmax List Ascii String Bool Lia Lqa
  Permutation Sorted.
Import ListNotations.

Local Open Scope Q_scope.

(** ** Exceptions ([core/exceptions.py] and the built-in ones the code can meet) *)

Inductive exn : Type :=
| ValueError (mensagem : string)
| ZeroDivisionError
| ValidationError (campo : string) (mensagem : string)
| InsufficientDataError (analysis_type : string) (minimum_required actual : nat)
| CalculationError (calculation_type : string) (causa : exn)
| InsightGenerationError (insight_type data_source : string) (causa : exn).

Inductive result (A : Type) : Type :=
| Ok (a : A)
| Raise (e : exn).
Arguments Ok {A} a.
Arguments Raise {A} e.

Definition bind {A B : Type} (m : result A) (k : A -> result B) : result B :=
  match m with
  | Ok a => k a
  | Raise e => Raise e
  end.

Notation "x <- m ;; k" := (bind m (fun x => k))
  (at level 61, m at next level, right associativity).

(** [try: corpo  except Exception as e: raise CalculationError(etapa, str(e)) from e] *)
Definition try_except_calculation {A : Type} (etapa : string) (corpo : result A) : result A :=
  match corpo with
  | Ok a => Ok a
  | Raise e => Raise (CalculationError etapa e)
  end.

Fixpoint mapM {A B : Type} (f : A -> result B) (l : list A) : result (list B) :=
  match l with
  | [] => Ok []
  | x :: xs => y <- f x ;; ys <- mapM f xs ;; Ok (y :: ys)
  end.

(** ** Enumerations ([core/enums.py]) *)

Inductive RiskLevel := MUITO_ALTO | ALTO | MEDIO | BAIXO | MUITO_BAIXO.
Inductive TrendDirection := CRESCIMENTO | DECLINIO | ESTAVEL | VOLATIL.
Inductive InsightType := KPI | FLUXO_CAIXA | INADIMPLENCIA | TENDENCIA | ORCAMENTO | OPERACIONAL.
Inductive InsightPriority := CRITICA | ALTA | MEDIA | BAIXA.
Inductive DebtStatus := CONFISSAO_DIVIDA | EM_ATRASO | NEGOCIACAO | ACORDO | QUITADO | JURIDICO.

(** Position of a risk level on the five-level ordinal scale. *)
Definition risk_rank (r : RiskLevel) : Z :=
  match r with
  | MUITO_BAIXO => 0
  | BAIXO => 1
  | MEDIO => 2
  | ALTO => 3
  | MUITO_ALTO => 4
  end%Z.

(** ** Decimal arithmetic *)

Definition Qgeb (x y : Q) : bool := Qle_bool y x.
Definition Qltb (x y : Q) : bool := negb (Qle_bool y x).
Definition Qgtb (x y : Q) : bool := negb (Qle_bool x y).

Definition round_half_even (x : Q) : Z :=
  let k := Qfloor x in
  match Qcompare (x - inject_Z k) (1 # 2) with
  | Lt => k
  | Gt => (k + 1)%Z
  | Eq => if Z.even k then k else (k + 1)%Z
  end.

(** [x.quantize(q)] for a quantum [q] such as [Decimal('0.1')]. *)
Definition quantize (x q : Q) : Q := Qred (inject_Z (round_half_even (x / q)) * q).

Definition Qsum (l : list Q) : Q := fold_left Qplus l 0.

(** ** Python's [sorted]

    [sorted] is stable, also under [reverse=True]: entries with equal keys keep
    their input order.  [antes y x] says that [y] has to come strictly before
    [x]: [key y < key x] for an ascending sort, [key x < key y] for
    [reverse=True]. *)

Section PythonSorted.
Context {A : Type}.
Variable antes : A -> A -> bool.

Fixpoint inserir (x : A) (l : list A) : list A :=
  match l with
  | [] => [x]
  | y :: ys => if antes y x then y :: inserir x ys else x :: y :: ys
  end.

Fixpoint sorted_by (l : list A) : list A :=
  match l with
  | [] => []
  | x :: xs => inserir x (sorted_by xs)
  end.

(** [nao_depois a b]: nothing forces [b] before [a]. *)
Definition nao_depois (a b : A) : Prop := antes b a = false.
End PythonSorted.

(** [sorted(l, key=chave, reverse=True)] for a rational key. *)
Definition sorted_reverse_Q {A : Type} (chave : A -> Q) (l : list A) : list A :=
  sorted_by (fun y x => Qltb (chave x) (chave y)) l.

(** ** Python's [statistics] on floats

    [statistics.stdev] forms the sum of squared deviations exactly, as a
    fraction, divides by [n - 1] (sample variance) and returns the correctly
    rounded square root of that fraction. *)

(** Nearest integer to [sqrt (n / d)], ties to even, for [0 <= n] and [0 < d]. *)
Definition sqrt_nearest (n d : Z) : Z :=
  let m := Z.sqrt (n / d) in
  match (4 * n ?= (2 * m + 1) * (2 * m + 1) * d)%Z with
  | Lt => m
  | Gt => (m + 1)%Z
  | Eq => if Z.even m then m else (m + 1)%Z
  end.

(** [floor (log2 x)] for [0 < x]. *)
Definition floor_log2 (x : Q) : Z :=
  let t := (Z.log2 (Qnum x) - Z.log2 (Zpos (Qden x)))%Z in
  if Qle_bool (2 ^ t) x then t else (t - 1)%Z.

(** Square root rounded to 53 significant bits (binary64, exponent range
    not modelled); [0] on non-positive arguments, which [stdev] never
    passes. *)
Definition fsqrt (x : Q) : Q :=
  if Qle_bool x 0 then 0
  else
    let s := ((105 - floor_log2 x) / 2)%Z in
    let y := Qred (x * 4 ^ s) in
    Qred (inject_Z (sqrt_nearest (Qnum y) (Zpos (Qden y))) / 2 ^ s).

Definition Qlen (l : list Q) : Q := inject_Z (Z.of_nat (List.length l)).

Definition mean (data : list Q) : Q := Qsum data / Qlen data.

(** Sample variance: squared deviations from the mean over [n - 1]. *)
Definition variance (data : list Q) : Q :=
  Qsum (map (fun x => (x - mean data) * (x - mean data)) data) / (Qlen data - 1).

Definition stdev (data : list Q) : result Q :=
  if (List.length data <? 2)%nat
  then Raise (ValueError "stdev requires at least two data points")
  else Ok (fsqrt (variance data)).

(** ** Risk classification ([BrazilianFormatter.classificar_risco_inadimplencia]) *)

Definition classificar_risco_inadimplencia (valor_divida : Q) (dias_atraso : Z) : RiskLevel :=
  let valor_decimal := valor_divida in
  if Qgeb valor_decimal 50000 || (dias_atraso >=? 90)%Z then MUITO_ALTO
  else if Qgeb valor_decimal 20000 || (dias_atraso >=? 60)%Z then ALTO
  else if Qgeb valor_decimal 5000 || (dias_atraso >=? 30)%Z then MEDIO
  else if Qgeb valor_decimal 1000 || (dias_atraso >=? 15)%Z then BAIXO
  else MUITO_BAIXO.

(** ** Entities ([core/models.py]) *)

Record Inadimplente := {
  nome : string;
  valor_divida : Q;
  status : DebtStatus;
  dias_atraso : option Z;
  categoria : option string;
  observacoes : option string;
  risco : option RiskLevel
}.

(** The constructor of the pydantic model runs the two validators. *)
Definition novo_Inadimplente (nome : string) (valor_divida : Q) (status : DebtStatus)
    (dias_atraso : option Z) (categoria observacoes : option string)
    (risco : option RiskLevel) : result Inadimplente :=
  if Qle_bool valor_divida 0
  then Raise (ValidationError "valor_divida" "Valor da dívida deve ser positivo")
  else match dias_atraso with
       | Some v =>
           if (v <? 0)%Z
           then Raise (ValidationError "dias_atraso" "Dias em atraso não podem ser negativos")
           else Ok {| nome := nome; valor_divida := valor_divida; status := status;
                      dias_atraso := dias_atraso; categoria := categoria;
                      observacoes := observacoes; risco := risco |}
       | None =>
           Ok {| nome := nome; valor_divida := valor_divida; status := status;
                 dias_atraso := dias_atraso; categoria := categoria;
                 observacoes := observacoes; risco := risco |}
       end.

(** A raw ledger entry: the dict handed to [DelinquencyAnalyzer.analisar].
    An absent key is [None]; [d_status] is the value of ['status'] already
    lower-cased. *)
Record InadimplenteDict := {
  d_nome : string;
  d_valor_divida : Q;
  d_status : option string;
  d_dias_atraso : option Z;
  d_categoria : option string;
  d_observacoes : option string
}.

(** Built-in [max] of a sequence: [ValueError] on the empty one. *)
Definition max_lista (l : list Q) : result Q :=
  match l with
  | [] => Raise (ValueError "max() arg is an empty sequence")
  | x :: xs => Ok (fold_left (fun m y => if Qltb m y then y else m) xs x)
  end.

(** Built-in [min] of a sequence. *)
Definition min_lista (l : list Q) : result Q :=
  match l with
  | [] => Raise (ValueError "min() arg is an empty sequence")
  | x :: xs => Ok (fold_left (fun m y => if Qltb y m then y else m) xs x)
  end.

Definition RiskLevel_eqb (a b : RiskLevel) : bool :=
  match a, b with
  | MUITO_ALTO, MUITO_ALTO | ALTO, ALTO | MEDIO, MEDIO
  | BAIXO, BAIXO | MUITO_BAIXO, MUITO_BAIXO => true
  | _, _ => false
  end.

Definition DebtStatus_eqb (a b : DebtStatus) : bool :=
  match a, b with
  | CONFISSAO_DIVIDA, CONFISSAO_DIVIDA | EM_ATRASO, EM_ATRASO | NEGOCIACAO, NEGOCIACAO
  | ACORDO, ACORDO | QUITADO, QUITADO | JURIDICO, JURIDICO => true
  | _, _ => false
  end.

(** [i.risco == nivel] and [i.risco in niveis] for the optional field. *)
Definition risco_e (nivel : RiskLevel) (i : Inadimplente) : bool :=
  match risco i with
  | Some r => RiskLevel_eqb r nivel
  | None => false
  end.

Definition risco_em (niveis : list RiskLevel) (i : Inadimplente) : bool :=
  existsb (fun nivel => risco_e nivel i) niveis.

(** [len([i for i in l if p(i)])] *)
Definition contar {A : Type} (p : A -> bool) (l : list A) : nat :=
  List.length (filter p l).

Module DelinquencyAnalyzer.

Definition valor_alto : Q := 50000.
Definition valor_medio : Q := 20000.
Definition valor_baixo : Q := 5000.

Definition status_map (s : string) : DebtStatus :=
  if String.eqb s "confissao_divida" then CONFISSAO_DIVIDA
  else if String.eqb s "em_atraso" then EM_ATRASO
  else if String.eqb s "negociacao" then NEGOCIACAO
  else if String.eqb s "acordo" then ACORDO
  else if String.eqb s "juridico" then JURIDICO
  else CONFISSAO_DIVIDA.

(** Body of the loop of [_converter_inadimplentes] for one entry. *)
Definition converter_inadimplente (inad : InadimplenteDict) : result Inadimplente :=
  try_except_calculation ("conversao_inadimplente_" ++ d_nome inad)
    (let status := match d_status inad with
                   | Some s => status_map s
                   | None => CONFISSAO_DIVIDA
                   end in
     let dias_atraso := match d_dias_atraso inad with
                        | Some d => d
                        | None => 60%Z
                        end in
     let risco := classificar_risco_inadimplencia (d_valor_divida inad) dias_atraso in
     novo_Inadimplente (d_nome inad) (d_valor_divida inad) status (Some dias_atraso)
       (Some match d_categoria inad with Some c => c | None => "Não informado"%string end)
       (Some match d_observacoes inad with Some o => o | None => EmptyString end)
       (Some risco)).

Definition _converter_inadimplentes (inadimplentes : list InadimplenteDict)
  : result (list Inadimplente) :=
  mapM converter_inadimplente inadimplentes.

Record RankingItem := {
  posicao : nat;
  r_nome : string;
  r_valor_divida : Q;
  participacao_percentual : Q;
  r_status : DebtStatus;
  r_risco : option RiskLevel;
  r_categoria : option string;
  recomendacao_acao : string;
  prioridade_cobranca : string
}.

Definition _recomendar_acao_individual (inadimplente : Inadimplente) : string :=
  if Qgeb (valor_divida inadimplente) valor_alto then
    match status inadimplente with
    | CONFISSAO_DIVIDA => "Execução judicial imediata"
    | _ => "Negociação com desconto máximo de 20%"
    end
  else if Qgeb (valor_divida inadimplente) valor_medio then
    "Acordo parcelado com entrada de 30%"
  else "Negociação direta com flexibilidade de prazo".

Definition status_scores (s : DebtStatus) : Z :=
  match s with
  | CONFISSAO_DIVIDA => 20
  | EM_ATRASO => 15
  | NEGOCIACAO => 10
  | ACORDO => 5
  | JURIDICO => 15
  | QUITADO => 10
  end%Z.

Definition risco_scores (r : option RiskLevel) : Z :=
  match r with
  | Some MUITO_ALTO => 10
  | Some ALTO => 8
  | Some MEDIO => 5
  | Some BAIXO => 3
  | Some MUITO_BAIXO => 1
  | None => 5
  end%Z.

Definition _calcular_prioridade_cobranca (inadimplente : Inadimplente)
    (posicao total : nat) : string :=
  let score :=
    ((if Qgeb (valor_divida inadimplente) valor_alto then 40
      else if Qgeb (valor_divida inadimplente) valor_medio then 25
      else 10)
     + (if Qle_bool (inject_Z (Z.of_nat posicao)) (inject_Z (Z.of_nat total) * (2 # 10)) then 30
        else if Qle_bool (inject_Z (Z.of_nat posicao)) (inject_Z (Z.of_nat total) * (5 # 10)) then 20
        else 10)
     + status_scores (status inadimplente)
     + risco_scores (risco inadimplente))%Z in
  if (score >=? 80)%Z then "CRÍTICA"
  else if (score >=? 60)%Z then "ALTA"
  else if (score >=? 40)%Z then "MÉDIA"
  else "BAIXA".

(** [sum(i.valor_divida for i in inadimplentes)] *)
Definition soma_dividas (inadimplentes : list Inadimplente) : Q :=
  Qsum (map valor_divida inadimplentes).

(** [Decimal / Decimal]: a zero divisor raises. *)
Definition dividir (x y : Q) : result Q :=
  if Qeq_bool y 0 then Raise ZeroDivisionError else Ok (x / y).

(** One turn of the loop of [_gerar_ranking_por_valor]. *)
Definition ranking_item (inadimplentes : list Inadimplente) (total : nat)
    (i : nat) (inad : Inadimplente) : result RankingItem :=
  quociente <- dividir (valor_divida inad) (soma_dividas inadimplentes) ;;
  let participacao := quociente * 100 in
  Ok {| posicao := i;
        r_nome := nome inad;
        r_valor_divida := valor_divida inad;
        participacao_percentual := quantize participacao (1 # 10);
        r_status := status inad;
        r_risco := risco inad;
        r_categoria := categoria inad;
        recomendacao_acao := _recomendar_acao_individual inad;
        prioridade_cobranca := _calcular_prioridade_cobranca inad i total |}.

(** [for i, inad in enumerate(inadimplentes_ordenados, 1)] *)
Fixpoint ranking_loop (inadimplentes : list Inadimplente) (total : nat)
    (i : nat) (ordenados : list Inadimplente) : result (list RankingItem) :=
  match ordenados with
  | [] => Ok []
  | inad :: resto =>
      item <- ranking_item inadimplentes total i inad ;;
      ranking <- ranking_loop inadimplentes total (S i) resto ;;
      Ok (item :: ranking)
  end.

Definition _gerar_ranking_por_valor (inadimplentes : list Inadimplente)
  : result (list RankingItem) :=
  let inadimplentes_ordenados := sorted_reverse_Q valor_divida inadimplentes in
  let total := List.length inadimplentes in
  ranking_loop inadimplentes total 1 inadimplentes_ordenados.

(** [sum(index[i] * valores[i] for i in range(n))] with [index = 1..n]. *)
Fixpoint soma_ponderada (i : nat) (valores : list Q) : Q :=
  match valores with
  | [] => 0
  | v :: vs => inject_Z (Z.of_nat i) * v + soma_ponderada (S i) vs
  end.

Definition _calcular_indice_gini (inadimplentes_ordenados : list Inadimplente) : result Q :=
  let valores := map valor_divida inadimplentes_ordenados in
  let n := List.length valores in
  if Nat.eqb n 0 then Ok 0
  else
    let nq := inject_Z (Z.of_nat n) in
    quociente <- dividir (2 * soma_ponderada 1 valores) (nq * Qsum valores) ;;
    let gini := quociente - (nq + 1) / nq in
    Ok (quantize gini (1 # 1000)).

Record Concentracao := {
  concentracao_pareto_20 : Q;
  concentracao_top3 : Q;
  concentracao_top10 : Q;
  valor_top_20_percent : Q;
  valor_top_3 : Q;
  valor_top_10 : Q;
  indice_concentracao : Q
}.

Definition _analisar_concentracao_dividas (inadimplentes : list Inadimplente)
  : result Concentracao :=
  let inadimplentes_ordenados := sorted_reverse_Q valor_divida inadimplentes in
  let valor_total := soma_dividas inadimplentes in
  let top_20_percent :=
    Nat.max 1 (Z.to_nat (Qfloor (inject_Z (Z.of_nat (List.length inadimplentes)) * (2 # 10)))) in
  let valor_acumulado := soma_dividas (firstn top_20_percent inadimplentes_ordenados) in
  q20 <- dividir valor_acumulado valor_total ;;
  let concentracao_pareto := q20 * 100 in
  let top_3_valor := soma_dividas (firstn 3 inadimplentes_ordenados) in
  q3 <- dividir top_3_valor valor_total ;;
  let concentracao_top3 := q3 * 100 in
  let top_10_count := Nat.min 10 (List.length inadimplentes) in
  let top_10_valor := soma_dividas (firstn top_10_count inadimplentes_ordenados) in
  q10 <- dividir top_10_valor valor_total ;;
  let concentracao_top10 := q10 * 100 in
  gini <- _calcular_indice_gini inadimplentes_ordenados ;;
  Ok {| concentracao_pareto_20 := quantize concentracao_pareto (1 # 10);
        concentracao_top3 := quantize concentracao_top3 (1 # 10);
        concentracao_top10 := quantize concentracao_top10 (1 # 10);
        valor_top_20_percent := valor_acumulado;
        valor_top_3 := top_3_valor;
        valor_top_10 := top_10_valor;
        indice_concentracao := gini |}.

(** The keys of the result of [analisar] that this development follows; the
    remaining keys (risk profile, financial impact, strategies, metrics,
    recommendations, timestamp) are computed from the same validated
    objects and do not decide whether the call returns. *)
Record Analise := {
  inadimplentes_analisados : list Inadimplente;
  ranking_por_valor : list RankingItem;
  concentracao_dividas : Concentracao;
  total_inadimplentes : nat
}.

Definition analisar (inadimplentes : list InadimplenteDict) : result Analise :=
  try_except_calculation "analise_inadimplencia"
    (match inadimplentes with
     | [] => Raise (InsufficientDataError "analise_inadimplencia" 1 0)
     | _ =>
         inadimplentes_obj <- _converter_inadimplentes inadimplentes ;;
         ranking_valor <- _gerar_ranking_por_valor inadimplentes_obj ;;
         concentracao <- _analisar_concentracao_dividas inadimplentes_obj ;;
         Ok {| inadimplentes_analisados := inadimplentes_obj;
               ranking_por_valor := ranking_valor;
               concentracao_dividas := concentracao;
               total_inadimplentes := List.length inadimplentes_obj |}
     end).

Record PerfilRisco := {
distribuicao_risco : list (RiskLevel * nat);
acima_50k : nat;
de_20k_a_50k : nat;
de_5k_a_20k : nat;
abaixo_5k : nat;
distribuicao_status : list (DebtStatus * nat);
concentracao_alto_risco : Q;
inadimplentes_criticos : nat;
valor_medio_divida : Q;
maior_divida : Q;
menor_divida : Q
}.

Definition _analisar_perfil_risco (inadimplentes : list Inadimplente) : result PerfilRisco :=
let distribuicao_risco :=
  map (fun nivel => (nivel, contar (risco_e nivel) inadimplentes))
    [MUITO_ALTO; ALTO; MEDIO; BAIXO; MUITO_BAIXO] in
let acima_50k := contar (fun i => Qgeb (valor_divida i) valor_alto) inadimplentes in
let de_20k_a_50k :=
  contar (fun i => Qle_bool valor_medio (valor_divida i) && Qltb (valor_divida i) valor_alto)
    inadimplentes in
let de_5k_a_20k :=
  contar (fun i => Qle_bool valor_baixo (valor_divida i) && Qltb (valor_divida i) valor_medio)
    inadimplentes in
let abaixo_5k := contar (fun i => Qltb (valor_divida i) valor_baixo) inadimplentes in
let distribuicao_status :=
  map (fun s => (s, contar (fun i => DebtStatus_eqb (status i) s) inadimplentes))
    [CONFISSAO_DIVIDA; EM_ATRASO; NEGOCIACAO; ACORDO; QUITADO; JURIDICO] in
let inadimplentes_alto_risco := filter (risco_em [MUITO_ALTO; ALTO]) inadimplentes in
quociente <- dividir (inject_Z (Z.of_nat (List.length inadimplentes_alto_risco)))
               (inject_Z (Z.of_nat (List.length inadimplentes))) ;;
let concentracao_alto_risco := quociente * 100 in
media <- dividir (soma_dividas inadimplentes)
           (inject_Z (Z.of_nat (List.length inadimplentes))) ;;
maior <- max_lista (map valor_divida inadimplentes) ;;
menor <- min_lista (map valor_divida inadimplentes) ;;
Ok {| distribuicao_risco := distribuicao_risco;
      acima_50k := acima_50k;
      de_20k_a_50k := de_20k_a_50k;
      de_5k_a_20k := de_5k_a_20k;
      abaixo_5k := abaixo_5k;
      distribuicao_status := distribuicao_status;
      concentracao_alto_risco := quantize concentracao_alto_risco (1 # 10);
      inadimplentes_criticos := contar (risco_e MUITO_ALTO) inadimplentes;
      valor_medio_divida := quantize media (1 # 100);
      maior_divida := maior;
      menor_divida := menor |}.

(** Recovery rate by status; [QUITADO] is not in the table and takes the
    default. *)
Definition taxas_recuperacao (s : DebtStatus) : Q :=
match s with
| CONFISSAO_DIVIDA => 70 # 100
| EM_ATRASO => 60 # 100
| NEGOCIACAO => 80 # 100
| ACORDO => 90 # 100
| JURIDICO => 40 # 100
| QUITADO => 50 # 100
end.

Record PotencialRecuperacao := {
cenario_otimista : Q;
cenario_conservador : Q;
taxa_recuperacao_otimista : Q;
taxa_recuperacao_conservadora : Q;
valor_irrecuperavel_estimado : Q
}.

(** The two accumulators of the loop of [_calcular_potencial_recuperacao]. *)
Fixpoint recuperacao_loop (inadimplentes : list Inadimplente)
  (recuperacao_otimista recuperacao_conservadora : Q) : Q * Q :=
match inadimplentes with
| [] => (recuperacao_otimista, recuperacao_conservadora)
| inad :: resto =>
    let taxa_base := taxas_recuperacao (status inad) in
    recuperacao_loop resto
      (recuperacao_otimista + valor_divida inad * taxa_base)
      (recuperacao_conservadora + valor_divida inad * taxa_base * (7 # 10))
end.

Definition _calcular_potencial_recuperacao (inadimplentes : list Inadimplente)
: result PotencialRecuperacao :=
let '(recuperacao_otimista, recuperacao_conservadora) :=
  recuperacao_loop inadimplentes 0 0 in
let valor_total := soma_dividas inadimplentes in
qo <- dividir recuperacao_otimista valor_total ;;
qc <- dividir recuperacao_conservadora valor_total ;;
Ok {| cenario_otimista := quantize recuperacao_otimista (1 # 100);
      cenario_conservador := quantize recuperacao_conservadora (1 # 100);
      taxa_recuperacao_otimista := quantize (qo * 100) (1 # 10);
      taxa_recuperacao_conservadora := quantize (qc * 100) (1 # 10);
      valor_irrecuperavel_estimado :=
        quantize (valor_total - recuperacao_conservadora) (1 # 100) |}.

Definition _classificar_impacto_fluxo (percentual : Q) : string :=
if Qgeb percentual 15 then "CRÍTICO - Comprometimento severo do fluxo de caixa"
else if Qgeb percentual 10 then "ALTO - Impacto significativo no fluxo de caixa"
else if Qgeb percentual 5 then "MODERADO - Impacto controlável no fluxo de caixa"
else "BAIXO - Impacto mínimo no fluxo de caixa".

Record ImpactoFinanceiro := {
valor_total_inadimplencia : Q;
numero_inadimplentes : nat;
ticket_medio_inadimplencia : Q;
percentual_receita : option Q;
impacto_fluxo_caixa : option string;
potencial_recuperacao : PotencialRecuperacao
}.

Definition _calcular_impacto_financeiro (inadimplentes : list Inadimplente)
  (receita_total : option Q) : result ImpactoFinanceiro :=
let valor_total_dividas := soma_dividas inadimplentes in
ticket <- dividir valor_total_dividas (inject_Z (Z.of_nat (List.length inadimplentes))) ;;
let percentual :=
  match receita_total with
  | Some receita =>
      if Qgtb receita 0
      then Some (quantize (valor_total_dividas / receita * 100) (1 # 10))
      else None
  | None => None
  end in
potencial <- _calcular_potencial_recuperacao inadimplentes ;;
Ok {| valor_total_inadimplencia := valor_total_dividas;
      numero_inadimplentes := List.length inadimplentes;
      ticket_medio_inadimplencia := quantize ticket (1 # 100);
      percentual_receita := percentual;
      impacto_fluxo_caixa := option_map _classificar_impacto_fluxo percentual;
      potencial_recuperacao := potencial |}.

Record Estrategia := {
e_nome : string;
e_valor : Q;
e_acao : string;
e_prazo : string
}.

Record Estrategias := {
acao_imediata : list Estrategia;
negociacao_prioritaria : list Estrategia;
monitoramento_ativo : list Estrategia;
juridico : list Estrategia
}.

(** The four branches of the loop of [_gerar_estrategias_recuperacao]. *)
Inductive Balde := AcaoImediata | NegociacaoPrioritaria | MonitoramentoAtivo | Juridico.

Definition balde (inad : Inadimplente) : Balde :=
if risco_e MUITO_ALTO inad && Qgeb (valor_divida inad) valor_alto then AcaoImediata
else if Qgeb (valor_divida inad) valor_medio then NegociacaoPrioritaria
else if risco_em [ALTO; MEDIO] inad then MonitoramentoAtivo
else Juridico.

Definition estrategia_de (inad : Inadimplente) : Estrategia :=
match balde inad with
| AcaoImediata =>
    {| e_nome := nome inad; e_valor := valor_divida inad;
       e_acao := "Execução judicial ou acordo com desconto máximo de 15%";
       e_prazo := "7 dias" |}
| NegociacaoPrioritaria =>
    {| e_nome := nome inad; e_valor := valor_divida inad;
       e_acao := "Negociação ativa com proposta de parcelamento";
       e_prazo := "15 dias" |}
| MonitoramentoAtivo =>
    {| e_nome := nome inad; e_valor := valor_divida inad;
       e_acao := "Contato semanal e acompanhamento próximo";
       e_prazo := "30 dias" |}
| Juridico =>
    {| e_nome := nome inad; e_valor := valor_divida inad;
       e_acao := "Análise jurídica para execução";
       e_prazo := "45 dias" |}
end.

Fixpoint estrategias_loop (inadimplentes : list Inadimplente) (estrategias : Estrategias)
: Estrategias :=
match inadimplentes with
| [] => estrategias
| inad :: resto =>
    estrategias_loop resto
      match balde inad with
      | AcaoImediata =>
          {| acao_imediata := acao_imediata estrategias ++ [estrategia_de inad];
             negociacao_prioritaria := negociacao_prioritaria estrategias;
             monitoramento_ativo := monitoramento_ativo estrategias;
             juridico := juridico estrategias |}
      | NegociacaoPrioritaria =>
          {| acao_imediata := acao_imediata estrategias;
             negociacao_prioritaria :=
               negociacao_prioritaria estrategias ++ [estrategia_de inad];
             monitoramento_ativo := monitoramento_ativo estrategias;
             juridico := juridico estrategias |}
      | MonitoramentoAtivo =>
          {| acao_imediata := acao_imediata estrategias;
             negociacao_prioritaria := negociacao_prioritaria estrategias;
             monitoramento_ativo := monitoramento_ativo estrategias ++ [estrategia_de inad];
             juridico := juridico estrategias |}
      | Juridico =>
          {| acao_imediata := acao_imediata estrategias;
             negociacao_prioritaria := negociacao_prioritaria estrategias;
             monitoramento_ativo := monitoramento_ativo estrategias;
             juridico := juridico estrategias ++ [estrategia_de inad] |}
      end
end.

Definition _gerar_estrategias_recuperacao (inadimplentes : list Inadimplente) : Estrategias :=
estrategias_loop inadimplentes
  {| acao_imediata := []; negociacao_prioritaria := [];
     monitoramento_ativo := []; juridico := [] |}.

(** [sorted(l)] on decimals. *)
Definition sorted_Q (l : list Q) : list Q := sorted_by (fun y x => Qltb y x) l.

Definition _calcular_mediana_valores (inadimplentes : list Inadimplente) : result Q :=
let valores := sorted_Q (map valor_divida inadimplentes) in
let n := List.length valores in
if Nat.even n then
  match nth_error valores (n / 2 - 1), nth_error valores (n / 2) with
  | Some a, Some b => Ok (quantize ((a + b) / 2) (1 # 100))
  | _, _ => Raise (ValueError "list index out of range")
  end
else
  match nth_error valores (n / 2) with
  | Some a => Ok (quantize a (1 # 100))
  | None => Raise (ValueError "list index out of range")
  end.

Record MetricasInadimplencia := {
m_valor_total_inadimplencia : Q;
numero_total_inadimplentes : nat;
ticket_medio : Q;
mediana_valores : Q;
inadimplentes_acima_media : nat;
concentracao_risco_alto : nat;
taxa_inadimplencia_receita : option Q
}.

Definition _calcular_metricas_inadimplencia (inadimplentes : list Inadimplente)
  (receita_total : option Q) : result MetricasInadimplencia :=
let valor_total := soma_dividas inadimplentes in
let n := inject_Z (Z.of_nat (List.length inadimplentes)) in
ticket <- dividir valor_total n ;;
mediana <- _calcular_mediana_valores inadimplentes ;;
let acima := contar (fun i => Qgtb (valor_divida i) (valor_total / n)) inadimplentes in
let risco_alto := contar (risco_em [MUITO_ALTO; ALTO]) inadimplentes in
let taxa :=
  match receita_total with
  | Some receita =>
      if Qgtb receita 0
      then Some (quantize (valor_total / receita * 100) (1 # 10))
      else None
  | None => None
  end in
Ok {| m_valor_total_inadimplencia := valor_total;
      numero_total_inadimplentes := List.length inadimplentes;
      ticket_medio := quantize ticket (1 # 100);
      mediana_valores := mediana;
      inadimplentes_acima_media := acima;
      concentracao_risco_alto := risco_alto;
      taxa_inadimplencia_receita := taxa |}.

Section AnaliseCompleta.
(** [_gerar_recomendacoes_inadimplencia] only builds text with the
    formatter; it is a parameter here. *)
Variable _gerar_recomendacoes_inadimplencia :
  list Inadimplente -> PerfilRisco -> result (list string).

(** All the keys of the result of [analisar] but the timestamp. *)
Record AnaliseCompleta := {
ac_inadimplentes_analisados : list Inadimplente;
ac_ranking_por_valor : list RankingItem;
ac_analise_risco : PerfilRisco;
ac_concentracao_dividas : Concentracao;
ac_impacto_financeiro : ImpactoFinanceiro;
ac_estrategias_recuperacao : Estrategias;
ac_metricas_gerais : MetricasInadimplencia;
ac_recomendacoes : list string;
ac_total_inadimplentes : nat
}.

(** [analisar] with every step of its body, in the order of the source. *)
Definition analisar_completo (inadimplentes : list InadimplenteDict)
  (receita_total : option Q) : result AnaliseCompleta :=
try_except_calculation "analise_inadimplencia"
  (match inadimplentes with
   | [] => Raise (InsufficientDataError "analise_inadimplencia" 1 0)
   | _ =>
       inadimplentes_obj <- _converter_inadimplentes inadimplentes ;;
       ranking_valor <- _gerar_ranking_por_valor inadimplentes_obj ;;
       analise_risco <- _analisar_perfil_risco inadimplentes_obj ;;
       concentracao <- _analisar_concentracao_dividas inadimplentes_obj ;;
       impacto_financeiro <- _calcular_impacto_financeiro inadimplentes_obj receita_total ;;
       let estrategias_recuperacao := _gerar_estrategias_recuperacao inadimplentes_obj in
       metricas_gerais <- _calcular_metricas_inadimplencia inadimplentes_obj receita_total ;;
       recomendacoes <- _gerar_recomendacoes_inadimplencia inadimplentes_obj analise_risco ;;
       Ok {| ac_inadimplentes_analisados := inadimplentes_obj;
             ac_ranking_por_valor := ranking_valor;
             ac_analise_risco := analise_risco;
             ac_concentracao_dividas := concentracao;
             ac_impacto_financeiro := impacto_financeiro;
             ac_estrategias_recuperacao := estrategias_recuperacao;
             ac_metricas_gerais := metricas_gerais;
             ac_recomendacoes := recomendacoes;
             ac_total_inadimplentes := List.length inadimplentes_obj |}
   end).
End AnaliseCompleta.

End DelinquencyAnalyzer.


Record MovimentacaoFinanceira := {
  mes : string;
  ano : Z;
  credito : Q;
  debito : Q;
  saldo_operacional : Q
}.

Definition novo_MovimentacaoFinanceira (mes : string) (ano : Z)
    (credito debito saldo_operacional : Q) : result MovimentacaoFinanceira :=
  if Qltb credito 0 || Qltb debito 0
  then Raise (ValidationError "credito/debito" "Valores de crédito e débito devem ser positivos")
  else Ok {| mes := mes; ano := ano; credito := credito; debito := debito;
             saldo_operacional := saldo_operacional |}.

Record TendenciaFinanceira := {
  metrica : string;
  direcao : TrendDirection;
  intensidade : Q;
  periodo_analise : nat;                 (* f"{n} meses" *)
  pontos_criticos : list (nat * Q);      (* month number and negative value *)
  confiabilidade : Q
}.

(** Validator [validar_percentuais] on ['intensidade'] and ['confiabilidade']. *)
Definition validar_percentuais (campo : string) (v : Q) : result Q :=
  if Qle_bool 0 v && Qle_bool v 100 then Ok v
  else Raise (ValidationError campo "Valores devem estar entre 0 e 100").

Definition novo_TendenciaFinanceira (metrica : string) (direcao : TrendDirection)
    (intensidade : Q) (periodo_analise : nat) (pontos_criticos : list (nat * Q))
    (confiabilidade : Q) : result TendenciaFinanceira :=
  i <- validar_percentuais "intensidade" intensidade ;;
  c <- validar_percentuais "confiabilidade" confiabilidade ;;
  Ok {| metrica := metrica; direcao := direcao; intensidade := i;
        periodo_analise := periodo_analise; pontos_criticos := pontos_criticos;
        confiabilidade := c |}.

(** A raw monthly record: the dict handed to [CashFlowAnalyzer.analisar]. *)
Record MovimentacaoDict := {
  m_mes : string;
  m_ano : option Z;
  m_credito : Q;
  m_debito : Q;
  m_saldo_operacional : Q
}.

Module CashFlowAnalyzer.

Definition saldos (movimentacoes : list MovimentacaoFinanceira) : list Q :=
  map saldo_operacional movimentacoes.

Definition _calcular_volatilidade_saldos (movimentacoes : list MovimentacaoFinanceira)
  : result Q :=
  let saldos := saldos movimentacoes in
  if (List.length saldos <? 2)%nat then Ok 0
  else
    volatilidade <- stdev saldos ;;
    Ok (quantize volatilidade (1 # 100)).

(** [sum(x[i] * valores[i] for i in range(n))] with [x = 0..n-1], from
    index [i] on. *)
Fixpoint soma_xy (i : nat) (valores : list Q) : Q :=
  match valores with
  | [] => 0
  | v :: vs => inject_Z (Z.of_nat i) * v + soma_xy (S i) vs
  end.

(** Least-squares slope as [_calcular_tendencia_metrica] computes it. *)
Definition slope (valores_float : list Q) : Q :=
  let n := Z.of_nat (List.length valores_float) in
  let x := map Z.of_nat (seq 0 (List.length valores_float)) in
  let sum_x := fold_left Z.add x 0%Z in
  let sum_y := Qsum valores_float in
  let sum_xy := soma_xy 0 valores_float in
  let sum_x2 := fold_left Z.add (map (fun xi => xi * xi)%Z x) 0%Z in
  if (n * sum_x2 - sum_x * sum_x =? 0)%Z then 0
  else (inject_Z n * sum_xy - inject_Z sum_x * sum_y)
       / inject_Z (n * sum_x2 - sum_x * sum_x).

(** Months (1-based) whose value is negative. *)
Fixpoint negativos (i : nat) (valores : list Q) : list (nat * Q) :=
  match valores with
  | [] => []
  | valor :: vs =>
      if Qltb valor 0 then (S i, valor) :: negativos (S i) vs
      else negativos (S i) vs
  end.

(** The value handed to the constructor as [confiabilidade], before
    [quantize]. *)
Definition confiabilidade_bruta (valores_float : list Q) : result Q :=
  volatilidade <- (if (1 <? List.length valores_float)%nat
                   then stdev valores_float else Ok 0) ;;
  maximo <- max_lista valores_float ;;
  if Qeq_bool maximo 0 then Raise ZeroDivisionError
  else Ok (Qmax 50 (100 - volatilidade / maximo * 100)).

Definition _calcular_tendencia_metrica (valores : list Q) (nome_metrica : string)
  : result TendenciaFinanceira :=
  let valores_float := valores in
  let slope := slope valores_float in
  let '(direcao, intensidade) :=
    if Qltb (Qabs slope) (1 # 10) then (ESTAVEL, 20)
    else if Qgtb slope 0 then (CRESCIMENTO, Qmin 100 (Qabs (slope * 100)))
    else (DECLINIO, Qmin 100 (Qabs (slope * 100))) in
  confiabilidade <- confiabilidade_bruta valores_float ;;
  let pontos_criticos := negativos 0 valores in
  novo_TendenciaFinanceira nome_metrica direcao (quantize intensidade (1 # 10))
    (List.length valores) pontos_criticos (quantize confiabilidade (1 # 10)).


Definition _analisar_tendencias (movimentacoes : list MovimentacaoFinanceira)
  : result (list TendenciaFinanceira) :=
  tendencia_creditos <-
    _calcular_tendencia_metrica (map credito movimentacoes) "Créditos Mensais" ;;
  tendencia_debitos <-
    _calcular_tendencia_metrica (map debito movimentacoes) "Débitos Mensais" ;;
  tendencia_saldo <-
    _calcular_tendencia_metrica (map saldo_operacional movimentacoes) "Saldo Operacional" ;;
  Ok [tendencia_creditos; tendencia_debitos; tendencia_saldo].

Inductive Descricao :=
| MesesConsecutivos (meses_negativos_consecutivos : nat)
| VolatilidadeInstavel (volatilidade : Q).

Record Alerta := {
  tipo : string;
  titulo : string;
  descricao : Descricao;
  impacto : string;
  acao_requerida : string
}.

Definition alerta_consecutivos (meses_negativos_consecutivos : nat) : Alerta :=
  {| tipo := "CRITICO";
     titulo := "Meses Consecutivos com Saldo Negativo";
     descricao := MesesConsecutivos meses_negativos_consecutivos;
     impacto := "Alto - Comprometimento do fluxo de caixa";
     acao_requerida := "Revisão urgente da estrutura de custos e estratégia de receitas" |}.

Definition alerta_volatilidade (volatilidade : Q) : Alerta :=
  {| tipo := "ATENCAO";
     titulo := "Alta Volatilidade no Fluxo de Caixa";
     descricao := VolatilidadeInstavel volatilidade;
     impacto := "Médio - Dificuldade de planejamento financeiro";
     acao_requerida := "Implementar controles para reduzir flutuações" |}.

(** The first loop of [_gerar_alertas_cashflow]: the counter of consecutive
    negative months, with its [break]. *)
Fixpoint laco_consecutivos (movimentacoes : list MovimentacaoFinanceira)
    (meses_negativos_consecutivos : nat) : list Alerta :=
  match movimentacoes with
  | [] => []
  | mov :: resto =>
      let contador := if Qltb (saldo_operacional mov) 0
                      then S meses_negativos_consecutivos else O in
      if (2 <=? contador)%nat then [alerta_consecutivos contador]
      else laco_consecutivos resto contador
  end.

Definition _gerar_alertas_cashflow (movimentacoes : list MovimentacaoFinanceira)
  : result (list Alerta) :=
  let alertas := laco_consecutivos movimentacoes 0 in
  volatilidade <- _calcular_volatilidade_saldos movimentacoes ;;
  if (List.length movimentacoes =? 0)%nat then Raise ZeroDivisionError
  else
    let media_saldos := Qsum (saldos movimentacoes) / Qlen (saldos movimentacoes) in
    if Qgtb volatilidade (Qabs media_saldos * (5 # 10))
    then Ok (alertas ++ [alerta_volatilidade volatilidade])
    else Ok alertas.

(** Two entries next to each other, both with a negative balance. *)
Definition dois_negativos_adjacentes (movimentacoes : list MovimentacaoFinanceira) : Prop :=
  exists anteriores m1 m2 seguintes,
    movimentacoes = anteriores ++ m1 :: m2 :: seguintes
    /\ saldo_operacional m1 < 0 /\ saldo_operacional m2 < 0.

Definition alerta_meses_consecutivos (a : Alerta) : Prop :=
  tipo a = "CRITICO"%string
  /\ titulo a = "Meses Consecutivos com Saldo Negativo"%string.

Section Meses.
(** [str.lower], a Unicode operation, is a parameter of the month lookup. *)
Variable lower : string -> string.

Definition meses_ordem : list string :=
  ["janeiro"; "fevereiro"; "março"; "abril"; "maio"; "junho";
   "julho"; "agosto"; "setembro"; "outubro"; "novembro"; "dezembro"]%string.

Definition abreviacoes : list (string * nat) :=
  [("mai", 4); ("jun", 5); ("jul", 6); ("ago", 7);
   ("set", 8); ("out", 9); ("nov", 10); ("dez", 11)]%string%nat.

Fixpoint index_of (s : string) (l : list string) (i : nat) : option nat :=
  match l with
  | [] => None
  | x :: xs => if String.eqb x s then Some i else index_of s xs (S i)
  end.

Fixpoint get_or {V : Type} (s : string) (l : list (string * V)) (padrao : V) : V :=
  match l with
  | [] => padrao
  | (k, v) :: xs => if String.eqb k s then v else get_or s xs padrao
  end.

Definition _obter_indice_mes (mes : string) : nat :=
  let mes_lower := lower mes in
  match index_of mes_lower meses_ordem 0 with
  | Some i => i
  | None => get_or mes_lower abreviacoes 0%nat
  end.

Definition converter_movimentacao (mov : MovimentacaoDict)
  : result MovimentacaoFinanceira :=
  try_except_calculation ("conversao_movimentacao_" ++ m_mes mov)
    (novo_MovimentacaoFinanceira (m_mes mov)
       (match m_ano mov with Some a => a | None => 2025%Z end)
       (m_credito mov) (Qabs (m_debito mov)) (m_saldo_operacional mov)).

Definition _converter_movimentacoes (movimentacoes : list MovimentacaoDict)
  : result (list MovimentacaoFinanceira) :=
  movimentacoes_obj <- mapM converter_movimentacao movimentacoes ;;
  Ok (sorted_by (fun y x => (_obter_indice_mes (mes y) <? _obter_indice_mes (mes x))%nat)
        movimentacoes_obj).

(** The keys of the result of [analisar] that this development follows;
    the summary totals, critical months, seasonality, projections,
    metrics and recommendations are left out (on validated movements
    they raise nothing that the steps below do not raise first). *)
Record Analise := {
  movimentacoes_analisadas : list MovimentacaoFinanceira;
  volatilidade : Q;                      (* resumo_mensal['volatilidade'] *)
  tendencias : list TendenciaFinanceira;
  alertas : list Alerta
}.

Definition analisar (movimentacoes : list MovimentacaoDict) : result Analise :=
  try_except_calculation "analise_cashflow"
    (if (List.length movimentacoes <? 2)%nat
     then Raise (InsufficientDataError "analise_cashflow" 2 (List.length movimentacoes))
     else
       movimentacoes_obj <- _converter_movimentacoes movimentacoes ;;
       volatilidade <- _calcular_volatilidade_saldos movimentacoes_obj ;;
       tendencias <- _analisar_tendencias movimentacoes_obj ;;
       alertas <- _gerar_alertas_cashflow movimentacoes_obj ;;
       Ok {| movimentacoes_analisadas := movimentacoes_obj;
             volatilidade := volatilidade;
             tendencias := tendencias;
             alertas := alertas |}).
End Meses.

(** [mov.periodo_completo], the text [f"{mes}/{ano}"], as its two parts. *)
Definition periodo_completo (mov : MovimentacaoFinanceira) : string * Z :=
(mes mov, ano mov).





Definition _sugerir_prazo_acao_mes (score_risco : Z) : string :=
if (score_risco >=? 70)%Z then "Ação imediata (0-7 dias)"
else if (score_risco >=? 40)%Z then "Ação prioritária (7-15 dias)"
else "Monitoramento (15-30 dias)".

Record MesCritico := {
mc_periodo : string * Z;
mc_saldo_operacional : Q;
problemas_identificados : list string;
score_risco : Z;
recomendacao_prazo : string
}.

(** The three checks of [_identificar_meses_criticos] on one month. *)
Definition saldo_negativo (mov : MovimentacaoFinanceira) : bool :=
Qltb (saldo_operacional mov) 0.

Definition debito_excessivo (mov : MovimentacaoFinanceira) : bool :=
Qgtb (debito mov) (credito mov * (15 # 10)).

Definition credito_baixo (movimentacoes : list MovimentacaoFinanceira)
  (mov : MovimentacaoFinanceira) : bool :=
let media_creditos :=
  Qsum (map credito movimentacoes) / inject_Z (Z.of_nat (List.length movimentacoes)) in
Qltb (credito mov) (media_creditos * (5 # 10)).

(** One turn of the loop: the entry appended for [mov], if any. *)
Definition mes_critico (movimentacoes : list MovimentacaoFinanceira)
  (mov : MovimentacaoFinanceira) : option MesCritico :=
let criticidade :=
  (if saldo_negativo mov then ["Saldo operacional negativo"%string] else [])
  ++ (if debito_excessivo mov then ["Débitos muito superiores aos créditos"%string] else [])
  ++ (if credito_baixo movimentacoes mov
      then ["Créditos muito abaixo da média"%string] else []) in
let score :=
  ((if saldo_negativo mov then 50 else 0)
   + (if debito_excessivo mov then 30 else 0)
   + (if credito_baixo movimentacoes mov then 20 else 0))%Z in
match criticidade with
| [] => None
| _ => Some {| mc_periodo := periodo_completo mov;
               mc_saldo_operacional := saldo_operacional mov;
               problemas_identificados := criticidade;
               score_risco := Z.min 100 score;
               recomendacao_prazo := _sugerir_prazo_acao_mes score |}
end.

Fixpoint filter_some {A B : Type} (f : A -> option B) (l : list A) : list B :=
match l with
| [] => []
| x :: xs => match f x with
             | Some y => y :: filter_some f xs
             | None => filter_some f xs
             end
end.

Definition _identificar_meses_criticos (movimentacoes : list MovimentacaoFinanceira)
: list MesCritico :=
let meses_criticos := filter_some (mes_critico movimentacoes) movimentacoes in
sorted_by (fun y x => (score_risco x <? score_risco y)%Z) meses_criticos.

Definition _calcular_coeficiente_variacao (valores : list Q) : result Q :=
let valores_float := valores in
match valores_float with
| [] => Ok 0
| _ =>
    let media := mean valores_float in
    if Qeq_bool media 0 then Ok 0
    else
      desvio <- (if (1 <? List.length valores_float)%nat
                 then stdev valores_float else Ok 0) ;;
      let coef_variacao := desvio / Qabs media * 100 in
      Ok (quantize coef_variacao (1 # 10))
end.

Definition _calcular_crescimento_periodo (valores : list Q) : Q :=
match valores with
| [] => 0
| primeiro :: resto =>
    if (List.length valores <? 2)%nat || Qeq_bool primeiro 0 then 0
    else
      let crescimento := (last resto primeiro - primeiro) / primeiro * 100 in
      quantize crescimento (1 # 10)
end.

Record ProjecaoMes := {
credito_projetado : Q;
debito_projetado : Q;
saldo_projetado : Q
}.

Record Projecoes := {
projecoes_mensais : list (nat * ProjecaoMes);          (* keys f"mes_{i}" *)
projecao_confiabilidade : Q
}.

(** [l[-3:]] *)
Definition ultimos_3 {A : Type} (l : list A) : list A := skipn (List.length l - 3) l.

(** [None] stands for the dict [{"erro": "Dados insuficientes para projeção"}]. *)
Definition _gerar_projecoes (movimentacoes : list MovimentacaoFinanceira)
: result (option Projecoes) :=
if (List.length movimentacoes <? 3)%nat then Ok None
else
  let ultimos_3 := ultimos_3 movimentacoes in
  let media_creditos := Qsum (map credito ultimos_3) / 3 in
  let media_debitos := Qsum (map debito ultimos_3) / 3 in
  tendencia_saldo <-
    _calcular_tendencia_metrica (map saldo_operacional movimentacoes) "Saldo" ;;
  let projecao := fun i : nat =>
    let fator_tendencia :=
      match direcao tendencia_saldo with
      | CRESCIMENTO => 1 + intensidade tendencia_saldo / 100 * (1 # 10)
      | DECLINIO => 1 - intensidade tendencia_saldo / 100 * (1 # 10)
      | _ => 1
      end in
    let credito_projetado := media_creditos * fator_tendencia in
    let debito_projetado := media_debitos in
    let saldo_projetado := credito_projetado - debito_projetado in
    (i, {| credito_projetado := quantize credito_projetado (1 # 100);
           debito_projetado := quantize debito_projetado (1 # 100);
           saldo_projetado := quantize saldo_projetado (1 # 100) |}) in
  Ok (Some {| projecoes_mensais := map projecao [1; 2; 3]%nat;
              projecao_confiabilidade := confiabilidade tendencia_saldo |}).

Record MetricasGerais := {
eficiencia_operacional : Q;
margem_operacional_media : Q;
crescimento_creditos : Q;
crescimento_debitos : Q;
estabilidade_saldo : Q;
meses_superavit : nat;
meses_deficit : nat
}.

Definition _calcular_metricas_gerais (movimentacoes : list MovimentacaoFinanceira)
  : result MetricasGerais :=
let creditos := map credito movimentacoes in
let debitos := map debito movimentacoes in
let saldos := map saldo_operacional movimentacoes in
coef_variacao <- _calcular_coeficiente_variacao saldos ;;
Ok {| eficiencia_operacional :=
        if Qgtb (Qsum debitos) 0 then Qsum creditos / Qsum debitos * 100 else 0;
      margem_operacional_media :=
        if Qgtb (Qsum creditos) 0 then Qsum saldos / Qsum creditos * 100 else 0;
      crescimento_creditos := _calcular_crescimento_periodo creditos;
      crescimento_debitos := _calcular_crescimento_periodo debitos;
      estabilidade_saldo := 100 - coef_variacao;
      meses_superavit := contar (fun s => Qgtb s 0) saldos;
      meses_deficit := contar (fun s => Qltb s 0) saldos |}.

End CashFlowAnalyzer.

Module TrendAnalyzer.

Definition min_periodos_tendencia : nat := 3.

Section Analisar.
(** The conversion of the records and the analyses that follow the entry
    guard are a parameter: the guard does not depend on them. *)
Context {Dados Resultado : Type}.
Variable analises : list Dados -> string -> result Resultado.

Definition analisar (dados_temporais : list Dados) (tipo_analise : string)
  : result Resultado :=
  try_except_calculation "analise_tendencias"
    (if (List.length dados_temporais <? min_periodos_tendencia)%nat
     then Raise (InsufficientDataError "analise_tendencias" min_periodos_tendencia
                   (List.length dados_temporais))
     else analises dados_temporais tipo_analise).
End Analisar.

(** One item of the standardised series built by
    [_converter_series_temporais], as far as the analyses read it. *)
Record ItemSerie := {
periodo : nat;
valor_principal : Q;
data_periodo : string
}.


(** [float(i)] of a loop index. *)
Definition Qnat (i : nat) : Q := inject_Z (Z.of_nat i).




Record PontoExtremo := {
pe_periodo : nat;
pe_valor : Q;
pe_data_periodo : string
}.

Record MudancaBrusca := {
periodo_anterior : nat;
periodo_atual : nat;
valor_anterior : Q;
valor_atual : Q;
mb_variacao_percentual : Q;
mb_tipo : string
}.

Record PontosCriticos := {
maximo_absoluto : PontoExtremo;
minimo_absoluto : PontoExtremo;
maximos_locais : list PontoExtremo;
minimos_locais : list PontoExtremo;
mudancas_bruscas : list MudancaBrusca;
amplitude_total : Q;
numero_pontos_criticos : nat
}.

(** The entry of period [i + 1]: [series[i]] read with its value. *)
Definition ponto (series : list ItemSerie) (i : nat) : PontoExtremo :=
{| pe_periodo := i + 1;
   pe_valor := nth i (map valor_principal series) 0;
   pe_data_periodo := nth i (map data_periodo series) EmptyString |}.

Definition maximo_local (valores : list Q) (i : nat) : bool :=
Qgtb (nth i valores 0) (nth (i - 1) valores 0) && Qgtb (nth i valores 0) (nth (i + 1) valores 0).

Definition minimo_local (valores : list Q) (i : nat) : bool :=
Qltb (nth i valores 0) (nth (i - 1) valores 0) && Qltb (nth i valores 0) (nth (i + 1) valores 0).

(** The loop [for i in range(1, len(valores) - 1)] with its two lists. *)
Definition laco_extremos (series : list ItemSerie)
  : list PontoExtremo * list PontoExtremo :=
let valores := map valor_principal series in
fold_left
  (fun (listas : list PontoExtremo * list PontoExtremo) i =>
     let (maximos_locais, minimos_locais) := listas in
     if maximo_local valores i then (maximos_locais ++ [ponto series i], minimos_locais)
     else if minimo_local valores i then (maximos_locais, minimos_locais ++ [ponto series i])
          else (maximos_locais, minimos_locais))
  (seq 1 (List.length valores - 2)) ([], []).

(** [valores.index(x)]: the first position holding a value equal to [x]. *)
Fixpoint index_Q (x : Q) (valores : list Q) : result nat :=
match valores with
| [] => Raise (ValueError "x is not in list")
| v :: resto => if Qeq_bool v x then Ok 0%nat else i <- index_Q x resto ;; Ok (S i)
end.

(** The loop [for i in range(1, len(valores))] over consecutive periods. *)
Definition laco_mudancas (valores : list Q) : list MudancaBrusca :=
fold_left
  (fun mudancas_bruscas i =>
     let anterior := nth (i - 1) valores 0 in
     let atual := nth i valores 0 in
     if negb (Qeq_bool anterior 0) then
       let variacao := Qabs ((atual - anterior) / anterior * 100) in
       if Qgtb variacao 20 then
         mudancas_bruscas
         ++ [{| periodo_anterior := i;
                periodo_atual := i + 1;
                valor_anterior := anterior;
                valor_atual := atual;
                mb_variacao_percentual := quantize variacao (1 # 10);
                mb_tipo := if Qltb atual anterior then "QUEDA" else "ALTA" |}]
       else mudancas_bruscas
     else mudancas_bruscas)
  (seq 1 (List.length valores - 1)) [].

Definition _detectar_pontos_criticos (series : list ItemSerie) : result PontosCriticos :=
let valores := map valor_principal series in
let (maximos_locais, minimos_locais) := laco_extremos series in
max_absoluto <- max_lista valores ;;
min_absoluto <- min_lista valores ;;
idx_max <- index_Q max_absoluto valores ;;
idx_min <- index_Q min_absoluto valores ;;
let mudancas_bruscas := laco_mudancas valores in
Ok {| maximo_absoluto :=
        {| pe_periodo := idx_max + 1; pe_valor := max_absoluto;
           pe_data_periodo := nth idx_max (map data_periodo series) EmptyString |};
      minimo_absoluto :=
        {| pe_periodo := idx_min + 1; pe_valor := min_absoluto;
           pe_data_periodo := nth idx_min (map data_periodo series) EmptyString |};
      maximos_locais := maximos_locais;
      minimos_locais := minimos_locais;
      mudancas_bruscas := mudancas_bruscas;
      amplitude_total := max_absoluto - min_absoluto;
      numero_pontos_criticos :=
        List.length maximos_locais + List.length minimos_locais
        + List.length mudancas_bruscas |}.



End TrendAnalyzer.

Record InsightFinanceiro := {
  i_tipo : InsightType;
  i_titulo : string;
  i_descricao : string;
  prioridade : InsightPriority;
  valor_impacto : option Q;
  recomendacoes : list string;
  score_confianca : option Q
}.

(** The merged map handed to the insight engine, as far as the engine's
    final pass reads it. *)
Record DadosAnalise := {
  analise_cashflow : option (list MovimentacaoFinanceira);
  analise_inadimplencia : option (list Inadimplente)
}.

Module InsightEngine.

Definition ordem_prioridade (p : InsightPriority) : Z :=
  match p with
  | CRITICA => 4
  | ALTA => 3
  | MEDIA => 2
  | BAIXA => 1
  end%Z.

(** [float(x.valor_impacto or 0)] *)
Definition impacto (x : InsightFinanceiro) : Q :=
  match valor_impacto x with
  | Some v => v
  | None => 0
  end.

(** The sort key [(ordem_prioridade.get(x.prioridade, 0), float(x.valor_impacto or 0))]. *)
Definition chave (x : InsightFinanceiro) : Z * Q :=
  (ordem_prioridade (prioridade x), impacto x).

(** Tuple comparison [a < b]. *)
Definition chave_ltb (a b : Z * Q) : bool :=
  (fst a <? fst b)%Z || ((fst a =? fst b)%Z && Qltb (snd a) (snd b)).

Definition _priorizar_insights (insights : list InsightFinanceiro)
  : list InsightFinanceiro :=
  sorted_by (fun y x => chave_ltb (chave x) (chave y)) insights.

Definition len_opt {A : Type} (o : option (list A)) : nat :=
  match o with
  | Some l => List.length l
  | None => 0
  end.

Definition _calcular_score_confianca (insight : InsightFinanceiro)
    (dados_analise : DadosAnalise) : Q :=
  let score_base := 70 in
  let score_base :=
    match i_tipo insight with
    | KPI => score_base + 20
    | FLUXO_CAIXA =>
        let num_movimentacoes := len_opt (analise_cashflow dados_analise) in
        if (6 <=? num_movimentacoes)%nat then score_base + 15
        else if (3 <=? num_movimentacoes)%nat then score_base + 10
        else score_base
    | INADIMPLENCIA =>
        let num_inadimplentes := len_opt (analise_inadimplencia dados_analise) in
        if (5 <=? num_inadimplentes)%nat then score_base + 10 else score_base
    | _ => score_base
    end in
  let score_base :=
    match prioridade insight with
    | CRITICA => score_base + 5
    | _ => score_base
    end in
  Qmin 100 (Qmax 0 score_base).

Definition com_score (insight : InsightFinanceiro) (s : Q) : InsightFinanceiro :=
  {| i_tipo := i_tipo insight; i_titulo := i_titulo insight;
     i_descricao := i_descricao insight; prioridade := prioridade insight;
     valor_impacto := valor_impacto insight; recomendacoes := recomendacoes insight;
     score_confianca := Some s |}.



Section Gerar.
(** The rule battery that fills [self.insights_gerados] is a parameter:
    the ordering holds for whatever it generates. *)
Variable gerar_insights : DadosAnalise -> result (list InsightFinanceiro).

Definition gerar_insights_completos (dados_analise : DadosAnalise)
  : result (list InsightFinanceiro) :=
  match
    (insights_gerados <- gerar_insights dados_analise ;;
     let insights_priorizados := _priorizar_insights insights_gerados in
     Ok (map (fun insight =>
                com_score insight (_calcular_score_confianca insight dados_analise))
           insights_priorizados))
  with
  | Ok l => Ok l
  | Raise e => Raise (InsightGenerationError "insights_completos" "dados_gerais" e)
  end.
End Gerar.

Definition InsightPriority_eqb (a b : InsightPriority) : bool :=
match a, b with
| CRITICA, CRITICA | ALTA, ALTA | MEDIA, MEDIA | BAIXA, BAIXA => true
| _, _ => false
end.

Definition InsightType_eqb (a b : InsightType) : bool :=
match a, b with
| KPI, KPI | FLUXO_CAIXA, FLUXO_CAIXA | INADIMPLENCIA, INADIMPLENCIA
| TENDENCIA, TENDENCIA | ORCAMENTO, ORCAMENTO | OPERACIONAL, OPERACIONAL => true
| _, _ => false
end.

Record InsightCritico := {
ic_titulo : string;
ic_tipo : InsightType;
ic_valor_impacto : Q;
ic_score_confianca : Q
}.

Record ResumoInsights := {
total_insights : nat;
por_prioridade : list (InsightPriority * nat);
por_tipo : list (InsightType * nat);
valor_impacto_total : Q;
score_confianca_medio : Q;
insights_criticos : list InsightCritico;
recomendacoes_prioritarias : list string
}.

(** [[i.score_confianca for i in insights if i.score_confianca is not None]] *)
Fixpoint scores_validos (insights : list InsightFinanceiro) : list Q :=
match insights with
| [] => []
| i :: resto => match score_confianca i with
                | Some s => s :: scores_validos resto
                | None => scores_validos resto
                end
end.

(** The loop that extends [recomendacoes_prioritarias] with the first two
    recommendations of every critical insight. *)
Fixpoint recomendacoes_criticas (insights : list InsightFinanceiro) : list string :=
match insights with
| [] => []
| insight :: resto =>
    if InsightPriority_eqb (prioridade insight) CRITICA
    then firstn 2 (recomendacoes insight) ++ recomendacoes_criticas resto
    else recomendacoes_criticas resto
end.

Definition gerar_resumo_insights (insights : list InsightFinanceiro) : ResumoInsights :=
let por_prioridade :=
  map (fun p => (p, List.length
                      (filter (fun i => InsightPriority_eqb (prioridade i) p) insights)))
    [CRITICA; ALTA; MEDIA; BAIXA] in
let por_tipo :=
  map (fun t => (t, List.length (filter (fun i => InsightType_eqb (i_tipo i) t) insights)))
    [KPI; FLUXO_CAIXA; INADIMPLENCIA; TENDENCIA; ORCAMENTO; OPERACIONAL] in
let valor_impacto_total :=
  match insights with
  | [] => 0
  | _ => Qsum (map impacto insights)
  end in
let score_confianca_medio :=
  match scores_validos insights with
  | [] => 0
  | validos => quantize (Qsum validos / Qlen validos) (1 # 10)
  end in
{| total_insights := List.length insights;
   por_prioridade := por_prioridade;
   por_tipo := por_tipo;
   valor_impacto_total := valor_impacto_total;
   score_confianca_medio := score_confianca_medio;
   insights_criticos :=
     map (fun i => {| ic_titulo := i_titulo i;
                      ic_tipo := i_tipo i;
                      ic_valor_impacto := impacto i;
                      ic_score_confianca := match score_confianca i with
                                            | Some s => s
                                            | None => 0
                                            end |})
       (filter (fun i => InsightPriority_eqb (prioridade i) CRITICA) insights);
   recomendacoes_prioritarias := firstn 10 (recomendacoes_criticas insights) |}.

End InsightEngine.

(** ** The spec's reading of two primitives, for comparison with the code *)


(** ** KPI analysis ([core/enums.py], [core/models.py], [formatters/brazilian.py],
    [analyzers/kpi_analyzer.py]) *)

Inductive StatusKPI := CRITICO | ATENCAO | BOM | EXCELENTE.

(** The [value] of each member of the enumeration. *)
Definition StatusKPI_value (s : StatusKPI) : string :=
match s with
| CRITICO => "CRÍTICO"
| ATENCAO => "ATENÇÃO"
| BOM => "BOM"
| EXCELENTE => "EXCELENTE"
end.

Definition StatusKPI_eqb (a b : StatusKPI) : bool :=
match a, b with
| CRITICO, CRITICO | ATENCAO, ATENCAO | BOM, BOM | EXCELENTE, EXCELENTE => true
| _, _ => false
end.

(** Position of a status on the scale from worst to best. *)
Definition status_rank (s : StatusKPI) : Z :=
match s with
| CRITICO => 0
| ATENCAO => 1
| BOM => 2
| EXCELENTE => 3
end.

Record KPIFinanceiro := {
k_nome : string;
k_valor : Q;
k_unidade : string;
k_status : StatusKPI;
k_meta : option Q;
k_variacao_percentual : option Q;
k_observacoes : option string
}.

(** [sub in s] on strings. *)
Fixpoint contem (sub s : string) : bool :=
prefix sub s
|| match s with
   | EmptyString => false
   | String _ resto => contem sub resto
   end.

(** [s.replace(de, para)] for one-character [de] and [para]. *)
Fixpoint replace_char (de para : Ascii.ascii) (s : string) : string :=
match s with
| EmptyString => EmptyString
| String c resto =>
    String (if Ascii.eqb c de then para else c) (replace_char de para resto)
end.

(** [d.get(k)] on a dict kept as an association list: the first binding of
    the key. *)
Fixpoint dict_get {V : Type} (d : list (string * V)) (k : string) : option V :=
match d with
| [] => None
| (k', v) :: resto => if String.eqb k k' then Some v else dict_get resto k
end.

(** [if k in d: d[k] += 1] *)
Fixpoint incrementar (k : string) (d : list (string * nat)) : list (string * nat) :=
match d with
| [] => []
| (k', v) :: resto =>
    if String.eqb k k' then (k', S v) :: resto else (k', v) :: incrementar k resto
end.

(** [cls.__name__] inside the validators of [KPIFinanceiro]. *)
Definition KPIFinanceiro__name__ : string := "KPIFinanceiro".

(** The constructor of the pydantic model with its two validators; [lower]
    is [str.lower]. *)
Definition novo_KPIFinanceiro (lower : string -> string) (nome : string) (valor : Q)
    (unidade : string) (status : StatusKPI) (meta variacao_percentual : option Q)
    (observacoes : option string) : result KPIFinanceiro :=
if Qltb valor 0 && negb (contem "saldo" (lower KPIFinanceiro__name__))
then Raise (ValidationError "valor" "KPIs não podem ter valores negativos (exceto saldos)")
else
  if match variacao_percentual with
     | Some v => Qgtb (Qabs v) 1000
     | None => false
     end
  then Raise (ValidationError "variacao_percentual"
                "Variação percentual muito alta, verificar dados")
  else Ok {| k_nome := nome; k_valor := valor; k_unidade := unidade; k_status := status;
             k_meta := meta; k_variacao_percentual := variacao_percentual;
             k_observacoes := observacoes |}.


Record ConfiguracaoAnalise := {
thresholds_kpi : list (string * list (string * Q));
metas_mensais : option (list (string * Q))
}.

Module KPIAnalyzer.

Definition thresholds_padrao : list (string * list (string * Q)) :=
[ ("receita_total"%string,
   [("critico"%string, 10000000); ("atencao"%string, 15000000); ("bom"%string, 20000000)]);
  ("taxa_inadimplencia"%string,
   [("critico"%string, 50); ("atencao"%string, 20); ("bom"%string, 10)]);
  ("saldo_operacional"%string,
   [("critico"%string, 0); ("atencao"%string, 1000000); ("bom"%string, 2000000)]);
  ("saldo_projetado"%string,
   [("critico"%string, 0); ("atencao"%string, 2000000); ("bom"%string, 4000000)]);
  ("despesa_total"%string,
   [("critico"%string, 20000000); ("atencao"%string, 15000000); ("bom"%string, 10000000)]);
  ("recebidos_atraso"%string,
   [("critico"%string, 200); ("atencao"%string, 100); ("bom"%string, 50)]) ].

Definition kpis_invertidos : list string :=
["taxa_inadimplencia"; "despesa_total"; "recebidos_atraso"]%string.

Definition pertence (s : string) (l : list string) : bool := existsb (String.eqb s) l.

(** [valor >= thresholds.get(k, float('inf'))] *)
Definition atinge (valor : Q) (thresholds : list (string * Q)) (k : string) : bool :=
match dict_get thresholds k with
| Some t => Qgeb valor t
| None => false
end.

(** [valor <= thresholds.get(k, 0)] *)
Definition nao_passa (valor : Q) (thresholds : list (string * Q)) (k : string) : bool :=
match dict_get thresholds k with
| Some t => Qle_bool valor t
| None => Qle_bool valor 0
end.

Definition _classificar_status_kpi (nome_kpi : string) (valor : Q)
  (thresholds : list (string * Q)) : StatusKPI * string :=
match thresholds with
| [] => (BOM, "Thresholds não configurados"%string)
| _ =>
    if pertence nome_kpi kpis_invertidos then
      if atinge valor thresholds "critico" then
        (CRITICO, "Valor muito alto, requer ação imediata"%string)
      else if atinge valor thresholds "atencao" then
        (ATENCAO, "Valor acima do ideal, monitorar"%string)
      else if atinge valor thresholds "bom" then
        (BOM, "Valor dentro do aceitável"%string)
      else (EXCELENTE, "Valor excelente"%string)
    else
      if nao_passa valor thresholds "critico" then
        (CRITICO, "Valor muito baixo, requer ação imediata"%string)
      else if nao_passa valor thresholds "atencao" then
        (ATENCAO, "Valor abaixo do ideal, monitorar"%string)
      else if nao_passa valor thresholds "bom" then
        (BOM, "Valor dentro do esperado"%string)
      else (EXCELENTE, "Valor acima das expectativas"%string)
end.

Definition _determinar_unidade_kpi (nome_kpi : string) : string :=
match dict_get [ ("receita_total", "R$"); ("taxa_inadimplencia", "%");
                 ("saldo_operacional", "R$"); ("saldo_projetado", "R$");
                 ("despesa_total", "R$"); ("recebidos_atraso", "%") ]%string nome_kpi with
| Some u => u
| None => "unidade"%string
end.

Definition pesos_status (s : StatusKPI) : Z :=
match s with
| CRITICO => 0
| ATENCAO => 25
| BOM => 70
| EXCELENTE => 100
end.

Definition total_pontos (kpis : list KPIFinanceiro) : Z :=
fold_left Z.add (map (fun kpi => pesos_status (k_status kpi)) kpis) 0%Z.

Definition _calcular_score_saude_financeira (kpis : list KPIFinanceiro) : Q :=
match kpis with
| [] => 0
| _ => quantize (inject_Z (total_pontos kpis) / inject_Z (Z.of_nat (List.length kpis)))
         (1 # 10)
end.

Section Analisar.
(** [lower] and [title] are [str.lower] and [str.title].  The two steps that
    only build text with the formatter are parameters. *)
Context {Acao : Type}.
Variable lower title : string -> string.
Variable configuracao : ConfiguracaoAnalise.
Variable _gerar_recomendacoes_kpis : list KPIFinanceiro -> result (list string).
Variable _priorizar_acoes : list KPIFinanceiro -> result (list Acao).

Definition _obter_meta_kpi (nome_kpi : string) : option Q :=
match metas_mensais configuracao with
| None | Some [] => None
| Some metas => dict_get metas nome_kpi
end.

(** [valor] is the number the caller gave, already read as a decimal. *)
Definition _analisar_kpi_individual (nome : string) (valor : Q) : result KPIFinanceiro :=
try_except_calculation ("analise_kpi_" ++ nome)
  (let valor_decimal := valor in
   let nome_normalizado := replace_char " "%char "_"%char (lower nome) in
   let thresholds :=
     match dict_get (thresholds_kpi configuracao) nome_normalizado with
     | Some t => t
     | None => match dict_get thresholds_padrao nome_normalizado with
               | Some t => t
               | None => []
               end
     end in
   let (status, observacao) := _classificar_status_kpi nome_normalizado valor_decimal thresholds in
   let unidade := _determinar_unidade_kpi nome_normalizado in
   let meta := _obter_meta_kpi nome_normalizado in
   let variacao :=
     match meta with
     | Some m => if Qeq_bool m 0 then None else Some ((valor_decimal - m) / m * 100)
     | None => None
     end in
   novo_KPIFinanceiro lower (title (replace_char "_"%char " "%char nome)) valor_decimal unidade status
     meta variacao (Some observacao)).

Record Analise := {
kpis_analisados : list KPIFinanceiro;
resumo_status : list (string * nat);
score_saude_financeira : Q;
kpis_criticos : list KPIFinanceiro;
total_kpis : nat;
a_recomendacoes : list string;
prioridades_acao : list Acao
}.

(** The loop over [dados_kpis.items()]. *)
Fixpoint laco_kpis (dados_kpis : list (string * Q)) (kpis_analisados : list KPIFinanceiro)
  (resumo_status : list (string * nat))
  : result (list KPIFinanceiro * list (string * nat)) :=
match dados_kpis with
| [] => Ok (kpis_analisados, resumo_status)
| (nome_kpi, valor) :: resto =>
    kpi_analise <- _analisar_kpi_individual nome_kpi valor ;;
    let status_lower := lower (StatusKPI_value (k_status kpi_analise)) in
    laco_kpis resto (kpis_analisados ++ [kpi_analise]) (incrementar status_lower resumo_status)
end.

Definition analisar (dados_kpis : list (string * Q)) : result Analise :=
try_except_calculation "analise_kpis"
  (par <- laco_kpis dados_kpis []
            [("critico", 0); ("atencao", 0); ("bom", 0); ("excelente", 0)]%string%nat ;;
   let (kpis_analisados, resumo_status) := par : list KPIFinanceiro * list (string * nat) in
   let score_saude := _calcular_score_saude_financeira kpis_analisados in
   let kpis_criticos :=
     filter (fun kpi => StatusKPI_eqb (k_status kpi) CRITICO) kpis_analisados in
   recomendacoes <- _gerar_recomendacoes_kpis kpis_analisados ;;
   prioridades <- _priorizar_acoes kpis_criticos ;;
   Ok {| kpis_analisados := kpis_analisados;
         resumo_status := resumo_status;
         score_saude_financeira := score_saude;
         kpis_criticos := kpis_criticos;
         total_kpis := List.length kpis_analisados;
         a_recomendacoes := recomendacoes;
         prioridades_acao := prioridades |}).
End Analisar.

End KPIAnalyzer.

(** [str.lower] on the upper-case ASCII letters and on the letters of the
    Latin-1 supplement (two bytes in UTF-8, the first one 195); every other
    byte is kept. *)
Definition lower_byte (anterior : N) (c : Ascii.ascii) : Ascii.ascii :=
let n := Ascii.N_of_ascii c in
if ((65 <=? n) && (n <=? 90))%N then Ascii.ascii_of_N (n + 32)
else if ((anterior =? 195) && (128 <=? n) && (n <=? 158) && negb (n =? 151))%N
     then Ascii.ascii_of_N (n + 32)
     else c.

Fixpoint lower_desde (anterior : N) (s : string) : string :=
match s with
| EmptyString => EmptyString
| String c resto => String (lower_byte anterior c) (lower_desde (Ascii.N_of_ascii c) resto)
end.

Definition lower_latin1 (s : string) : string := lower_desde 0 s.

(** ** Sample inputs *)

(** The first entry of the repository's own test ledger has no days-late
    field; here with a debt of one cent. *)
Definition ledger_sem_dias : list InadimplenteDict :=
  [ {| d_nome := "Teste A"; d_valor_divida := 1 # 100; d_status := Some "em_atraso"%string;
       d_dias_atraso := None; d_categoria := None; d_observacoes := None |} ].

(** One monthly record: fewer than the two the cash-flow engine asks for. *)
Definition um_mes : list MovimentacaoDict :=
  [ {| m_mes := "Janeiro"; m_ano := Some 2025%Z; m_credito := 100000;
       m_debito := 80000; m_saldo_operacional := 20000 |} ].

(** Two observations: fewer than the three the generic trend engine asks for. *)
Definition dois_meses : list MovimentacaoDict :=
  [ {| m_mes := "Janeiro"; m_ano := Some 2025%Z; m_credito := 100000;
       m_debito := 80000; m_saldo_operacional := 20000 |};
    {| m_mes := "Fevereiro"; m_ano := Some 2025%Z; m_credito := 110000;
       m_debito := 85000; m_saldo_operacional := 25000 |} ].

(** Three generated insights, out of order. *)
Definition insight_exemplo (t : string) (p : InsightPriority) (v : option Q)
  : InsightFinanceiro :=
  {| i_tipo := FLUXO_CAIXA; i_titulo := t; i_descricao := t; prioridade := p;
     valor_impacto := v; recomendacoes := []; score_confianca := None |}.

Definition insights_exemplo : list InsightFinanceiro :=
  [ insight_exemplo "a" ALTA (Some 1000);
    insight_exemplo "b" CRITICA None;
    insight_exemplo "c" ALTA (Some 5000);
    insight_exemplo "d" ALTA (Some 1000) ].

Definition dados_exemplo : DadosAnalise :=
  {| analise_cashflow := None; analise_inadimplencia := None |}.

(** Six months, three of them negative but never two in a row. *)
Definition mov_exemplo (m : string) (c d s : Q) : MovimentacaoFinanceira :=
  {| mes := m; ano := 2025%Z; credito := c; debito := d; saldo_operacional := s |}.

Definition meses_intercalados : list MovimentacaoFinanceira :=
  [ mov_exemplo "Maio" 100 300 (-200);
    mov_exemplo "Junho" 400 100 300;
    mov_exemplo "Julho" 100 150 (-50);
    mov_exemplo "Agosto" 500 100 400;
    mov_exemplo "Setembro" 100 200 (-100);
    mov_exemplo "Outubro" 300 100 200 ].

Definition meses_seguidos : list MovimentacaoFinanceira :=
  [ mov_exemplo "Maio" 400 100 300;
    mov_exemplo "Junho" 100 300 (-200);
    mov_exemplo "Julho" 100 150 (-50);
    mov_exemplo "Agosto" 500 100 400 ].


(** The four-debtor ledger of the spec's third scenario. *)
Definition devedor (n : string) (v : Q) (d : Z) : Inadimplente :=
  {| nome := n; valor_divida := v; status := CONFISSAO_DIVIDA; dias_atraso := Some d;
     categoria := None; observacoes := None;
     risco := Some (classificar_risco_inadimplencia v d) |}.

Definition quatro_devedores : list Inadimplente :=
  [ devedor "B" 35000 60; devedor "A" 58980 60;
    devedor "D" (243291 # 100) 60; devedor "C" (1166667 # 100) 60 ].

(** Three debtors, one of them holding all but 2 of a total of 1,000,000. *)
Definition ledger_concentrado : list Inadimplente :=
  [ devedor "B" 1 60; devedor "A" 999998 60; devedor "C" 1 60 ].

(** A raw ledger in the shape of the repository's sample data. *)
Definition entrada (n : string) (v : Q) (s : option string) (d : option Z) : InadimplenteDict :=
  {| d_nome := n; d_valor_divida := v; d_status := s; d_dias_atraso := d;
     d_categoria := None; d_observacoes := None |}.

Definition ledger_bruto : list InadimplenteDict :=
  [ entrada "Loja A" 58980 (Some "confissao_divida"%string) None;
    entrada "Loja B" 35000 (Some "negociacao"%string) (Some 45%Z);
    entrada "Loja C" (1166667 # 100) None (Some 120%Z);
    entrada "Loja D" (243291 # 100) (Some "acordo"%string) (Some 10%Z) ].

(** The same ledger with a zero debt in third place. *)
Definition ledger_bruto_invalido : list InadimplenteDict :=
  [ entrada "Loja A" 58980 None None;
    entrada "Loja B" 35000 None (Some 45%Z);
    entrada "Loja Z" 0 None (Some 120%Z);
    entrada "Loja D" (-5) None (Some 10%Z) ].

(** Raw monthly records out of calendar order, with debits given as negative
    numbers. *)
Definition registro (m : string) (c d s : Q) : MovimentacaoDict :=
  {| m_mes := m; m_ano := None; m_credito := c; m_debito := d;
     m_saldo_operacional := s |}.

Definition registros_brutos : list MovimentacaoDict :=
  [ registro "julho" 100 (-150) (-50);
    registro "maio" 400 (-100) 300;
    registro "agosto" 500 (-100) 400;
    registro "junho" 100 (-300) (-200) ].

(** [str.lower] on texts that are lower-case already. *)
Definition lower_id (s : string) : string := s.

(** Three KPIs of one month: delinquency rate, operating balance, revenue. *)
Definition kpis_exemplo : list (string * Q) :=
[ ("taxa_inadimplencia"%string, 914 # 10);
  ("saldo_operacional"%string, 285627389 # 100);
  ("receita_total"%string, 1886075422 # 100) ].

Definition kpis_saldo_negativo : list (string * Q) :=
[ ("receita_total"%string, 1886075422 # 100);
  ("saldo_operacional"%string, -150000) ].

Definition configuracao_padrao : ConfiguracaoAnalise :=
{| thresholds_kpi := []; metas_mensais := None |}.

Definition sem_texto {A : Type} (kpis : list KPIFinanceiro) : result (list A) := Ok [].

Definition analisar_kpis_exemplo (dados_kpis : list (string * Q))
  : result (@KPIAnalyzer.Analise unit) :=
KPIAnalyzer.analisar lower_latin1 (fun s => s) configuracao_padrao sem_texto sem_texto
  dados_kpis.

Definition limites_inadimplencia : list (string * Q) :=
[("critico"%string, 50); ("atencao"%string, 20); ("bom"%string, 10)].


(** The status summary of [KPIAnalyzer.analisar] with [b] good and [e]
    excellent KPIs counted; the loop starts from [resumo_de 0 0]. *)
Definition resumo_de (b e : nat) : list (string * nat) :=
[("critico", 0); ("atencao", 0); ("bom", b); ("excelente", e)]%string%nat.

Definition item_serie (p : nat) (v : Q) : TrendAnalyzer.ItemSerie :=
{| TrendAnalyzer.periodo := p; TrendAnalyzer.valor_principal := v;
   TrendAnalyzer.data_periodo := "2025" |}.



(** A peak at period 2, a trough at period 4 and a plateau at the end. *)
Definition serie_com_picos : list TrendAnalyzer.ItemSerie :=
[ item_serie 1 100; item_serie 2 300; item_serie 3 200; item_serie 4 50;
  item_serie 5 400; item_serie 6 400 ].

(** * Properties *)

(** ** Comparisons on [Q] *)

Lemma Qgeb_true (x y : Q) : Qgeb x y = true <-> y <= x.
Proof. unfold Qgeb. apply Qle_bool_iff. Qed.

Lemma Qgeb_false (x y : Q) : Qgeb x y = false <-> x < y.
Proof.
  unfold Qgeb. split; intro H.
  - apply Qnot_le_lt. intro Hle. apply Qle_bool_iff in Hle. congruence.
  - destruct (Qle_bool y x) eqn:E; [|reflexivity].
    apply Qle_bool_iff in E. exfalso. apply (Qlt_not_le _ _ H E).
Qed.

Lemma Qltb_true (x y : Q) : Qltb x y = true <-> x < y.
Proof.
  unfold Qltb. rewrite negb_true_iff. apply (Qgeb_false x y).
Qed.

Lemma Qltb_false (x y : Q) : Qltb x y = false <-> y <= x.
Proof.
  unfold Qltb. rewrite negb_false_iff. apply Qle_bool_iff.
Qed.

Lemma Qgtb_true (x y : Q) : Qgtb x y = true <-> y < x.
Proof. apply (Qltb_true y x). Qed.

Lemma Qgtb_false (x y : Q) : Qgtb x y = false <-> x <= y.
Proof. apply (Qltb_false y x). Qed.

(** ** Risk classification *)

(** The cascade of [classificar_risco_inadimplencia] read as thresholds on the
    ordinal scale: a level is reached when the value OR the days reach it. *)
Lemma risco_por_faixas (v : Q) (d : Z) :
  ((4 <= risk_rank (classificar_risco_inadimplencia v d))%Z <-> 50000 <= v \/ (90 <= d)%Z)
  /\ ((3 <= risk_rank (classificar_risco_inadimplencia v d))%Z <-> 20000 <= v \/ (60 <= d)%Z)
  /\ ((2 <= risk_rank (classificar_risco_inadimplencia v d))%Z <-> 5000 <= v \/ (30 <= d)%Z)
  /\ ((1 <= risk_rank (classificar_risco_inadimplencia v d))%Z <-> 1000 <= v \/ (15 <= d)%Z).
Proof.
  unfold classificar_risco_inadimplencia.
  destruct (Qgeb v 50000) eqn:E1; destruct (Qgeb v 20000) eqn:E2;
    destruct (Qgeb v 5000) eqn:E3; destruct (Qgeb v 1000) eqn:E4;
    try apply Qgeb_true in E1; try apply Qgeb_false in E1;
    try apply Qgeb_true in E2; try apply Qgeb_false in E2;
    try apply Qgeb_true in E3; try apply Qgeb_false in E3;
    try apply Qgeb_true in E4; try apply Qgeb_false in E4;
    try (exfalso; lra);
    destruct (d >=? 90)%Z eqn:D1; destruct (d >=? 60)%Z eqn:D2;
    destruct (d >=? 30)%Z eqn:D3; destruct (d >=? 15)%Z eqn:D4;
    try (exfalso; lia); cbn;
    repeat split; intros; try lia; try (left; lra); try (right; lia);
    match goal with
    | H : _ \/ _ |- _ => destruct H; [exfalso; lra | exfalso; lia]
    end.
Qed.

(** Settles an equivalence [(a <= b)%Z <-> P] between constants into [P] or
    [~ P]. *)
Ltac decidir A :=
  match type of A with
  | _ <-> ?P =>
      first [ assert P by (apply A; lia)
            | assert (~ P) by (let H := fresh in intro H; apply A in H; lia) ];
      clear A
  end.

(** C5. The risk level never decreases when the debt value grows and the days
    late do not shrink, nor when the days late grow and the value does not
    shrink (so it is monotone in each argument with the other fixed); each
    tier is reached by the value threshold OR the days threshold:
    50k/90 for MUITO_ALTO, 20k/60 for ALTO, 5k/30 for MEDIO, 1k/15 for BAIXO,
    MUITO_BAIXO otherwise. *)
Theorem classificar_risco_monotone (v1 v2 : Q) (d1 d2 : Z) :
  v1 <= v2 -> (d1 <= d2)%Z ->
  (risk_rank (classificar_risco_inadimplencia v1 d1)
   <= risk_rank (classificar_risco_inadimplencia v2 d2))%Z
  /\ (classificar_risco_inadimplencia v1 d1 = MUITO_ALTO <-> 50000 <= v1 \/ (90 <= d1)%Z)
  /\ (classificar_risco_inadimplencia v1 d1 = ALTO <->
      ~ (50000 <= v1 \/ (90 <= d1)%Z) /\ (20000 <= v1 \/ (60 <= d1)%Z))
  /\ (classificar_risco_inadimplencia v1 d1 = MEDIO <->
      ~ (20000 <= v1 \/ (60 <= d1)%Z) /\ (5000 <= v1 \/ (30 <= d1)%Z))
  /\ (classificar_risco_inadimplencia v1 d1 = BAIXO <->
      ~ (5000 <= v1 \/ (30 <= d1)%Z) /\ (1000 <= v1 \/ (15 <= d1)%Z))
  /\ (classificar_risco_inadimplencia v1 d1 = MUITO_BAIXO <->
      ~ (1000 <= v1 \/ (15 <= d1)%Z)).
Proof.
  intros Hv Hd.
  destruct (risco_por_faixas v1 d1) as (A4 & A3 & A2 & A1).
  destruct (risco_por_faixas v2 d2) as (B4 & B3 & B2 & B1).
  assert (M4 : 50000 <= v1 \/ (90 <= d1)%Z -> 50000 <= v2 \/ (90 <= d2)%Z)
    by (intros [H|H]; [left; lra | right; lia]).
  assert (M3 : 20000 <= v1 \/ (60 <= d1)%Z -> 20000 <= v2 \/ (60 <= d2)%Z)
    by (intros [H|H]; [left; lra | right; lia]).
  assert (M2 : 5000 <= v1 \/ (30 <= d1)%Z -> 5000 <= v2 \/ (30 <= d2)%Z)
    by (intros [H|H]; [left; lra | right; lia]).
  assert (M1 : 1000 <= v1 \/ (15 <= d1)%Z -> 1000 <= v2 \/ (15 <= d2)%Z)
    by (intros [H|H]; [left; lra | right; lia]).
  split.
  - destruct (classificar_risco_inadimplencia v1 d1); cbn [risk_rank] in *.
    + assert (4 <= risk_rank (classificar_risco_inadimplencia v2 d2))%Z
        by (apply B4, M4, A4; lia). lia.
    + assert (3 <= risk_rank (classificar_risco_inadimplencia v2 d2))%Z
        by (apply B3, M3, A3; lia). lia.
    + assert (2 <= risk_rank (classificar_risco_inadimplencia v2 d2))%Z
        by (apply B2, M2, A2; lia). lia.
    + assert (1 <= risk_rank (classificar_risco_inadimplencia v2 d2))%Z
        by (apply B1, M1, A1; lia). lia.
    + destruct (classificar_risco_inadimplencia v2 d2); cbn [risk_rank]; lia.
  - clear B4 B3 B2 B1 M4 M3 M2 M1 Hv Hd.
    destruct (classificar_risco_inadimplencia v1 d1); cbn [risk_rank] in A4, A3, A2, A1;
      decidir A4; decidir A3; decidir A2; decidir A1;
      repeat split; intros; try discriminate; try reflexivity; tauto.
Qed.

Lemma classificar_risco_monotone_witness :
  (risk_rank (classificar_risco_inadimplencia 4000 10)
   <= risk_rank (classificar_risco_inadimplencia 25000 10))%Z.
Proof.
  apply (classificar_risco_monotone 4000 25000 10 10).
  - unfold Qle; simpl; lia.
  - lia.
Defined.

(** ** Conversion of the ledger *)

Lemma converter_inadimplente_ok (inad : InadimplenteDict) :
  0 < d_valor_divida inad ->
  match d_dias_atraso inad with Some d => (0 <= d)%Z | None => True end ->
  exists obj,
    DelinquencyAnalyzer.converter_inadimplente inad = Ok obj
    /\ nome obj = d_nome inad
    /\ valor_divida obj = d_valor_divida inad
    /\ dias_atraso obj = Some (match d_dias_atraso inad with Some d => d | None => 60%Z end)
    /\ risco obj = Some (classificar_risco_inadimplencia (d_valor_divida inad)
                           (match d_dias_atraso inad with Some d => d | None => 60%Z end)).
Proof.
  intros Hv Hd.
  unfold DelinquencyAnalyzer.converter_inadimplente, novo_Inadimplente.
  destruct (Qle_bool (d_valor_divida inad) 0) eqn:E.
  - apply Qle_bool_iff in E. exfalso. lra.
  - destruct (d_dias_atraso inad) as [d|]; cbn.
    + destruct (d <? 0)%Z eqn:D; [lia|].
      cbn. eexists. repeat split.
    + eexists. repeat split.
Qed.

(** C9. A ledger entry without the days-late field is given 60 days before
    the risk classification, so the converted debtor is at level ALTO or
    MUITO_ALTO whatever its (positive) debt is. *)
Theorem dias_atraso_padrao_risco_alto (inadimplentes : list InadimplenteDict) :
  Forall (fun inad => 0 < d_valor_divida inad
                      /\ match d_dias_atraso inad with
                         | Some d => (0 <= d)%Z
                         | None => True
                         end) inadimplentes ->
  exists objs,
    DelinquencyAnalyzer._converter_inadimplentes inadimplentes = Ok objs
    /\ Forall2 (fun inad obj =>
                  d_dias_atraso inad = None ->
                  dias_atraso obj = Some 60%Z
                  /\ (risco obj = Some ALTO \/ risco obj = Some MUITO_ALTO))
         inadimplentes objs.
Proof.
  unfold DelinquencyAnalyzer._converter_inadimplentes.
  induction 1 as [|inad l [Hv Hd] _ IH].
  - exists []. split; [reflexivity | constructor].
  - destruct IH as (objs & Hobjs & Hall).
    destruct (converter_inadimplente_ok inad Hv Hd) as (obj & Hobj & _ & _ & Hdias & Hrisco).
    exists (obj :: objs). split.
    + cbn. rewrite Hobj. cbn. rewrite Hobjs. reflexivity.
    + constructor; [|exact Hall].
      intro Hnone. rewrite Hnone in Hdias, Hrisco. split; [exact Hdias|].
      rewrite Hrisco. unfold classificar_risco_inadimplencia.
      destruct (Qgeb (d_valor_divida inad) 50000); cbn [orb Z.geb Z.compare Pos.compare
        Pos.compare_cont]; [right; reflexivity|].
      rewrite orb_true_r. left. reflexivity.
Qed.

Lemma dias_atraso_padrao_risco_alto_witness :
  exists objs,
    DelinquencyAnalyzer._converter_inadimplentes ledger_sem_dias = Ok objs
    /\ Forall2 (fun inad obj =>
                  d_dias_atraso inad = None ->
                  dias_atraso obj = Some 60%Z
                  /\ (risco obj = Some ALTO \/ risco obj = Some MUITO_ALTO))
         ledger_sem_dias objs.
Proof.
  apply (dias_atraso_padrao_risco_alto ledger_sem_dias).
  repeat constructor.
Defined.

(** ** Entry guards of the analyzers *)

(** The guard raises [InsufficientDataError] inside the [try] of [analisar],
    whose handler catches every exception: what leaves the call is the
    [CalculationError] built by the handler. *)
Lemma cashflow_poucos_registros (lower : string -> string)
    (movimentacoes : list MovimentacaoDict) :
  (List.length movimentacoes < 2)%nat ->
  CashFlowAnalyzer.analisar lower movimentacoes
  = Raise (CalculationError "analise_cashflow"
             (InsufficientDataError "analise_cashflow" 2 (List.length movimentacoes))).
Proof.
  intro H. unfold CashFlowAnalyzer.analisar.
  apply Nat.ltb_lt in H. rewrite H. reflexivity.
Qed.

Lemma tendencias_poucos_registros {Dados Resultado : Type}
    (analises : list Dados -> string -> result Resultado)
    (dados_temporais : list Dados) (tipo_analise : string) :
  (List.length dados_temporais < 3)%nat ->
  TrendAnalyzer.analisar analises dados_temporais tipo_analise
  = Raise (CalculationError "analise_tendencias"
             (InsufficientDataError "analise_tendencias" 3 (List.length dados_temporais))).
Proof.
  intro H. unfold TrendAnalyzer.analisar, TrendAnalyzer.min_periodos_tendencia.
  apply Nat.ltb_lt in H. rewrite H. reflexivity.
Qed.

(** Whatever the input, no analyzer lets an [InsufficientDataError] out. *)
Lemma try_except_nunca_InsufficientData {A : Type} (etapa : string) (corpo : result A)
    (t : string) (m a : nat) :
  try_except_calculation etapa corpo <> Raise (InsufficientDataError t m a).
Proof. destruct corpo; cbn; discriminate. Qed.

(** C3. With one monthly record the cash-flow engine, with two observations
    the generic trend engine and with an empty ledger the delinquency engine
    do not fail with an InsufficientData error: each fails with a
    CalculationError, which holds the InsufficientData error (required and
    actual counts) as its cause. *)
Theorem dados_insuficientes_saem_como_CalculationError :
  (forall lower,
      CashFlowAnalyzer.analisar lower um_mes
      = Raise (CalculationError "analise_cashflow"
                 (InsufficientDataError "analise_cashflow" 2 1)))
  /\ (forall (Resultado : Type) (analises : list MovimentacaoDict -> string -> result Resultado),
         TrendAnalyzer.analisar analises dois_meses "fluxo_caixa"
         = Raise (CalculationError "analise_tendencias"
                    (InsufficientDataError "analise_tendencias" 3 2)))
  /\ DelinquencyAnalyzer.analisar []
     = Raise (CalculationError "analise_inadimplencia"
                (InsufficientDataError "analise_inadimplencia" 1 0))
  /\ (forall lower t m a,
         CashFlowAnalyzer.analisar lower um_mes <> Raise (InsufficientDataError t m a)).
Proof.
  split; [|split; [|split]].
  - intro lower. apply (cashflow_poucos_registros lower um_mes). cbn. lia.
  - intros Resultado analises.
    apply (tendencias_poucos_registros analises dois_meses "fluxo_caixa"). cbn. lia.
  - reflexivity.
  - intros lower t m a. apply try_except_nunca_InsufficientData.
Qed.

(** ** Python's [sorted]: permutation, order, stability *)

Section PythonSortedFacts.
Context {A : Type}.
Variable antes : A -> A -> bool.

Lemma inserir_perm (x : A) (l : list A) : Permutation (inserir antes x l) (x :: l).
Proof.
  induction l as [|y ys IH]; cbn; [reflexivity|].
  destruct (antes y x); [|reflexivity].
  rewrite IH. apply perm_swap.
Qed.

Lemma sorted_by_perm (l : list A) : Permutation (sorted_by antes l) l.
Proof.
  induction l as [|x xs IH]; cbn; [reflexivity|].
  rewrite inserir_perm. constructor. exact IH.
Qed.

Lemma sorted_by_length (l : list A) : List.length (sorted_by antes l) = List.length l.
Proof. apply Permutation_length, sorted_by_perm. Qed.

Hypothesis antes_asym : forall a b, antes a b = true -> antes b a = false.
Hypothesis nao_depois_trans :
  forall a b c, nao_depois antes a b -> nao_depois antes b c -> nao_depois antes a c.

Lemma inserir_sorted (x : A) (l : list A) :
  StronglySorted (nao_depois antes) l -> StronglySorted (nao_depois antes) (inserir antes x l).
Proof.
  induction 1 as [|y ys Hs IH Hy]; cbn.
  - repeat constructor.
  - destruct (antes y x) eqn:E.
    + constructor; [exact IH|].
      apply (Permutation_Forall (Permutation_sym (inserir_perm x ys))).
      constructor; [|exact Hy]. apply antes_asym. exact E.
    + constructor; [constructor; assumption|].
      constructor; [exact E|].
      revert Hy. apply Forall_impl. intros z Hz.
      apply (nao_depois_trans x y z); assumption.
Qed.

Lemma sorted_by_sorted (l : list A) : StronglySorted (nao_depois antes) (sorted_by antes l).
Proof.
  induction l as [|x xs IH]; cbn; [constructor|].
  apply inserir_sorted. exact IH.
Qed.

(** Stability: the entries of one key class keep their input order. *)
Lemma inserir_filter (p : A -> bool) (x : A) (l : list A) :
  (forall a b, p a = true -> p b = true -> antes a b = false) ->
  filter p (inserir antes x l) = filter p (x :: l).
Proof.
  intro Hp. induction l as [|y ys IH]; [reflexivity|].
  cbn [inserir]. destruct (antes y x) eqn:E; [|reflexivity].
  cbn [filter] in *. rewrite IH.
  destruct (p x) eqn:Px; [|reflexivity].
  destruct (p y) eqn:Py; [|reflexivity].
  rewrite (Hp y x Py Px) in E. discriminate.
Qed.

Lemma sorted_by_stable (p : A -> bool) (l : list A) :
  (forall a b, p a = true -> p b = true -> antes a b = false) ->
  filter p (sorted_by antes l) = filter p l.
Proof.
  intro Hp. induction l as [|x xs IH]; [reflexivity|].
  cbn [sorted_by]. rewrite (inserir_filter p x _ Hp).
  cbn [filter]. rewrite IH. reflexivity.
Qed.
End PythonSortedFacts.

(** ** Ordering of the insights *)





Lemma StronglySorted_map {A B : Type} (R : A -> A -> Prop) (S : B -> B -> Prop)
    (f : A -> B) (l : list A) :
  (forall a b, R a b -> S (f a) (f b)) ->
  StronglySorted R l -> StronglySorted S (map f l).
Proof.
  intro HRS. induction 1 as [|x xs Hs IH Hx]; cbn; constructor; [exact IH|].
  apply Forall_map. revert Hx. apply Forall_impl. intro b. apply HRS.
Qed.




Example priorizar_insights_exemplo :
  map i_titulo (InsightEngine._priorizar_insights insights_exemplo)
  = ["b"; "c"; "a"; "d"]%string.
Proof. vm_compute. reflexivity. Qed.

(** ** Alerts of the cash-flow engine *)

Lemma stdev_ok (data : list Q) :
  (2 <= List.length data)%nat -> stdev data = Ok (fsqrt (variance data)).
Proof.
  intro H. unfold stdev.
  destruct (List.length data <? 2)%nat eqn:E; [|reflexivity].
  apply Nat.ltb_lt in E. lia.
Qed.

Lemma volatilidade_saldos_ok (movimentacoes : list MovimentacaoFinanceira) :
  exists v, CashFlowAnalyzer._calcular_volatilidade_saldos movimentacoes = Ok v.
Proof.
  unfold CashFlowAnalyzer._calcular_volatilidade_saldos.
  destruct (List.length (CashFlowAnalyzer.saldos movimentacoes) <? 2)%nat eqn:E.
  - eexists. reflexivity.
  - apply Nat.ltb_ge in E. rewrite (stdev_ok _ E). eexists. reflexivity.
Qed.

Lemma adjacentes_cons (m : MovimentacaoFinanceira) (l : list MovimentacaoFinanceira) :
  CashFlowAnalyzer.dois_negativos_adjacentes (m :: l)
  <-> (saldo_operacional m < 0
       /\ exists m2 r, l = m2 :: r /\ saldo_operacional m2 < 0)
      \/ CashFlowAnalyzer.dois_negativos_adjacentes l.
Proof.
  unfold CashFlowAnalyzer.dois_negativos_adjacentes. split.
  - intros (a & m1 & m2 & s & Heq & H1 & H2).
    destruct a as [|x a]; cbn in Heq; injection Heq as -> ->.
    + left. split; [exact H1|]. exists m2, s. split; [reflexivity | exact H2].
    + right. exists a, m1, m2, s. repeat split; assumption.
  - intros [(H1 & m2 & r & -> & H2) | (a & m1 & m2 & s & -> & H1 & H2)].
    + exists [], m, m2, r. repeat split; assumption.
    + exists (m :: a), m1, m2, s. repeat split; assumption.
Qed.

(** The counter loop leaves an alert exactly when the run it entered with
    continues, or two adjacent negative entries lie ahead. *)
Lemma laco_consecutivos_spec (l : list MovimentacaoFinanceira) (c : nat) :
  CashFlowAnalyzer.laco_consecutivos l c <> []
  <-> ((1 <= c)%nat /\ exists m r, l = m :: r /\ saldo_operacional m < 0)
      \/ CashFlowAnalyzer.dois_negativos_adjacentes l.
Proof.
  revert c. induction l as [|m r IH]; intro c.
  - cbn. split; [congruence|].
    intros [(_ & m & r & H & _) | (a & m1 & m2 & s & H & _)].
    + discriminate.
    + destruct a; discriminate.
  - cbn [CashFlowAnalyzer.laco_consecutivos]. rewrite adjacentes_cons.
    destruct (Qltb (saldo_operacional m) 0) eqn:E.
    + apply Qltb_true in E. destruct c as [|c].
      * cbn. rewrite IH. split.
        -- intros [(_ & H) | H]; [right; left; split; [exact E | exact H] | right; right; exact H].
        -- intros [(H & _) | [(_ & H) | H]]; [lia | left; split; [lia | exact H] | right; exact H].
      * cbn. split; [|discriminate].
        intros _. left. split; [lia|]. exists m, r. split; [reflexivity | exact E].
    + apply Qltb_false in E. cbn. rewrite IH. split.
      * intros [(H & _) | H]; [lia | right; right; exact H].
      * intros [(_ & m' & r' & Heq & Hneg) | [(Hneg & _) | H]].
        -- injection Heq as <- <-. lra.
        -- lra.
        -- right. exact H.
Qed.

Lemma laco_consecutivos_alertas (l : list MovimentacaoFinanceira) (c : nat) (a : CashFlowAnalyzer.Alerta) :
  In a (CashFlowAnalyzer.laco_consecutivos l c) ->
  CashFlowAnalyzer.alerta_meses_consecutivos a.
Proof.
  revert c. induction l as [|m r IH]; intro c;
    cbn [CashFlowAnalyzer.laco_consecutivos]; [intros []|].
  match goal with |- context [(2 <=? ?n)%nat] => destruct (2 <=? n)%nat end.
  - intros [<- | []]. split; reflexivity.
  - apply IH.
Qed.

Lemma laco_consecutivos_no_maximo_um (l : list MovimentacaoFinanceira) (c : nat) :
  (List.length (CashFlowAnalyzer.laco_consecutivos l c) <= 1)%nat.
Proof.
  revert c. induction l as [|m r IH]; intro c;
    cbn [CashFlowAnalyzer.laco_consecutivos]; [cbn; lia|].
  match goal with |- context [(2 <=? ?n)%nat] => destruct (2 <=? n)%nat end;
    [cbn; lia | apply IH].
Qed.

(** C7. On a non-empty sequence of movements (already in month order) the
    alert list holds a critical 'consecutive negative months' alert if and
    only if two adjacent entries both have a negative operating balance;
    negative months that are never adjacent leave no such alert. *)
Theorem alerta_consecutivos_sse_adjacentes (movimentacoes : list MovimentacaoFinanceira) :
  movimentacoes <> [] ->
  exists alertas,
    CashFlowAnalyzer._gerar_alertas_cashflow movimentacoes = Ok alertas
    /\ ((exists a, In a alertas /\ CashFlowAnalyzer.alerta_meses_consecutivos a)
        <-> CashFlowAnalyzer.dois_negativos_adjacentes movimentacoes).
Proof.
  intro Hne.
  assert (Hlaco : (exists a, In a (CashFlowAnalyzer.laco_consecutivos movimentacoes 0)
                             /\ CashFlowAnalyzer.alerta_meses_consecutivos a)
                  <-> CashFlowAnalyzer.dois_negativos_adjacentes movimentacoes).
  { split.
    - intros (a & Hin & _).
      assert (Hnn : CashFlowAnalyzer.laco_consecutivos movimentacoes 0 <> [])
        by (intro Hnil; rewrite Hnil in Hin; exact Hin).
      apply laco_consecutivos_spec in Hnn. destruct Hnn as [(H & _) | H]; [lia | exact H].
    - intro Hadj.
      assert (Hnn : CashFlowAnalyzer.laco_consecutivos movimentacoes 0 <> [])
        by (apply laco_consecutivos_spec; right; exact Hadj).
      destruct (CashFlowAnalyzer.laco_consecutivos movimentacoes 0) as [|a l] eqn:E;
        [congruence|].
      exists a. split; [left; reflexivity|].
      apply (laco_consecutivos_alertas movimentacoes 0). rewrite E. left. reflexivity. }
  unfold CashFlowAnalyzer._gerar_alertas_cashflow.
  destruct (volatilidade_saldos_ok movimentacoes) as (v & Hv). rewrite Hv. cbn [bind].
  destruct movimentacoes as [|m r]; [congruence|]. cbn [List.length Nat.eqb].
  destruct (Qgtb v _).
  - eexists. split; [reflexivity|]. rewrite <- Hlaco. split.
    + intros (a & Hin & Ha). exists a. split; [|exact Ha].
      apply in_app_or in Hin. destruct Hin as [Hin | [<- | []]]; [exact Hin|].
      destruct Ha as [Ha _]. discriminate Ha.
    + intros (a & Hin & Ha). exists a. split; [apply in_or_app; left; exact Hin | exact Ha].
  - eexists. split; [reflexivity | exact Hlaco].
Qed.

Lemma alerta_consecutivos_sse_adjacentes_witness :
  exists alertas,
    CashFlowAnalyzer._gerar_alertas_cashflow meses_intercalados = Ok alertas
    /\ ((exists a, In a alertas /\ CashFlowAnalyzer.alerta_meses_consecutivos a)
        <-> CashFlowAnalyzer.dois_negativos_adjacentes meses_intercalados).
Proof.
  apply (alerta_consecutivos_sse_adjacentes meses_intercalados).
  discriminate.
Defined.

(** Three negative months, none next to another: only the volatility alert. *)
Example meses_intercalados_sem_alerta_critico :
  option_map (map CashFlowAnalyzer.tipo)
    (match CashFlowAnalyzer._gerar_alertas_cashflow meses_intercalados with
     | Ok l => Some l
     | Raise _ => None
     end)
  = Some ["ATENCAO"%string].
Proof. vm_compute. reflexivity. Qed.

Example meses_seguidos_com_alerta_critico :
  option_map (map CashFlowAnalyzer.tipo)
    (match CashFlowAnalyzer._gerar_alertas_cashflow meses_seguidos with
     | Ok l => Some l
     | Raise _ => None
     end)
  = Some ["CRITICO"; "ATENCAO"]%string.
Proof. vm_compute. reflexivity. Qed.

(** ** [Decimal.quantize] *)

Lemma round_half_even_cases (x : Q) :
  (round_half_even x = Qfloor x /\ x - inject_Z (Qfloor x) <= 1 # 2)
  \/ (round_half_even x = (Qfloor x + 1)%Z /\ 1 # 2 <= x - inject_Z (Qfloor x)).
Proof.
  unfold round_half_even.
  destruct (Qcompare_spec (x - inject_Z (Qfloor x)) (1 # 2)) as [H|H|H].
  - destruct (Z.even (Qfloor x)); [left | right]; split; try reflexivity; rewrite H;
      apply Qle_refl.
  - left. split; [reflexivity | apply Qlt_le_weak; exact H].
  - right. split; [reflexivity | apply Qlt_le_weak; exact H].
Qed.

Lemma round_half_even_error (x : Q) :
  - (1 # 2) <= inject_Z (round_half_even x) - x <= 1 # 2.
Proof.
  pose proof (Qfloor_le x) as Hlo. pose proof (Qlt_floor x) as Hhi.
  rewrite inject_Z_plus in Hhi. change (inject_Z 1) with 1 in Hhi.
  destruct (round_half_even_cases x) as [[-> H] | [-> H]].
  - split; lra.
  - rewrite inject_Z_plus. change (inject_Z 1) with 1. split; lra.
Qed.

Lemma round_half_even_inject_Z (z : Z) : round_half_even (inject_Z z) = z.
Proof.
  unfold round_half_even. rewrite Qfloor_Z.
  assert (E : inject_Z z - inject_Z z == 0) by ring.
  destruct (Qcompare_spec (inject_Z z - inject_Z z) (1 # 2)) as [H|H|H];
    try reflexivity; exfalso; rewrite E in H; revert H; [discriminate|].
  unfold Qlt. cbn. lia.
Qed.

Lemma round_half_even_between (a b : Z) (x : Q) :
  inject_Z a <= x -> x <= inject_Z b ->
  (a <= round_half_even x <= b)%Z.
Proof.
  intros Ha Hb.
  assert (Hfa : (a <= Qfloor x)%Z).
  { rewrite <- (Qfloor_Z a). apply Qfloor_resp_le. exact Ha. }
  assert (Hfb : (Qfloor x <= b)%Z).
  { rewrite <- (Qfloor_Z b). apply Qfloor_resp_le. exact Hb. }
  destruct (round_half_even_cases x) as [[-> H] | [-> H]]; [lia|].
  split; [lia|].
  assert (Hlt : inject_Z (Qfloor x) < inject_Z b) by lra.
  rewrite <- Zlt_Qlt in Hlt. lia.
Qed.

Lemma quantize_eq (x q : Q) : quantize x q == inject_Z (round_half_even (x / q)) * q.
Proof. unfold quantize. apply Qred_correct. Qed.

(** Rounding to the quantum moves a value by at most half a quantum. *)
Lemma quantize_error (x q : Q) :
  0 < q -> Qabs (quantize x q - x) <= q / 2.
Proof.
  intro Hq. apply Qabs_Qle_condition. rewrite quantize_eq.
  pose proof (round_half_even_error (x / q)) as [Hlo Hhi].
  assert (Hx : x == (x / q) * q) by (field; lra).
  set (r := inject_Z (round_half_even (x / q))) in *.
  set (y := x / q) in *.
  assert (E : r * q - x == (r - y) * q) by (rewrite Hx at 1; ring).
  rewrite E. split.
  - setoid_replace (- (q / 2)) with (- (1 # 2) * q) by field.
    apply Qmult_le_compat_r; lra.
  - setoid_replace (q / 2) with ((1 # 2) * q) by field.
    apply Qmult_le_compat_r; lra.
Qed.

(** Rounding never crosses a multiple of the quantum. *)
Lemma quantize_between (a b : Z) (x q : Q) :
  0 < q -> inject_Z a * q <= x -> x <= inject_Z b * q ->
  inject_Z a * q <= quantize x q /\ quantize x q <= inject_Z b * q.
Proof.
  intros Hq Ha Hb. rewrite quantize_eq.
  assert (Ha' : inject_Z a <= x / q).
  { apply Qle_shift_div_l; assumption. }
  assert (Hb' : x / q <= inject_Z b).
  { apply Qle_shift_div_r; assumption. }
  destruct (round_half_even_between a b (x / q) Ha' Hb') as [H1 H2].
  rewrite Zle_Qle in H1, H2.
  split; apply Qmult_le_compat_r; lra.
Qed.

(** ** Volatility of the balances *)

Lemma sqrt_nearest_nonneg (n d : Z) : (0 <= sqrt_nearest n d)%Z.
Proof.
  unfold sqrt_nearest. pose proof (Z.sqrt_nonneg (n / d)).
  destruct (_ ?= _)%Z; [destruct (Z.even _) | |]; lia.
Qed.

Lemma fsqrt_nonneg (x : Q) : 0 <= fsqrt x.
Proof.
  unfold fsqrt. destruct (Qle_bool x 0); [apply Qle_refl|].
  rewrite Qred_correct. unfold Qdiv.
  apply Qmult_le_0_compat.
  - change 0 with (inject_Z 0). rewrite <- Zle_Qle. apply sqrt_nearest_nonneg.
  - apply Qinv_le_0_compat, Qlt_le_weak, Qpower_0_lt. reflexivity.
Qed.




(** ** Per-metric trend *)

Lemma quantize_ge (a : Z) (x q y : Q) :
  0 < q -> y == inject_Z a * q -> y <= x -> y <= quantize x q.
Proof.
  intros Hq Hy Ha. rewrite Hy in *.
  apply (quantize_between a (Qceiling (x / q)) x q Hq Ha).
  setoid_replace x with (x / q * q) at 1 by (field; lra).
  apply Qmult_le_compat_r; [apply Qle_ceiling | lra].
Qed.

Lemma quantize_le (b : Z) (x q y : Q) :
  0 < q -> y == inject_Z b * q -> x <= y -> quantize x q <= y.
Proof.
  intros Hq Hy Hb. rewrite Hy in *.
  apply (quantize_between (Qfloor (x / q)) b x q Hq); [|exact Hb].
  setoid_replace x with (x / q * q) at 2 by (field; lra).
  apply Qmult_le_compat_r; [apply Qfloor_le | lra].
Qed.

Lemma validar_percentuais_ok (campo : string) (v : Q) :
  0 <= v -> v <= 100 -> validar_percentuais campo v = Ok v.
Proof.
  intros H0 H1. unfold validar_percentuais.
  rewrite (proj2 (Qle_bool_iff 0 v) H0), (proj2 (Qle_bool_iff v 100) H1). reflexivity.
Qed.

Lemma validar_percentuais_inv (campo : string) (v w : Q) :
  validar_percentuais campo v = Ok w -> w = v /\ 0 <= v /\ v <= 100.
Proof.
  unfold validar_percentuais.
  destruct (Qle_bool 0 v) eqn:E0; destruct (Qle_bool v 100) eqn:E1; cbn; try discriminate.
  intro H. injection H as <-.
  apply Qle_bool_iff in E0, E1. auto.
Qed.

(** The intensity of either branch always passes the validator. *)
Lemma intensidade_valida (s : Q) :
  let i := if Qltb (Qabs s) (1 # 10) then 20 else Qmin 100 (Qabs (s * 100)) in
  validar_percentuais "intensidade" (quantize i (1 # 10)) = Ok (quantize i (1 # 10)).
Proof.
  intro i.
  assert (Hi : 0 <= i /\ i <= 100).
  { unfold i. destruct (Qltb (Qabs s) (1 # 10)); [split; discriminate|].
    split.
    - apply Q.min_glb; [discriminate | apply Qabs_nonneg].
    - apply Q.le_min_l. }
  destruct Hi as [H0 H1].
  apply validar_percentuais_ok.
  - apply (quantize_ge 0 i (1 # 10)); [reflexivity | unfold Qeq; reflexivity | exact H0].
  - apply (quantize_le 1000 i (1 # 10)); [reflexivity | unfold Qeq; reflexivity | exact H1].
Qed.

(** [_calcular_tendencia_metrica] returns exactly when the confidence it
    computed passes the validator, and then with these fields. *)
Lemma tendencia_metrica_spec (valores : list Q) (nome_metrica : string)
    (t : TendenciaFinanceira) :
  CashFlowAnalyzer._calcular_tendencia_metrica valores nome_metrica = Ok t
  <-> exists c,
      CashFlowAnalyzer.confiabilidade_bruta valores = Ok c
      /\ 0 <= quantize c (1 # 10) /\ quantize c (1 # 10) <= 100
      /\ t = {| metrica := nome_metrica;
                direcao := if Qltb (Qabs (CashFlowAnalyzer.slope valores)) (1 # 10)
                           then ESTAVEL
                           else if Qgtb (CashFlowAnalyzer.slope valores) 0
                                then CRESCIMENTO else DECLINIO;
                intensidade :=
                  quantize (if Qltb (Qabs (CashFlowAnalyzer.slope valores)) (1 # 10)
                            then 20
                            else Qmin 100 (Qabs (CashFlowAnalyzer.slope valores * 100)))
                    (1 # 10);
                periodo_analise := List.length valores;
                pontos_criticos := CashFlowAnalyzer.negativos 0 valores;
                confiabilidade := quantize c (1 # 10) |}.
Proof.
  unfold CashFlowAnalyzer._calcular_tendencia_metrica.
  pose proof (intensidade_valida (CashFlowAnalyzer.slope valores)) as Hint.
  cbv zeta in Hint.
  destruct (CashFlowAnalyzer.confiabilidade_bruta valores) as [c|e]; cbn [bind].
  - unfold novo_TendenciaFinanceira.
    destruct (Qltb (Qabs (CashFlowAnalyzer.slope valores)) (1 # 10));
      [|destruct (Qgtb (CashFlowAnalyzer.slope valores) 0)];
      rewrite Hint; cbn [bind];
      (split;
       [ destruct (validar_percentuais "confiabilidade" (quantize c (1 # 10))) as [w|e] eqn:V;
         cbn [bind]; [|discriminate];
         intro H; injection H as <-;
         apply validar_percentuais_inv in V; destruct V as (-> & V0 & V1);
         exists c; repeat split; assumption
       | intros (c' & Hc & V0 & V1 & ->); injection Hc as <-;
         rewrite (validar_percentuais_ok _ _ V0 V1); reflexivity ]).
  - destruct (Qltb (Qabs (CashFlowAnalyzer.slope valores)) (1 # 10));
      [|destruct (Qgtb (CashFlowAnalyzer.slope valores) 0)];
      (split; [discriminate | intros (c' & Hc & _); discriminate]).
Qed.

Lemma max_lista_In (l : list Q) (m : Q) :
  max_lista l = Ok m -> In m l.
Proof.
  destruct l as [|x xs]; cbn; [discriminate|].
  intro H. injection H as <-.
  revert x. induction xs as [|y ys IH]; intro x; cbn; [left; reflexivity|].
  destruct (Qltb x y).
  - destruct (IH y) as [H|H]; [right; left; exact H | right; right; exact H].
  - destruct (IH x) as [H|H]; [left; exact H | right; right; exact H].
Qed.

Lemma stdev_nonneg (data : list Q) (v : Q) : stdev data = Ok v -> 0 <= v.
Proof.
  unfold stdev. destruct (_ <? _)%nat; [discriminate|].
  intro H. injection H as <-. apply fsqrt_nonneg.
Qed.

(** The raw confidence: a maximum with 50, and at most 100 over a positive
    maximum of the series. *)
Lemma confiabilidade_bruta_spec (valores : list Q) (c : Q) :
  CashFlowAnalyzer.confiabilidade_bruta valores = Ok c ->
  50 <= c
  /\ exists v m, max_lista valores = Ok m /\ 0 <= v /\ ~ m == 0
                 /\ c = Qmax 50 (100 - v / m * 100).
Proof.
  unfold CashFlowAnalyzer.confiabilidade_bruta.
  destruct (if (1 <? List.length valores)%nat then stdev valores else Ok 0)
    as [v|e] eqn:Ev; cbn [bind]; [|discriminate].
  assert (Hv : 0 <= v).
  { destruct (1 <? List.length valores)%nat.
    - apply (stdev_nonneg _ _ Ev).
    - injection Ev as <-. apply Qle_refl. }
  destruct (max_lista valores) as [m|e]; cbn [bind]; [|discriminate].
  destruct (Qeq_bool m 0) eqn:Em; [discriminate|].
  intro H. injection H as <-. split; [apply Q.le_max_l|].
  exists v, m. repeat split; try assumption.
  intro Hm. apply Qeq_bool_iff in Hm. congruence.
Qed.

Lemma confiabilidade_bruta_ok (valores : list Q) (m : Q) :
  max_lista valores = Ok m -> ~ m == 0 ->
  exists c, CashFlowAnalyzer.confiabilidade_bruta valores = Ok c.
Proof.
  intros Hm Hnz. unfold CashFlowAnalyzer.confiabilidade_bruta.
  assert (Hv : exists v, (if (1 <? List.length valores)%nat then stdev valores else Ok 0)
                         = Ok v).
  { destruct (1 <? List.length valores)%nat eqn:E; [|eexists; reflexivity].
    apply Nat.ltb_lt in E. rewrite stdev_ok by lia. eexists. reflexivity. }
  destruct Hv as (v & ->). cbn [bind]. rewrite Hm. cbn [bind].
  destruct (Qeq_bool m 0) eqn:E; [|eexists; reflexivity].
  apply Qeq_bool_iff in E. contradiction.
Qed.

(** A computed confidence above 100 makes the constructor of the result
    raise. *)
Lemma tendencia_metrica_falha (valores : list Q) (nome_metrica : string) (c : Q) :
  CashFlowAnalyzer.confiabilidade_bruta valores = Ok c ->
  100 < quantize c (1 # 10) ->
  CashFlowAnalyzer._calcular_tendencia_metrica valores nome_metrica
  = Raise (ValidationError "confiabilidade" "Valores devem estar entre 0 e 100").
Proof.
  intros Hc H100.
  unfold CashFlowAnalyzer._calcular_tendencia_metrica.
  pose proof (intensidade_valida (CashFlowAnalyzer.slope valores)) as Hint.
  cbv zeta in Hint. rewrite Hc. cbn [bind].
  assert (V : validar_percentuais "confiabilidade" (quantize c (1 # 10))
              = Raise (ValidationError "confiabilidade" "Valores devem estar entre 0 e 100")).
  { unfold validar_percentuais.
    destruct (Qle_bool (quantize c (1 # 10)) 100) eqn:E.
    - apply Qle_bool_iff in E. exfalso. lra.
    - rewrite andb_false_r. reflexivity. }
  unfold novo_TendenciaFinanceira.
  destruct (Qltb (Qabs (CashFlowAnalyzer.slope valores)) (1 # 10));
    [|destruct (Qgtb (CashFlowAnalyzer.slope valores) 0)];
    rewrite Hint; cbn [bind]; rewrite V; reflexivity.
Qed.

(** C10. Every trend result the cash-flow engine produces has a confidence of
    at least 50 (and, having passed the validator, at most 100); over a
    series whose maximum is positive the computed confidence lies in
    [50, 100] and the result is produced; a series whose maximum is negative
    can push the computed value above 100, and then the construction of the
    result fails. *)
Theorem confiabilidade_minimo_50 :
  (forall valores nome t,
      CashFlowAnalyzer._calcular_tendencia_metrica valores nome = Ok t ->
      50 <= confiabilidade t /\ confiabilidade t <= 100)
  /\ (forall valores nome m,
         max_lista valores = Ok m -> 0 < m ->
         exists c t,
           CashFlowAnalyzer.confiabilidade_bruta valores = Ok c
           /\ 50 <= c /\ c <= 100
           /\ CashFlowAnalyzer._calcular_tendencia_metrica valores nome = Ok t
           /\ confiabilidade t = quantize c (1 # 10))
  /\ (exists valores m c,
         max_lista valores = Ok m /\ m < 0
         /\ CashFlowAnalyzer.confiabilidade_bruta valores = Ok c /\ 100 < c
         /\ forall nome,
             CashFlowAnalyzer._calcular_tendencia_metrica valores nome
             = Raise (ValidationError "confiabilidade" "Valores devem estar entre 0 e 100")).
Proof.
  split; [|split].
  - intros valores nome t Ht.
    apply tendencia_metrica_spec in Ht. destruct Ht as (c & Hc & _ & H100 & ->).
    cbn [confiabilidade]. split; [|exact H100].
    apply confiabilidade_bruta_spec in Hc. destruct Hc as [H50 _].
    apply (quantize_ge 500 c (1 # 10)); [reflexivity | unfold Qeq; reflexivity | exact H50].
  - intros valores nome m Hm Hpos.
    destruct (confiabilidade_bruta_ok valores m Hm) as (c & Hc); [lra|].
    destruct (confiabilidade_bruta_spec valores c Hc) as (H50 & v & m' & Hm' & Hv & _ & Ec).
    rewrite Hm in Hm'. injection Hm' as <-.
    assert (H100 : c <= 100).
    { rewrite Ec. apply Q.max_lub; [discriminate|].
      assert (0 <= v / m * 100); [|lra].
      apply Qmult_le_0_compat; [|discriminate].
      apply Qle_shift_div_l; [exact Hpos | lra]. }
    eexists c, _. split; [exact Hc|]. split; [exact H50|]. split; [exact H100|].
    split.
    + apply tendencia_metrica_spec. exists c. split; [exact Hc|]. split; [|split].
      * apply (quantize_ge 0 c (1 # 10)); [reflexivity | unfold Qeq; reflexivity | lra].
      * apply (quantize_le 1000 c (1 # 10));
          [reflexivity | unfold Qeq; reflexivity | exact H100].
      * reflexivity.
    + reflexivity.
  - exists [-1; -4; -7], (-1), 400.
    split; [reflexivity|]. split; [reflexivity|].
    split; [vm_compute; reflexivity|]. split; [reflexivity|].
    intro nome.
    apply (tendencia_metrica_falha [-1; -4; -7] nome 400).
    + vm_compute. reflexivity.
    + vm_compute. reflexivity.
Qed.

Lemma confiabilidade_minimo_50_witness :
  exists c t,
    CashFlowAnalyzer.confiabilidade_bruta [5; 5] = Ok c
    /\ 50 <= c /\ c <= 100
    /\ CashFlowAnalyzer._calcular_tendencia_metrica [5; 5] "Créditos Mensais" = Ok t
    /\ confiabilidade t = quantize c (1 # 10).
Proof.
  apply (proj1 (proj2 confiabilidade_minimo_50) [5; 5] "Créditos Mensais"%string 5).
  - reflexivity.
  - reflexivity.
Defined.





(** ** Sums *)

Lemma fold_left_Qplus (l : list Q) (a : Q) : fold_left Qplus l a == a + Qsum l.
Proof.
  unfold Qsum. revert a. induction l as [|x xs IH]; intro a; cbn.
  - ring.
  - rewrite (IH (a + x)), (IH (0 + x)). ring.
Qed.

Lemma Qsum_cons (x : Q) (l : list Q) : Qsum (x :: l) == x + Qsum l.
Proof.
  unfold Qsum at 1. cbn. rewrite fold_left_Qplus. ring.
Qed.


Lemma Qsum_perm (l1 l2 : list Q) : Permutation l1 l2 -> Qsum l1 == Qsum l2.
Proof.
  induction 1 as [| x l l' _ IH | x y l | l l' l'' _ IH1 _ IH2].
  - reflexivity.
  - rewrite !Qsum_cons, IH. reflexivity.
  - rewrite !Qsum_cons. ring.
  - rewrite IH1. exact IH2.
Qed.

Lemma Qsum_scale (l : list Q) (k : Q) : Qsum (map (fun v => v * k) l) == Qsum l * k.
Proof.
  induction l as [|x xs IH]; cbn [map].
  - unfold Qsum. cbn. ring.
  - rewrite !Qsum_cons, IH. ring.
Qed.

Lemma Qsum_pos (l : list Q) : l <> [] -> Forall (fun v => 0 < v) l -> 0 < Qsum l.
Proof.
  intros Hne Hall. destruct l as [|x xs]; [congruence|].
  inversion Hall as [|? ? Hx Hxs]; subst. rewrite Qsum_cons.
  assert (0 <= Qsum xs); [|lra].
  clear Hne Hall Hx. induction Hxs as [|y ys Hy _ IH].
  - unfold Qsum. cbn. apply Qle_refl.
  - rewrite Qsum_cons. lra.
Qed.

(** Rounding each term moves the sum by at most half a quantum per term. *)
Lemma Qsum_quantize (l : list Q) (q : Q) :
  0 < q ->
  Qabs (Qsum (map (fun x => quantize x q) l) - Qsum l)
  <= q / 2 * inject_Z (Z.of_nat (List.length l)).
Proof.
  intro Hq. induction l as [|x xs IH].
  - cbn. unfold Qsum. cbn. rewrite Qmult_0_r. discriminate.
  - cbn [map List.length]. rewrite !Qsum_cons, Nat2Z.inj_succ.
    unfold Z.succ. rewrite inject_Z_plus. change (inject_Z 1) with 1.
    setoid_replace (quantize x q + Qsum (map (fun x0 => quantize x0 q) xs)
                    - (x + Qsum xs))
      with ((quantize x q - x) + (Qsum (map (fun x0 => quantize x0 q) xs) - Qsum xs))
      by ring.
    eapply Qle_trans; [apply Qabs_triangle|].
    pose proof (quantize_error x q Hq). lra.
Qed.

(** ** Ranking of the debtors *)

Lemma dividir_ok (x y : Q) : ~ y == 0 -> DelinquencyAnalyzer.dividir x y = Ok (x / y).
Proof.
  intro H. unfold DelinquencyAnalyzer.dividir.
  destruct (Qeq_bool y 0) eqn:E; [|reflexivity].
  apply Qeq_bool_iff in E. contradiction.
Qed.

(** The share the code stores for a debt [v] in a ledger. *)
Lemma ranking_loop_ok (inadimplentes : list Inadimplente) (total i : nat)
    (ordenados : list Inadimplente) :
  ~ DelinquencyAnalyzer.soma_dividas inadimplentes == 0 ->
  exists ranking,
    DelinquencyAnalyzer.ranking_loop inadimplentes total i ordenados = Ok ranking
    /\ map DelinquencyAnalyzer.r_valor_divida ranking = map valor_divida ordenados
    /\ map DelinquencyAnalyzer.r_nome ranking = map nome ordenados
    /\ map DelinquencyAnalyzer.posicao ranking = seq i (List.length ordenados)
    /\ map DelinquencyAnalyzer.participacao_percentual ranking
       = map (fun inad =>
                quantize (valor_divida inad
                          / DelinquencyAnalyzer.soma_dividas inadimplentes * 100) (1 # 10))
           ordenados.
Proof.
  intro Hnz. revert i. induction ordenados as [|inad resto IH]; intro i.
  - exists []. cbn. repeat split.
  - destruct (IH (S i)) as (ranking & Hr & Hv & Hn & Hp & Hs).
    cbn [DelinquencyAnalyzer.ranking_loop].
    unfold DelinquencyAnalyzer.ranking_item.
    rewrite (dividir_ok _ _ Hnz). cbn [bind]. rewrite Hr. cbn [bind].
    eexists. split; [reflexivity|].
    cbn [map List.length seq DelinquencyAnalyzer.r_valor_divida DelinquencyAnalyzer.r_nome
           DelinquencyAnalyzer.posicao DelinquencyAnalyzer.participacao_percentual].
    rewrite Hv, Hn, Hp, Hs. repeat split.
Qed.

(** C8. For a non-empty ledger of (validated, hence positive) debts the
    ranking holds every debtor once; each entry's share is its debt divided
    by the sum of all debts, times 100, rounded to one decimal (so within
    0.05 of the exact quotient); and the shares add up to 100 up to that
    rounding, 0.05 per entry. *)
Theorem ranking_participacao_soma_100 (inadimplentes : list Inadimplente) :
  inadimplentes <> [] ->
  Forall (fun inad => 0 < valor_divida inad) inadimplentes ->
  exists ranking,
    DelinquencyAnalyzer._gerar_ranking_por_valor inadimplentes = Ok ranking
    /\ Permutation (map DelinquencyAnalyzer.r_valor_divida ranking)
         (map valor_divida inadimplentes)
    /\ Forall (fun item =>
                 let exata := DelinquencyAnalyzer.r_valor_divida item
                              / DelinquencyAnalyzer.soma_dividas inadimplentes * 100 in
                 DelinquencyAnalyzer.participacao_percentual item = quantize exata (1 # 10)
                 /\ Qabs (DelinquencyAnalyzer.participacao_percentual item - exata) <= 1 # 20)
         ranking
    /\ Qabs (Qsum (map DelinquencyAnalyzer.participacao_percentual ranking) - 100)
       <= (1 # 20) * inject_Z (Z.of_nat (List.length inadimplentes)).
Proof.
  intros Hne Hpos.
  set (T := DelinquencyAnalyzer.soma_dividas inadimplentes).
  assert (HT : 0 < T).
  { apply Qsum_pos.
    - destruct inadimplentes; [congruence | discriminate].
    - apply Forall_map. exact Hpos. }
  assert (Hnz : ~ T == 0) by lra.
  unfold DelinquencyAnalyzer._gerar_ranking_por_valor.
  set (ordenados := sorted_reverse_Q valor_divida inadimplentes).
  assert (Hperm : Permutation ordenados inadimplentes) by apply sorted_by_perm.
  destruct (ranking_loop_ok inadimplentes (List.length inadimplentes) 1 ordenados Hnz)
    as (ranking & Hr & Hv & _ & _ & Hp).
  exists ranking. split; [exact Hr|]. split; [|split].
  - rewrite Hv. apply Permutation_map. exact Hperm.
  - fold T in Hp.
    assert (Hp' : map DelinquencyAnalyzer.participacao_percentual ranking
                  = map (fun item => quantize (DelinquencyAnalyzer.r_valor_divida item
                                               / T * 100) (1 # 10)) ranking).
    { rewrite Hp.
      rewrite <- (map_map valor_divida (fun v => quantize (v / T * 100) (1 # 10))).
      rewrite <- Hv, map_map. reflexivity. }
    clear - Hp'. induction ranking as [|item r IH]; constructor.
    + cbn [map] in Hp'. injection Hp' as Hitem _. cbv zeta. split; [exact Hitem|].
      rewrite Hitem. apply (quantize_error _ (1 # 10)). reflexivity.
    + apply IH. cbn [map] in Hp'. injection Hp' as _ Hrest. exact Hrest.
  - fold T in Hp. rewrite Hp.
    rewrite <- (map_map (fun inad => valor_divida inad / T * 100)
                        (fun x => quantize x (1 # 10))).
    assert (Hexata : Qsum (map (fun inad => valor_divida inad / T * 100) ordenados) == 100).
    { rewrite <- (map_map valor_divida (fun v => v / T * 100)).
      assert (E' : forall l, Qsum (map (fun v => v / T * 100) l) == Qsum l * (100 / T)).
      { intro l. induction l as [|x xs IH]; cbn [map].
        - unfold Qsum. cbn. ring.
        - rewrite !Qsum_cons, IH. field. exact Hnz. }
      rewrite E'.
      rewrite (Qsum_perm _ (map valor_divida inadimplentes))
        by (apply Permutation_map; exact Hperm).
      fold (DelinquencyAnalyzer.soma_dividas inadimplentes). fold T.
      field. exact Hnz. }
    rewrite <- Hexata.
    pose proof (Qsum_quantize (map (fun inad => valor_divida inad / T * 100) ordenados)
                  (1 # 10) eq_refl) as Hq.
    rewrite length_map in Hq.
    rewrite (Permutation_length Hperm) in Hq.
    setoid_replace ((1 # 10) / 2) with (1 # 20) in Hq by reflexivity.
    exact Hq.
Qed.

Lemma ranking_participacao_soma_100_witness :
  exists ranking,
    DelinquencyAnalyzer._gerar_ranking_por_valor quatro_devedores = Ok ranking
    /\ Qabs (Qsum (map DelinquencyAnalyzer.participacao_percentual ranking) - 100)
       <= (1 # 20) * inject_Z (Z.of_nat (List.length quatro_devedores)).
Proof.
  destruct (ranking_participacao_soma_100 quatro_devedores) as (r & H1 & _ & _ & H4).
  - discriminate.
  - repeat constructor.
  - exists r. split; assumption.
Defined.

(** Shares 54.6, 32.4, 10.8 and 2.3: their sum is 100.1. *)
Example ranking_quatro_devedores :
  option_map (map (fun item => (DelinquencyAnalyzer.posicao item,
                                DelinquencyAnalyzer.r_nome item,
                                DelinquencyAnalyzer.participacao_percentual item)))
    (match DelinquencyAnalyzer._gerar_ranking_por_valor quatro_devedores with
     | Ok l => Some l
     | Raise _ => None
     end)
  = Some [ (1%nat, "A"%string, 273 # 5); (2%nat, "B"%string, 162 # 5);
           (3%nat, "C"%string, 54 # 5); (4%nat, "D"%string, 23 # 10) ].
Proof. vm_compute. reflexivity. Qed.

(** ** Concentration index *)

(** [sorted(..., reverse=True)] leaves the keys in non-increasing order. *)
Lemma sorted_reverse_Q_sorted {A : Type} (chave : A -> Q) (l : list A) :
  StronglySorted (fun a b => chave b <= chave a) (sorted_reverse_Q chave l).
Proof.
  unfold sorted_reverse_Q.
  set (antes := fun y x : A => Qltb (chave x) (chave y)).
  assert (H : StronglySorted (nao_depois antes) (sorted_by antes l)).
  { apply sorted_by_sorted.
    - intros a b Hab. unfold antes in *. apply Qltb_true in Hab. apply Qltb_false. lra.
    - intros a b c. unfold nao_depois, antes. rewrite !Qltb_false. lra. }
  rewrite <- (map_id (sorted_by antes l)).
  revert H. apply StronglySorted_map.
  intros a b. unfold nao_depois, antes. rewrite Qltb_false. exact (fun H => H).
Qed.

Lemma soma_ponderada_shift (i : nat) (valores : list Q) :
  DelinquencyAnalyzer.soma_ponderada (S i) valores
  == DelinquencyAnalyzer.soma_ponderada i valores + Qsum valores.
Proof.
  revert i. induction valores as [|v vs IH]; intro i;
    cbn [DelinquencyAnalyzer.soma_ponderada].
  - unfold Qsum. cbn. ring.
  - rewrite (IH (S i)), Qsum_cons, !Nat2Z.inj_succ. unfold Z.succ.
    rewrite !inject_Z_plus. change (inject_Z 1) with 1. ring.
Qed.

(** With the largest values first, the rank-weighted sum stays below
    [(n + 1) / 2] times the plain sum. *)
Lemma soma_ponderada_decrescente (valores : list Q) :
  StronglySorted (fun a b => b <= a) valores ->
  Forall (fun v => 0 <= v) valores ->
  2 * DelinquencyAnalyzer.soma_ponderada 1 valores
  <= (Qlen valores + 1) * Qsum valores.
Proof.
  unfold Qlen.
  induction 1 as [|x vs Hs IH Hx]; intro Hpos.
  - cbn. unfold Qsum. cbn. discriminate.
  - inversion Hpos as [|? ? Hx0 Hvs]; subst. specialize (IH Hvs).
    cbn [DelinquencyAnalyzer.soma_ponderada List.length].
    change (inject_Z (Z.of_nat 1)) with 1.
    rewrite soma_ponderada_shift, Qsum_cons, Nat2Z.inj_succ. unfold Z.succ.
    rewrite inject_Z_plus. change (inject_Z 1) with 1.
    assert (Hbound : Qsum vs <= inject_Z (Z.of_nat (List.length vs)) * x).
    { clear - Hx. induction Hx as [|y ys Hy _ IHx].
      - cbn. unfold Qsum. cbn. rewrite Qmult_0_l. discriminate.
      - cbn [List.length]. rewrite Qsum_cons, Nat2Z.inj_succ. unfold Z.succ.
        rewrite inject_Z_plus. change (inject_Z 1) with 1. lra. }
    set (n := inject_Z (Z.of_nat (List.length vs))) in *.
    set (W := DelinquencyAnalyzer.soma_ponderada 1 vs) in *.
    set (S := Qsum vs) in *.
    setoid_replace (2 * (1 * x + (W + S))) with (2 * W + (2 * x + 2 * S)) by ring.
    setoid_replace ((n + 1 + 1) * (x + S)) with (((n + 1) * S + n * x) + (2 * x + S))
      by ring.
    clear Hpos Hx0 Hvs Hs Hx.
    set (a := (n + 1) * S) in *. set (b := n * x) in *.
    lra.
Qed.

Lemma Qlen_pos (l : list Q) : l <> [] -> 0 < Qlen l.
Proof.
  intro H. unfold Qlen. destruct l as [|x xs]; [congruence|].
  cbn [List.length]. rewrite Nat2Z.inj_succ. unfold Z.succ.
  rewrite inject_Z_plus. change (inject_Z 1) with 1.
  assert (0 <= inject_Z (Z.of_nat (List.length xs))); [|lra].
  change 0 with (inject_Z 0). rewrite <- Zle_Qle. lia.
Qed.

(** The index before rounding, on the values in the order they are passed. *)
Lemma indice_gini_valor (ordenados : list Inadimplente) :
  ordenados <> [] ->
  Forall (fun inad => 0 < valor_divida inad) ordenados ->
  DelinquencyAnalyzer._calcular_indice_gini ordenados
  = Ok (quantize
          (2 * DelinquencyAnalyzer.soma_ponderada 1 (map valor_divida ordenados)
           / (Qlen (map valor_divida ordenados) * Qsum (map valor_divida ordenados))
           - (Qlen (map valor_divida ordenados) + 1) / Qlen (map valor_divida ordenados))
          (1 # 1000)).
Proof.
  intros Hne Hpos. unfold DelinquencyAnalyzer._calcular_indice_gini.
  destruct ordenados as [|x xs]; [congruence|].
  cbn [map List.length Nat.eqb]. rewrite dividir_ok; [reflexivity|].
  assert (Hn : 0 < Qlen (map valor_divida (x :: xs))) by (apply Qlen_pos; discriminate).
  assert (Hs : 0 < Qsum (map valor_divida (x :: xs))).
  { apply Qsum_pos; [discriminate | apply Forall_map; exact Hpos]. }
  unfold Qlen in Hn. cbn [map List.length] in Hn, Hs.
  intro H0.
  assert (0 < inject_Z (Z.of_nat (S (List.length (map valor_divida xs))))
              * Qsum (valor_divida x :: map valor_divida xs)).
  { apply Qmult_lt_0_compat; assumption. }
  lra.
Qed.

(** Fed with the largest debts first, as [_analisar_concentracao_dividas]
    feeds it, the Gini computation never returns a positive index. *)
Lemma indice_gini_nao_positivo (ordenados : list Inadimplente) :
  ordenados <> [] ->
  Forall (fun inad => 0 < valor_divida inad) ordenados ->
  StronglySorted (fun a b => valor_divida b <= valor_divida a) ordenados ->
  exists gini,
    DelinquencyAnalyzer._calcular_indice_gini ordenados = Ok gini /\ gini <= 0.
Proof.
  intros Hne Hpos Hsorted.
  rewrite (indice_gini_valor ordenados Hne Hpos).
  eexists. split; [reflexivity|].
  set (vs := map valor_divida ordenados).
  assert (Hvs : vs <> []) by (unfold vs; destruct ordenados; [congruence | discriminate]).
  assert (Hn : 0 < Qlen vs) by (apply Qlen_pos; exact Hvs).
  assert (Hs : 0 < Qsum vs).
  { apply Qsum_pos; [exact Hvs | apply Forall_map; exact Hpos]. }
  assert (Hw : 2 * DelinquencyAnalyzer.soma_ponderada 1 vs <= (Qlen vs + 1) * Qsum vs).
  { apply soma_ponderada_decrescente.
    - unfold vs. revert Hsorted.
      apply (StronglySorted_map _ (fun a b : Q => b <= a) valor_divida).
      intros a b H. exact H.
    - apply Forall_map. revert Hpos. apply Forall_impl. intros a H. lra. }
  apply (quantize_le 0 _ (1 # 1000)); [reflexivity | unfold Qeq; reflexivity|].
  assert (Hq : 2 * DelinquencyAnalyzer.soma_ponderada 1 vs / (Qlen vs * Qsum vs)
               <= (Qlen vs + 1) / Qlen vs).
  { apply Qle_shift_div_r; [apply Qmult_lt_0_compat; assumption|].
    setoid_replace ((Qlen vs + 1) / Qlen vs * (Qlen vs * Qsum vs))
      with ((Qlen vs + 1) * Qsum vs) by (field; lra).
    exact Hw. }
  lra.
Qed.

(** When every debt is the same amount the index is exactly 0. *)
Lemma indice_gini_valores_iguais (ordenados : list Inadimplente) (v : Q) :
  ordenados <> [] -> 0 < v ->
  Forall (fun inad => valor_divida inad == v) ordenados ->
  exists gini,
    DelinquencyAnalyzer._calcular_indice_gini ordenados = Ok gini /\ gini == 0.
Proof.
  intros Hne Hv Hall.
  assert (Hpos : Forall (fun inad => 0 < valor_divida inad) ordenados).
  { revert Hall. apply Forall_impl. intros a Ha. rewrite Ha. exact Hv. }
  rewrite (indice_gini_valor ordenados Hne Hpos).
  eexists. split; [reflexivity|].
  set (vs := map valor_divida ordenados).
  assert (Hvs : vs <> []) by (unfold vs; destruct ordenados; [congruence | discriminate]).
  assert (Hn : 0 < Qlen vs) by (apply Qlen_pos; exact Hvs).
  assert (Hall' : Forall (fun x => x == v) vs) by (apply Forall_map; exact Hall).
  assert (Hs : Qsum vs == Qlen vs * v).
  { clear - Hall'. unfold Qlen. induction Hall' as [|x xs Hx _ IH].
    - cbn. unfold Qsum. cbn. ring.
    - cbn [List.length]. rewrite Qsum_cons, IH, Hx, Nat2Z.inj_succ. unfold Z.succ.
      rewrite inject_Z_plus. change (inject_Z 1) with 1. ring. }
  assert (Hw : forall i, 2 * DelinquencyAnalyzer.soma_ponderada i vs
                         == Qlen vs * (2 * inject_Z (Z.of_nat i) + Qlen vs - 1) * v).
  { clear - Hall'. unfold Qlen. induction Hall' as [|x xs Hx _ IH]; intro i.
    - cbn. ring.
    - cbn [List.length DelinquencyAnalyzer.soma_ponderada].
      setoid_replace (2 * (inject_Z (Z.of_nat i) * x
                           + DelinquencyAnalyzer.soma_ponderada (S i) xs))
        with (2 * inject_Z (Z.of_nat i) * x
              + 2 * DelinquencyAnalyzer.soma_ponderada (S i) xs) by ring.
      rewrite (IH (S i)), Hx, !Nat2Z.inj_succ. unfold Z.succ.
      rewrite !inject_Z_plus. change (inject_Z 1) with 1. ring. }
  assert (E : 2 * DelinquencyAnalyzer.soma_ponderada 1 vs / (Qlen vs * Qsum vs)
              - (Qlen vs + 1) / Qlen vs == 0).
  { rewrite (Hw 1%nat), Hs. change (inject_Z (Z.of_nat 1)) with 1. field. lra. }
  apply Qle_antisym.
  - apply (quantize_le 0 _ (1 # 1000)); [reflexivity | unfold Qeq; reflexivity|].
    rewrite E. apply Qle_refl.
  - apply (quantize_ge 0 _ (1 # 1000)); [reflexivity | unfold Qeq; reflexivity|].
    rewrite E. apply Qle_refl.
Qed.

(** The index [_analisar_concentracao_dividas] reports is never positive:
    the ledger is sorted with the largest debt first and then ranked 1..n. *)
Lemma indice_concentracao_nao_positivo (inadimplentes : list Inadimplente) :
  inadimplentes <> [] ->
  Forall (fun inad => 0 < valor_divida inad) inadimplentes ->
  exists c,
    DelinquencyAnalyzer._analisar_concentracao_dividas inadimplentes = Ok c
    /\ DelinquencyAnalyzer.indice_concentracao c <= 0.
Proof.
  intros Hne Hpos.
  assert (HT : 0 < DelinquencyAnalyzer.soma_dividas inadimplentes).
  { apply Qsum_pos.
    - destruct inadimplentes; [congruence | discriminate].
    - apply Forall_map. exact Hpos. }
  assert (Hnz : ~ DelinquencyAnalyzer.soma_dividas inadimplentes == 0) by lra.
  pose proof (sorted_by_perm (fun y x => Qltb (valor_divida x) (valor_divida y))
                inadimplentes) as Hperm.
  fold (sorted_reverse_Q valor_divida inadimplentes) in Hperm.
  destruct (indice_gini_nao_positivo (sorted_reverse_Q valor_divida inadimplentes))
    as (gini & Hg & Hle).
  - intro Hnil. rewrite Hnil in Hperm. apply Permutation_nil in Hperm. congruence.
  - apply (Permutation_Forall (Permutation_sym Hperm)). exact Hpos.
  - apply sorted_reverse_Q_sorted.
  - unfold DelinquencyAnalyzer._analisar_concentracao_dividas.
    rewrite !(dividir_ok _ _ Hnz). cbn [bind]. rewrite Hg. cbn [bind].
    eexists. split; [reflexivity | exact Hle].
Qed.

(** C1 on a ledger of three debtors where one holds 999,998 of 1,000,000:
    the claim expects an index close to (n - 1) / n = 0.667; the code, which
    ranks the largest debt first instead of last, reports -0.667. *)
Theorem indice_gini_ledger_concentrado :
  exists c,
    DelinquencyAnalyzer._analisar_concentracao_dividas ledger_concentrado = Ok c
    /\ DelinquencyAnalyzer.indice_concentracao c == - (667 # 1000)
    /\ DelinquencyAnalyzer.indice_concentracao c < 0.
Proof.
  eexists. split; [vm_compute; reflexivity|].
  split; reflexivity.
Qed.

(** * Further properties of the analyzers *)

(** Closes the side conditions of a concrete sample (positive debts,
    non-negative days, and the like). *)
Ltac amostra :=
  repeat first [ constructor | reflexivity | discriminate | lia ].

(** ** Delinquency: indices *)

Lemma indice_concentracao_nao_positivo_witness :
  exists c,
    DelinquencyAnalyzer._analisar_concentracao_dividas quatro_devedores = Ok c
    /\ DelinquencyAnalyzer.indice_concentracao c <= 0.
Proof.
  apply (indice_concentracao_nao_positivo quatro_devedores).
  - discriminate.
  - repeat constructor.
Defined.

Lemma indice_gini_valores_iguais_witness :
  exists gini,
    DelinquencyAnalyzer._calcular_indice_gini
      [devedor "A" 5000 10; devedor "B" 5000 40; devedor "C" 5000 70] = Ok gini
    /\ gini == 0.
Proof.
  apply (indice_gini_valores_iguais _ 5000).
  - discriminate.
  - reflexivity.
  - repeat constructor.
Defined.

(** ** Delinquency: conversion of the ledger *)

Lemma converter_inadimplente_falha (inad : InadimplenteDict) :
  d_valor_divida inad <= 0 ->
  DelinquencyAnalyzer.converter_inadimplente inad
  = Raise (CalculationError ("conversao_inadimplente_" ++ d_nome inad)
             (ValidationError "valor_divida" "Valor da dívida deve ser positivo")).
Proof.
  intro H. unfold DelinquencyAnalyzer.converter_inadimplente, novo_Inadimplente.
  rewrite (proj2 (Qle_bool_iff _ _) H). reflexivity.
Qed.

(** What the conversion makes of a ledger whose entries are all valid. *)
Lemma converter_inadimplentes_ok (inadimplentes : list InadimplenteDict) :
  Forall (fun i => 0 < d_valor_divida i
                   /\ match d_dias_atraso i with
                      | Some d => (0 <= d)%Z
                      | None => True
                      end) inadimplentes ->
  exists objs,
    DelinquencyAnalyzer._converter_inadimplentes inadimplentes = Ok objs
    /\ Forall2 (fun inad obj =>
                  nome obj = d_nome inad
                  /\ valor_divida obj = d_valor_divida inad
                  /\ risco obj
                     = Some (classificar_risco_inadimplencia (d_valor_divida inad)
                               (match d_dias_atraso inad with
                                | Some d => d
                                | None => 60%Z
                                end)))
         inadimplentes objs.
Proof.
  unfold DelinquencyAnalyzer._converter_inadimplentes.
  induction 1 as [|inad l [Hv Hd] _ IH].
  - exists []. split; [reflexivity | constructor].
  - destruct IH as (objs & Hobjs & Hall).
    destruct (converter_inadimplente_ok inad Hv Hd) as (obj & Hobj & Hn & Hval & _ & Hr).
    exists (obj :: objs). split.
    + cbn. rewrite Hobj. cbn. rewrite Hobjs. reflexivity.
    + constructor; [|exact Hall]. repeat split; assumption.
Qed.

Lemma mapM_app_falha {A B : Type} (f : A -> result B) (l1 l2 : list A) (x : A)
    (ys : list B) (e : exn) :
  mapM f l1 = Ok ys -> f x = Raise e -> mapM f (l1 ++ x :: l2) = Raise e.
Proof.
  revert ys. induction l1 as [|a l IH]; intros ys H1 Hx; cbn.
  - rewrite Hx. reflexivity.
  - cbn in H1. destruct (f a) as [b|e']; cbn in *; [|discriminate].
    destruct (mapM f l) as [bs|e'] eqn:E; cbn in *; [|discriminate].
    rewrite (IH bs eq_refl Hx). reflexivity.
Qed.

(** The first entry whose debt is not positive stops the conversion; the
    error that leaves [analisar] names that debtor, and the entries after it
    are never looked at. *)
Theorem analisar_divida_nao_positiva (validos depois : list InadimplenteDict)
    (inad : InadimplenteDict) :
  Forall (fun i => 0 < d_valor_divida i
                   /\ match d_dias_atraso i with
                      | Some d => (0 <= d)%Z
                      | None => True
                      end) validos ->
  d_valor_divida inad <= 0 ->
  DelinquencyAnalyzer.analisar (validos ++ inad :: depois)
  = Raise (CalculationError "analise_inadimplencia"
             (CalculationError ("conversao_inadimplente_" ++ d_nome inad)
                (ValidationError "valor_divida" "Valor da dívida deve ser positivo"))).
Proof.
  intros Hval Hbad.
  destruct (converter_inadimplentes_ok validos Hval) as (objs & Hobjs & _).
  unfold DelinquencyAnalyzer.analisar.
  assert (E : DelinquencyAnalyzer._converter_inadimplentes (validos ++ inad :: depois)
              = Raise (CalculationError ("conversao_inadimplente_" ++ d_nome inad)
                         (ValidationError "valor_divida"
                            "Valor da dívida deve ser positivo"))).
  { apply (mapM_app_falha _ _ _ _ objs); [exact Hobjs|].
    apply converter_inadimplente_falha. exact Hbad. }
  rewrite E. destruct (validos ++ inad :: depois) eqn:L; [|reflexivity].
  destruct validos; discriminate.
Qed.

Lemma analisar_divida_nao_positiva_witness :
  DelinquencyAnalyzer.analisar ledger_bruto_invalido
  = Raise (CalculationError "analise_inadimplencia"
             (CalculationError "conversao_inadimplente_Loja Z"
                (ValidationError "valor_divida" "Valor da dívida deve ser positivo"))).
Proof.
  apply (analisar_divida_nao_positiva
           [entrada "Loja A" 58980 None None; entrada "Loja B" 35000 None (Some 45%Z)]
           [entrada "Loja D" (-5) None (Some 10%Z)]
           (entrada "Loja Z" 0 None (Some 120%Z))).
  - amostra.
  - apply Qle_refl.
Defined.

(** ** Delinquency: ranking *)

Lemma ranking_loop_Forall2 (inadimplentes : list Inadimplente) (total i : nat)
    (ordenados : list Inadimplente) (ranking : list DelinquencyAnalyzer.RankingItem) :
  DelinquencyAnalyzer.ranking_loop inadimplentes total i ordenados = Ok ranking ->
  Forall2 (fun inad item =>
             DelinquencyAnalyzer.r_nome item = nome inad
             /\ DelinquencyAnalyzer.r_valor_divida item = valor_divida inad
             /\ DelinquencyAnalyzer.r_risco item = risco inad
             /\ DelinquencyAnalyzer.r_status item = status inad)
    ordenados ranking.
Proof.
  revert i ranking. induction ordenados as [|inad resto IH]; intros i ranking;
    cbn [DelinquencyAnalyzer.ranking_loop].
  - intro H. injection H as <-. constructor.
  - unfold DelinquencyAnalyzer.ranking_item.
    destruct (DelinquencyAnalyzer.dividir _ _) as [q|e]; cbn [bind]; [|discriminate].
    destruct (DelinquencyAnalyzer.ranking_loop inadimplentes total (S i) resto)
      as [r|e] eqn:E; cbn [bind]; [|discriminate].
    intro H. injection H as <-. constructor; [repeat split | exact (IH _ _ E)].
Qed.

Lemma Forall2_filter_map {A B C : Type} (R : A -> B -> Prop) (p : A -> bool)
    (q : B -> bool) (f : A -> C) (g : B -> C) (l : list A) (l' : list B) :
  (forall a b, R a b -> p a = q b /\ f a = g b) ->
  Forall2 R l l' -> map g (filter q l') = map f (filter p l).
Proof.
  intro H. induction 1 as [|a b l l' Hab _ IH]; cbn; [reflexivity|].
  destruct (H a b Hab) as [Hp Hf]. rewrite <- Hp.
  destruct (p a); cbn; rewrite IH; [rewrite Hf|]; reflexivity.
Qed.

Lemma Forall2_StronglySorted {A B : Type} (R : A -> B -> Prop) (S : A -> A -> Prop)
    (T : B -> B -> Prop) (l : list A) (l' : list B) :
  (forall a a' b b', R a b -> R a' b' -> S a a' -> T b b') ->
  Forall2 R l l' -> StronglySorted S l -> StronglySorted T l'.
Proof.
  intro H. induction 1 as [|a b l l' Hab Hall IH]; intro Hs; [constructor|].
  inversion Hs as [|? ? Hs' Ha]; subst. constructor; [exact (IH Hs')|].
  clear - H Hab Hall Ha. induction Hall as [|a' b' l l' Hab' _ IH]; [constructor|].
  inversion Ha as [|? ? Ha1 Ha2]; subst.
  constructor; [exact (H _ _ _ _ Hab Hab' Ha1) | exact (IH Ha2)].
Qed.

(** The ranking numbers the debtors 1..n, largest debt first, and debtors
    with the same debt keep the order they have in the ledger. *)
Theorem ranking_ordenado_estavel (inadimplentes : list Inadimplente) :
  inadimplentes <> [] ->
  Forall (fun inad => 0 < valor_divida inad) inadimplentes ->
  exists ranking,
    DelinquencyAnalyzer._gerar_ranking_por_valor inadimplentes = Ok ranking
    /\ map DelinquencyAnalyzer.posicao ranking = seq 1 (List.length inadimplentes)
    /\ StronglySorted (fun a b => DelinquencyAnalyzer.r_valor_divida b
                                  <= DelinquencyAnalyzer.r_valor_divida a) ranking
    /\ forall v,
        map DelinquencyAnalyzer.r_nome
          (filter (fun item => Qeq_bool (DelinquencyAnalyzer.r_valor_divida item) v) ranking)
        = map nome (filter (fun inad => Qeq_bool (valor_divida inad) v) inadimplentes).
Proof.
  intros Hne Hpos.
  assert (HT : 0 < DelinquencyAnalyzer.soma_dividas inadimplentes).
  { apply Qsum_pos.
    - destruct inadimplentes; [congruence | discriminate].
    - apply Forall_map. exact Hpos. }
  assert (Hnz : ~ DelinquencyAnalyzer.soma_dividas inadimplentes == 0) by lra.
  unfold DelinquencyAnalyzer._gerar_ranking_por_valor.
  set (ordenados := sorted_reverse_Q valor_divida inadimplentes).
  destruct (ranking_loop_ok inadimplentes (List.length inadimplentes) 1 ordenados Hnz)
    as (ranking & Hr & _ & _ & Hp & _).
  pose proof (ranking_loop_Forall2 _ _ _ _ _ Hr) as HF.
  exists ranking. split; [exact Hr|]. split; [|split].
  - rewrite Hp. unfold ordenados, sorted_reverse_Q. rewrite sorted_by_length. reflexivity.
  - refine (Forall2_StronglySorted _ (fun a b => valor_divida b <= valor_divida a) _
              ordenados ranking _ HF (sorted_reverse_Q_sorted _ _)).
    intros a a' b b' (_ & Hb & _) (_ & Hb' & _) H. rewrite Hb, Hb'. exact H.
  - intro v.
    rewrite (fun Hc => Forall2_filter_map _ (fun inad => Qeq_bool (valor_divida inad) v)
               (fun item => Qeq_bool (DelinquencyAnalyzer.r_valor_divida item) v)
               nome DelinquencyAnalyzer.r_nome ordenados ranking Hc HF).
    + f_equal. unfold ordenados, sorted_reverse_Q. apply sorted_by_stable.
      intros a b Ha Hb. apply Qeq_bool_iff in Ha, Hb. apply Qltb_false.
      rewrite Ha, Hb. apply Qle_refl.
    + intros a b (Hn & Hb & _). rewrite Hb, Hn. split; reflexivity.
Qed.

Lemma ranking_ordenado_estavel_witness :
  exists ranking,
    DelinquencyAnalyzer._gerar_ranking_por_valor ledger_concentrado = Ok ranking
    /\ map DelinquencyAnalyzer.posicao ranking = [1; 2; 3]%nat
    /\ map DelinquencyAnalyzer.r_nome
         (filter (fun item => Qeq_bool (DelinquencyAnalyzer.r_valor_divida item) 1) ranking)
       = ["B"; "C"]%string.
Proof.
  destruct (ranking_ordenado_estavel ledger_concentrado) as (r & H1 & H2 & _ & H4).
  - discriminate.
  - amostra.
  - exists r. split; [exact H1|]. split; [exact H2 | exact (H4 1)].
Defined.

(** ** Delinquency: recovery strategies *)

Lemma estrategias_loop_spec (l : list Inadimplente) (e : DelinquencyAnalyzer.Estrategias)
    (b : DelinquencyAnalyzer.Balde) :
  let campo := fun x : DelinquencyAnalyzer.Estrategias =>
    match b with
    | DelinquencyAnalyzer.AcaoImediata => DelinquencyAnalyzer.acao_imediata x
    | DelinquencyAnalyzer.NegociacaoPrioritaria => DelinquencyAnalyzer.negociacao_prioritaria x
    | DelinquencyAnalyzer.MonitoramentoAtivo => DelinquencyAnalyzer.monitoramento_ativo x
    | DelinquencyAnalyzer.Juridico => DelinquencyAnalyzer.juridico x
    end in
  campo (DelinquencyAnalyzer.estrategias_loop l e)
  = campo e ++ map DelinquencyAnalyzer.estrategia_de
                 (filter (fun i => match DelinquencyAnalyzer.balde i, b with
                                   | DelinquencyAnalyzer.AcaoImediata,
                                     DelinquencyAnalyzer.AcaoImediata
                                   | DelinquencyAnalyzer.NegociacaoPrioritaria,
                                     DelinquencyAnalyzer.NegociacaoPrioritaria
                                   | DelinquencyAnalyzer.MonitoramentoAtivo,
                                     DelinquencyAnalyzer.MonitoramentoAtivo
                                   | DelinquencyAnalyzer.Juridico,
                                     DelinquencyAnalyzer.Juridico => true
                                   | _, _ => false
                                   end) l).
Proof.
  cbv zeta. revert e. induction l as [|i l IH]; intro e.
  - cbn. rewrite app_nil_r. reflexivity.
  - cbn [DelinquencyAnalyzer.estrategias_loop filter]. rewrite IH.
    destruct (DelinquencyAnalyzer.balde i), b; cbn; rewrite <- ?app_assoc; reflexivity.
Qed.

(** Every debtor lands in exactly one of the four strategy buckets, in ledger
    order: immediate action takes the MUITO_ALTO debts of 50,000 or more,
    priority negotiation the other debts of 20,000 or more; below 20,000 the
    ALTO and MEDIO risks are monitored and every other risk, MUITO_ALTO
    included, goes to the legal bucket. *)
Theorem estrategias_particao (inadimplentes : list Inadimplente) :
  let e := DelinquencyAnalyzer._gerar_estrategias_recuperacao inadimplentes in
  let nomes := fun p => map nome (filter p inadimplentes) in
  map DelinquencyAnalyzer.e_nome (DelinquencyAnalyzer.acao_imediata e)
  = nomes (fun i => risco_e MUITO_ALTO i && Qgeb (valor_divida i) 50000)
  /\ map DelinquencyAnalyzer.e_nome (DelinquencyAnalyzer.negociacao_prioritaria e)
     = nomes (fun i => negb (risco_e MUITO_ALTO i && Qgeb (valor_divida i) 50000)
                       && Qgeb (valor_divida i) 20000)
  /\ map DelinquencyAnalyzer.e_nome (DelinquencyAnalyzer.monitoramento_ativo e)
     = nomes (fun i => Qltb (valor_divida i) 20000 && risco_em [ALTO; MEDIO] i)
  /\ map DelinquencyAnalyzer.e_nome (DelinquencyAnalyzer.juridico e)
     = nomes (fun i => Qltb (valor_divida i) 20000 && negb (risco_em [ALTO; MEDIO] i))
  /\ (List.length (DelinquencyAnalyzer.acao_imediata e)
      + List.length (DelinquencyAnalyzer.negociacao_prioritaria e)
      + List.length (DelinquencyAnalyzer.monitoramento_ativo e)
      + List.length (DelinquencyAnalyzer.juridico e)
      = List.length inadimplentes)%nat.
Proof.
  cbv zeta. unfold DelinquencyAnalyzer._gerar_estrategias_recuperacao.
  pose proof (fun b => estrategias_loop_spec inadimplentes
      {| DelinquencyAnalyzer.acao_imediata := [];
         DelinquencyAnalyzer.negociacao_prioritaria := [];
         DelinquencyAnalyzer.monitoramento_ativo := [];
         DelinquencyAnalyzer.juridico := [] |} b) as H.
  cbv zeta in H.
  rewrite (H DelinquencyAnalyzer.AcaoImediata),
          (H DelinquencyAnalyzer.NegociacaoPrioritaria),
          (H DelinquencyAnalyzer.MonitoramentoAtivo),
          (H DelinquencyAnalyzer.Juridico).
  cbn [DelinquencyAnalyzer.acao_imediata DelinquencyAnalyzer.negociacao_prioritaria
       DelinquencyAnalyzer.monitoramento_ativo DelinquencyAnalyzer.juridico app].
  clear H.
  assert (Hnome : forall i, DelinquencyAnalyzer.e_nome (DelinquencyAnalyzer.estrategia_de i)
                            = nome i).
  { intro i. unfold DelinquencyAnalyzer.estrategia_de.
    destruct (DelinquencyAnalyzer.balde i); reflexivity. }
  rewrite !map_map, !length_map.
  assert (Hb : forall i,
             DelinquencyAnalyzer.balde i
             = if risco_e MUITO_ALTO i && Qgeb (valor_divida i) 50000
               then DelinquencyAnalyzer.AcaoImediata
               else if Qgeb (valor_divida i) 20000
                    then DelinquencyAnalyzer.NegociacaoPrioritaria
                    else if risco_em [ALTO; MEDIO] i
                         then DelinquencyAnalyzer.MonitoramentoAtivo
                         else DelinquencyAnalyzer.Juridico) by reflexivity.
  induction inadimplentes as [|i l IH]; [cbn; repeat split; reflexivity|].
  destruct IH as (I1 & I2 & I3 & I4 & I5).
  cbn [filter map List.length]. rewrite (Hb i).
  destruct (risco_e MUITO_ALTO i && Qgeb (valor_divida i) 50000) eqn:E1; cbn [negb andb].
  - assert (E2 : Qgeb (valor_divida i) 20000 = true).
    { apply andb_true_iff in E1. destruct E1 as [_ E1].
      apply Qgeb_true in E1. apply Qgeb_true. lra. }
    assert (E3 : Qltb (valor_divida i) 20000 = false).
    { apply Qltb_false. apply Qgeb_true in E2. exact E2. }
    rewrite E3. cbn [andb map List.length].
    rewrite Hnome, I1, I2, I3, I4. repeat split. lia.
  - destruct (Qgeb (valor_divida i) 20000) eqn:E2.
    + assert (E3 : Qltb (valor_divida i) 20000 = false).
      { apply Qltb_false. apply Qgeb_true in E2. exact E2. }
      rewrite E3. cbn [andb map List.length].
      rewrite Hnome, I1, I2, I3, I4. repeat split. lia.
    + assert (E3 : Qltb (valor_divida i) 20000 = true).
      { apply Qltb_true. apply Qgeb_false in E2. exact E2. }
      rewrite E3. cbn [andb].
      destruct (risco_em [ALTO; MEDIO] i); cbn [negb map List.length];
        rewrite Hnome, I1, I2, I3, I4; repeat split; lia.
Qed.

(** ** Rounding is monotone *)

Lemma round_half_even_mono (x y : Q) : x <= y -> (round_half_even x <= round_half_even y)%Z.
Proof.
  intro Hxy.
  pose proof (Qfloor_resp_le x y Hxy) as Hf.
  pose proof (Qfloor_le x) as Hx0. pose proof (Qlt_floor x) as Hx1.
  pose proof (Qfloor_le y) as Hy0. pose proof (Qlt_floor y) as Hy1.
  rewrite inject_Z_plus in Hx1, Hy1. change (inject_Z 1) with 1 in Hx1, Hy1.
  destruct (Z.eq_dec (Qfloor x) (Qfloor y)) as [E|NE].
  - unfold round_half_even. rewrite <- E.
    destruct (Qcompare_spec (x - inject_Z (Qfloor x)) (1 # 2)) as [H1|H1|H1];
      destruct (Qcompare_spec (y - inject_Z (Qfloor x)) (1 # 2)) as [H2|H2|H2];
      try (destruct (Z.even (Qfloor x))); try lia; exfalso; lra.
  - assert (Hlt : (Qfloor x + 1 <= Qfloor y)%Z) by lia.
    destruct (round_half_even_cases x) as [[-> _] | [-> _]];
      destruct (round_half_even_cases y) as [[-> _] | [-> _]]; lia.
Qed.

Lemma quantize_mono (x y q : Q) : 0 < q -> x <= y -> quantize x q <= quantize y q.
Proof.
  intros Hq Hxy. rewrite !quantize_eq.
  apply Qmult_le_compat_r; [|lra].
  rewrite <- Zle_Qle. apply round_half_even_mono.
  apply Qmult_le_compat_r; [exact Hxy|].
  apply Qlt_le_weak, Qinv_lt_0_compat. exact Hq.
Qed.

(** ** Delinquency: recovery potential *)

Lemma recuperacao_loop_spec (l : list Inadimplente) (a b : Q) :
  let otimista :=
    Qsum (map (fun i => valor_divida i
                        * DelinquencyAnalyzer.taxas_recuperacao (status i)) l) in
  fst (DelinquencyAnalyzer.recuperacao_loop l a b) == a + otimista
  /\ snd (DelinquencyAnalyzer.recuperacao_loop l a b) == b + otimista * (7 # 10).
Proof.
  cbv zeta. revert a b. induction l as [|i l IH]; intros a b.
  - cbn. unfold Qsum. cbn. split; ring.
  - cbn [DelinquencyAnalyzer.recuperacao_loop map].
    destruct (IH (a + valor_divida i * DelinquencyAnalyzer.taxas_recuperacao (status i))
                 (b + valor_divida i * DelinquencyAnalyzer.taxas_recuperacao (status i)
                      * (7 # 10))) as [H1 H2].
    rewrite H1, H2, Qsum_cons. split; ring.
Qed.

Lemma recuperacao_otimista_limites (l : list Inadimplente) :
  Forall (fun i => 0 < valor_divida i) l ->
  let otimista :=
    Qsum (map (fun i => valor_divida i
                        * DelinquencyAnalyzer.taxas_recuperacao (status i)) l) in
  (4 # 10) * DelinquencyAnalyzer.soma_dividas l <= otimista
  /\ otimista <= (9 # 10) * DelinquencyAnalyzer.soma_dividas l.
Proof.
  cbv zeta. unfold DelinquencyAnalyzer.soma_dividas.
  induction 1 as [|i l Hi _ IH]; cbn [map].
  - unfold Qsum. cbn. split; discriminate.
  - rewrite !Qsum_cons. destruct IH as [I1 I2].
    set (v := valor_divida i) in *.
    assert (Ht : (4 # 10) * v <= v * DelinquencyAnalyzer.taxas_recuperacao (status i)
                 /\ v * DelinquencyAnalyzer.taxas_recuperacao (status i) <= (9 # 10) * v).
    { destruct (status i); cbn [DelinquencyAnalyzer.taxas_recuperacao]; split; lra. }
    destruct Ht. split; lra.
Qed.

(** On a non-empty ledger of positive debts the optimistic recovery rate lies
    between 40% and 90% and the conservative one between 28% and 63%, also
    after rounding; the conservative scenario never exceeds the optimistic
    one, and the amount written off is never negative. *)
Theorem potencial_recuperacao_limites (inadimplentes : list Inadimplente) :
  inadimplentes <> [] ->
  Forall (fun inad => 0 < valor_divida inad) inadimplentes ->
  exists p,
    DelinquencyAnalyzer._calcular_potencial_recuperacao inadimplentes = Ok p
    /\ 40 <= DelinquencyAnalyzer.taxa_recuperacao_otimista p
    /\ DelinquencyAnalyzer.taxa_recuperacao_otimista p <= 90
    /\ 28 <= DelinquencyAnalyzer.taxa_recuperacao_conservadora p
    /\ DelinquencyAnalyzer.taxa_recuperacao_conservadora p <= 63
    /\ DelinquencyAnalyzer.cenario_conservador p <= DelinquencyAnalyzer.cenario_otimista p
    /\ 0 <= DelinquencyAnalyzer.valor_irrecuperavel_estimado p.
Proof.
  intros Hne Hpos.
  set (T := DelinquencyAnalyzer.soma_dividas inadimplentes).
  assert (HT : 0 < T).
  { apply Qsum_pos.
    - destruct inadimplentes; [congruence | discriminate].
    - apply Forall_map. exact Hpos. }
  assert (Hnz : ~ T == 0) by lra.
  unfold DelinquencyAnalyzer._calcular_potencial_recuperacao.
  pose proof (recuperacao_loop_spec inadimplentes 0 0) as Hs. cbv zeta in Hs.
  pose proof (recuperacao_otimista_limites inadimplentes Hpos) as Hl. cbv zeta in Hl.
  fold T in Hl.
  destruct (DelinquencyAnalyzer.recuperacao_loop inadimplentes 0 0) as [O C].
  cbn [fst snd] in Hs. destruct Hs as [HO HC]. destruct Hl as [L1 L2].
  set (S := Qsum (map (fun i => valor_divida i
                                * DelinquencyAnalyzer.taxas_recuperacao (status i))
                    inadimplentes)) in *.
  assert (EO : O == S) by (rewrite HO; ring).
  assert (EC : C == S * (7 # 10)) by (rewrite HC; ring).
  fold T. rewrite !(dividir_ok _ _ Hnz). cbn [bind].
  eexists. split; [reflexivity|].
  cbn [DelinquencyAnalyzer.taxa_recuperacao_otimista
       DelinquencyAnalyzer.taxa_recuperacao_conservadora
       DelinquencyAnalyzer.cenario_conservador DelinquencyAnalyzer.cenario_otimista
       DelinquencyAnalyzer.valor_irrecuperavel_estimado].
  assert (RO : 40 <= O / T * 100 /\ O / T * 100 <= 90).
  { split.
    - apply Qle_trans with ((4 # 10) * T / T * 100); [field_simplify; [discriminate|lra]|].
      apply Qmult_le_compat_r; [|discriminate].
      apply Qmult_le_compat_r; [lra | apply Qlt_le_weak, Qinv_lt_0_compat; exact HT].
    - apply Qle_trans with ((9 # 10) * T / T * 100); [|field_simplify; [discriminate|lra]].
      apply Qmult_le_compat_r; [|discriminate].
      apply Qmult_le_compat_r; [lra | apply Qlt_le_weak, Qinv_lt_0_compat; exact HT]. }
  assert (RC : C / T * 100 == (O / T * 100) * (7 # 10)).
  { rewrite EC, EO. field. exact Hnz. }
  destruct RO as [RO1 RO2].
  repeat split.
  - apply (quantize_ge 400 _ (1 # 10)); [reflexivity | unfold Qeq; reflexivity | exact RO1].
  - apply (quantize_le 900 _ (1 # 10)); [reflexivity | unfold Qeq; reflexivity | exact RO2].
  - apply (quantize_ge 280 _ (1 # 10)); [reflexivity | unfold Qeq; reflexivity | lra].
  - apply (quantize_le 630 _ (1 # 10)); [reflexivity | unfold Qeq; reflexivity | lra].
  - apply quantize_mono; [reflexivity | lra].
  - apply (quantize_ge 0 _ (1 # 100)); [reflexivity | unfold Qeq; reflexivity | lra].
Qed.

Lemma potencial_recuperacao_limites_witness :
  exists p,
    DelinquencyAnalyzer._calcular_potencial_recuperacao quatro_devedores = Ok p
    /\ 28 <= DelinquencyAnalyzer.taxa_recuperacao_conservadora p
    /\ DelinquencyAnalyzer.taxa_recuperacao_conservadora p <= 63.
Proof.
  destruct (potencial_recuperacao_limites quatro_devedores)
    as (p & H & _ & _ & H1 & H2 & _).
  - discriminate.
  - amostra.
  - exists p. repeat split; assumption.
Defined.

(** ** Delinquency: risk profile *)

Lemma contar_particao2 {A : Type} (p : A -> bool) (l : list A) :
  (contar p l + contar (fun x => negb (p x)) l = List.length l)%nat.
Proof.
  unfold contar. induction l as [|x xs IH]; cbn; [reflexivity|].
  destruct (p x); cbn; lia.
Qed.

Lemma contar_le {A : Type} (p : A -> bool) (l : list A) :
  (contar p l <= List.length l)%nat.
Proof. pose proof (contar_particao2 p l). lia. Qed.

(** The four value bands and the six statuses each count every debtor once;
    the share of high-risk debtors is a percentage; when every debtor has a
    risk level the five risk counts add up to the ledger as well. *)
Theorem perfil_risco_particao (inadimplentes : list Inadimplente) :
  inadimplentes <> [] ->
  exists p,
    DelinquencyAnalyzer._analisar_perfil_risco inadimplentes = Ok p
    /\ (DelinquencyAnalyzer.acima_50k p + DelinquencyAnalyzer.de_20k_a_50k p
        + DelinquencyAnalyzer.de_5k_a_20k p + DelinquencyAnalyzer.abaixo_5k p
        = List.length inadimplentes)%nat
    /\ list_sum (map snd (DelinquencyAnalyzer.distribuicao_status p))
       = List.length inadimplentes
    /\ (Forall (fun i => risco i <> None) inadimplentes ->
        list_sum (map snd (DelinquencyAnalyzer.distribuicao_risco p))
        = List.length inadimplentes)
    /\ 0 <= DelinquencyAnalyzer.concentracao_alto_risco p
    /\ DelinquencyAnalyzer.concentracao_alto_risco p <= 100.
Proof.
  intro Hne.
  set (n := inject_Z (Z.of_nat (List.length inadimplentes))).
  assert (Hn : 0 < n).
  { unfold n. destruct inadimplentes as [|x xs]; [congruence|].
    cbn [List.length]. rewrite Nat2Z.inj_succ. unfold Z.succ.
    rewrite inject_Z_plus. change (inject_Z 1) with 1.
    assert (0 <= inject_Z (Z.of_nat (List.length xs))); [|lra].
    change 0 with (inject_Z 0). rewrite <- Zle_Qle. lia. }
  assert (Hnz : ~ n == 0) by lra.
  unfold DelinquencyAnalyzer._analisar_perfil_risco. fold n.
  rewrite !(dividir_ok _ _ Hnz). cbn [bind].
  assert (Hmax : exists m, max_lista (map valor_divida inadimplentes) = Ok m)
    by (destruct inadimplentes; [congruence | eexists; reflexivity]).
  assert (Hmin : exists m, min_lista (map valor_divida inadimplentes) = Ok m)
    by (destruct inadimplentes; [congruence | eexists; reflexivity]).
  destruct Hmax as (M & ->). destruct Hmin as (m & ->). cbn [bind].
  eexists. split; [reflexivity|].
  cbn [DelinquencyAnalyzer.acima_50k DelinquencyAnalyzer.de_20k_a_50k
       DelinquencyAnalyzer.de_5k_a_20k DelinquencyAnalyzer.abaixo_5k
       DelinquencyAnalyzer.distribuicao_status DelinquencyAnalyzer.distribuicao_risco
       DelinquencyAnalyzer.concentracao_alto_risco].
  clear M m.
  split; [|split; [|split; [|split]]].
  - unfold contar, DelinquencyAnalyzer.valor_alto, DelinquencyAnalyzer.valor_medio,
      DelinquencyAnalyzer.valor_baixo.
    clear. induction inadimplentes as [|i l IH]; [reflexivity|]. cbn [filter].
    destruct (Qgeb (valor_divida i) 50000) eqn:E1;
      destruct (Qle_bool 20000 (valor_divida i)) eqn:E2;
      destruct (Qle_bool 5000 (valor_divida i)) eqn:E3;
      destruct (Qltb (valor_divida i) 50000) eqn:E4;
      destruct (Qltb (valor_divida i) 20000) eqn:E5;
      destruct (Qltb (valor_divida i) 5000) eqn:E6;
      try apply Qgeb_true in E1; try apply Qgeb_false in E1;
      try apply Qle_bool_iff in E2; try apply Qle_bool_iff in E3;
      try apply Qltb_true in E4; try apply Qltb_false in E4;
      try apply Qltb_true in E5; try apply Qltb_false in E5;
      try apply Qltb_true in E6; try apply Qltb_false in E6;
      try (exfalso; lra); cbn [andb List.length]; try lia.
    all: exfalso.
    all: try (assert (~ 20000 <= valor_divida i)
                by (intro H; apply Qle_bool_iff in H; congruence); lra).
    all: try (assert (~ 5000 <= valor_divida i)
                by (intro H; apply Qle_bool_iff in H; congruence); lra).
  - cbn [map snd list_sum]. unfold contar. clear.
    induction inadimplentes as [|i l IH]; [reflexivity|]. cbn [filter].
    destruct (status i); cbn [DebtStatus_eqb List.length];
      unfold list_sum in *; cbn [fold_right] in *; lia.
  - intro Hall. cbn [map snd list_sum]. unfold contar, risco_e. clear - Hall.
    induction Hall as [|i l Hi _ IH]; [reflexivity|]. cbn [filter].
    destruct (risco i) as [[]|]; [| | | | |congruence];
      cbn [RiskLevel_eqb List.length]; unfold list_sum in *; cbn [fold_right] in *; lia.
  - apply (quantize_ge 0 _ (1 # 10)); [reflexivity | unfold Qeq; reflexivity|].
    apply Qmult_le_0_compat; [|discriminate].
    apply Qle_shift_div_l; [exact Hn|]. rewrite Qmult_0_l.
    change 0 with (inject_Z 0). rewrite <- Zle_Qle. lia.
  - apply (quantize_le 1000 _ (1 # 10)); [reflexivity | unfold Qeq; reflexivity|].
    setoid_replace 100 with (1 * 100) at 2 by reflexivity.
    apply Qmult_le_compat_r; [|discriminate].
    apply Qle_shift_div_r; [exact Hn|]. rewrite Qmult_1_l.
    unfold n. rewrite <- Zle_Qle. apply inj_le.
    pose proof (contar_le (risco_em [MUITO_ALTO; ALTO]) inadimplentes) as H.
    exact H.
Qed.

Lemma perfil_risco_particao_witness :
  exists p,
    DelinquencyAnalyzer._analisar_perfil_risco quatro_devedores = Ok p
    /\ (DelinquencyAnalyzer.acima_50k p + DelinquencyAnalyzer.de_20k_a_50k p
        + DelinquencyAnalyzer.de_5k_a_20k p + DelinquencyAnalyzer.abaixo_5k p = 4)%nat.
Proof.
  destruct (perfil_risco_particao quatro_devedores) as (p & H & H1 & _).
  - discriminate.
  - exists p. split; assumption.
Defined.

(** ** Delinquency: collection priority *)

(** With the risk level the classifier gives, a debt of 50,000 or more is
    never ranked below ALTA, whatever its position and status; and no debt
    under 20,000 is ever CRÍTICA. *)
Theorem prioridade_cobranca_limites (inad : Inadimplente) (posicao total : nat) (d : Z) :
  risco inad = Some (classificar_risco_inadimplencia (valor_divida inad) d) ->
  (50000 <= valor_divida inad ->
   DelinquencyAnalyzer._calcular_prioridade_cobranca inad posicao total = "CRÍTICA"%string
   \/ DelinquencyAnalyzer._calcular_prioridade_cobranca inad posicao total = "ALTA"%string)
  /\ (valor_divida inad < 20000 ->
      DelinquencyAnalyzer._calcular_prioridade_cobranca inad posicao total
      <> "CRÍTICA"%string).
Proof.
  intro Hr. unfold DelinquencyAnalyzer._calcular_prioridade_cobranca,
    DelinquencyAnalyzer.valor_alto, DelinquencyAnalyzer.valor_medio.
  rewrite Hr. clear Hr.
  set (p := if Qle_bool _ _ then 30%Z else if Qle_bool _ _ then 20%Z else 10%Z).
  assert (Hp : (10 <= p <= 30)%Z).
  { unfold p. destruct (Qle_bool _ _); [lia|]. destruct (Qle_bool _ _); lia. }
  clearbody p.
  assert (Hs : (5 <= DelinquencyAnalyzer.status_scores (status inad) <= 20)%Z)
    by (destruct (status inad); cbn; lia).
  set (s := DelinquencyAnalyzer.status_scores (status inad)) in *. clearbody s.
  split; intro Hv.
  - assert (E : Qgeb (valor_divida inad) 50000 = true) by (apply Qgeb_true; exact Hv).
    rewrite E. unfold classificar_risco_inadimplencia. rewrite E.
    cbn [orb DelinquencyAnalyzer.risco_scores].
    destruct (40 + p + s + 10 >=? 80)%Z eqn:E80; [left; reflexivity|].
    destruct (40 + p + s + 10 >=? 60)%Z eqn:E60; [right; reflexivity|]. lia.
  - assert (E1 : Qgeb (valor_divida inad) 50000 = false) by (apply Qgeb_false; lra).
    assert (E2 : Qgeb (valor_divida inad) 20000 = false) by (apply Qgeb_false; exact Hv).
    rewrite E1, E2.
    set (r := DelinquencyAnalyzer.risco_scores _).
    assert (Hrr : (1 <= r <= 10)%Z).
    { unfold r. destruct (classificar_risco_inadimplencia _ _); cbn; lia. }
    clearbody r.
    destruct (10 + p + s + r >=? 80)%Z eqn:E80; [lia|].
    destruct (10 + p + s + r >=? 60)%Z; [discriminate|].
    destruct (10 + p + s + r >=? 40)%Z; discriminate.
Qed.

Lemma prioridade_cobranca_limites_witness :
  DelinquencyAnalyzer._calcular_prioridade_cobranca (devedor "A" 58980 60) 4 4
  = "CRÍTICA"%string
  \/ DelinquencyAnalyzer._calcular_prioridade_cobranca (devedor "A" 58980 60) 4 4
     = "ALTA"%string.
Proof.
  apply (prioridade_cobranca_limites (devedor "A" 58980 60) 4 4 60).
  - reflexivity.
  - discriminate.
Defined.

(** ** Delinquency: when [analisar] returns *)

Lemma mapM_Ok_inv {A B : Type} (f : A -> result B) (l : list A) (ys : list B) :
  mapM f l = Ok ys -> Forall2 (fun x y => f x = Ok y) l ys.
Proof.
  revert ys. induction l as [|x xs IH]; intro ys; cbn.
  - intro H. injection H as <-. constructor.
  - destruct (f x) as [y|e] eqn:E; cbn; [|discriminate].
    destruct (mapM f xs) as [zs|e]; cbn; [|discriminate].
    intro H. injection H as <-. constructor; [exact E | apply IH; reflexivity].
Qed.

Lemma converter_inadimplente_Ok_inv (inad : InadimplenteDict) (obj : Inadimplente) :
  DelinquencyAnalyzer.converter_inadimplente inad = Ok obj ->
  0 < d_valor_divida inad
  /\ match d_dias_atraso inad with Some d => (0 <= d)%Z | None => True end.
Proof.
  unfold DelinquencyAnalyzer.converter_inadimplente, novo_Inadimplente.
  destruct (Qle_bool (d_valor_divida inad) 0) eqn:E; [discriminate|].
  assert (Hv : 0 < d_valor_divida inad).
  { apply Qnot_le_lt. intro H. apply Qle_bool_iff in H. congruence. }
  destruct (d_dias_atraso inad) as [d|]; cbn.
  - destruct (d <? 0)%Z eqn:D; [discriminate|].
    intros _. split; [exact Hv | lia].
  - intros _. split; [exact Hv | exact I].
Qed.

(** [analisar] returns a result exactly for the non-empty ledgers whose
    debts are all positive and whose days late, where given, are not
    negative; on every other ledger it raises. *)
Theorem analisar_retorna_sse_ledger_valido (inadimplentes : list InadimplenteDict) :
  (exists r, DelinquencyAnalyzer.analisar inadimplentes = Ok r)
  <-> inadimplentes <> []
      /\ Forall (fun i => 0 < d_valor_divida i
                          /\ match d_dias_atraso i with
                             | Some d => (0 <= d)%Z
                             | None => True
                             end) inadimplentes.
Proof.
  split.
  - intros (r & Hr). unfold DelinquencyAnalyzer.analisar in Hr.
    destruct inadimplentes as [|x xs]; [discriminate|].
    split; [discriminate|].
    destruct (DelinquencyAnalyzer._converter_inadimplentes (x :: xs)) as [objs|e] eqn:E;
      [|discriminate].
    apply mapM_Ok_inv in E. clear Hr.
    induction E as [|a b l l' Hab _ IH]; constructor; [|exact IH].
    exact (converter_inadimplente_Ok_inv a b Hab).
  - intros (Hne & Hall).
    destruct (converter_inadimplentes_ok inadimplentes Hall) as (objs & Hobjs & HF).
    assert (Hne' : objs <> []).
    { intro Hnil. subst objs. inversion HF. congruence. }
    assert (Hpos : Forall (fun inad => 0 < valor_divida inad) objs).
    { clear - HF Hall. induction HF as [|a b l l' (_ & Hv & _) _ IH]; constructor.
      - inversion Hall as [|? ? [Ha _] _]; subst. rewrite Hv. exact Ha.
      - apply IH. inversion Hall; assumption. }
    destruct (ranking_loop_ok objs (List.length objs) 1
                (sorted_reverse_Q valor_divida objs)) as (rk & Hrk & _).
    { assert (0 < DelinquencyAnalyzer.soma_dividas objs); [|lra].
      apply Qsum_pos; [destruct objs; [congruence | discriminate]|].
      apply Forall_map. exact Hpos. }
    destruct (indice_gini_nao_positivo (sorted_reverse_Q valor_divida objs))
      as (g & Hg & _).
    { intro Hnil. pose proof (sorted_by_length
        (fun y x => Qltb (valor_divida x) (valor_divida y)) objs) as Hl.
      fold (sorted_reverse_Q valor_divida objs) in Hl. rewrite Hnil in Hl.
      destruct objs; [congruence | discriminate]. }
    { apply (Permutation_Forall (Permutation_sym (sorted_by_perm _ objs))). exact Hpos. }
    { apply sorted_reverse_Q_sorted. }
    unfold DelinquencyAnalyzer.analisar.
    destruct inadimplentes as [|x xs]; [congruence|].
    rewrite Hobjs. cbn [bind].
    unfold DelinquencyAnalyzer._gerar_ranking_por_valor. rewrite Hrk. cbn [bind].
    unfold DelinquencyAnalyzer._analisar_concentracao_dividas.
    assert (Hnz : ~ DelinquencyAnalyzer.soma_dividas objs == 0).
    { assert (0 < DelinquencyAnalyzer.soma_dividas objs); [|lra].
      apply Qsum_pos; [destruct objs; [congruence | discriminate]|].
      apply Forall_map. exact Hpos. }
    rewrite !(dividir_ok _ _ Hnz). cbn [bind]. rewrite Hg. cbn [bind].
    eexists. reflexivity.
Qed.

(** ** Cash flow: critical months *)

Lemma filter_some_Forall {A B : Type} (f : A -> option B) (P : B -> Prop) (l : list A) :
  (forall x y, In x l -> f x = Some y -> P y) -> Forall P (CashFlowAnalyzer.filter_some f l).
Proof.
  induction l as [|x xs IH]; intro H; cbn; [constructor|].
  destruct (f x) as [y|] eqn:E.
  - constructor; [apply (H x y); [left; reflexivity | exact E]|].
    apply IH. intros a b Ha. apply H. right. exact Ha.
  - apply IH. intros a b Ha. apply H. right. exact Ha.
Qed.

Lemma filter_some_map {A B C : Type} (f : A -> option B) (g : B -> C) (h : A -> C)
    (p : A -> bool) (l : list A) :
  (forall x, match f x with Some y => p x = true /\ g y = h x | None => p x = false end) ->
  map g (CashFlowAnalyzer.filter_some f l) = map h (filter p l).
Proof.
  intro H. induction l as [|x xs IH]; cbn; [reflexivity|].
  specialize (H x). destruct (f x) as [y|].
  - destruct H as [-> Hg]. cbn. rewrite Hg, IH. reflexivity.
  - rewrite H. exact IH.
Qed.

Lemma mes_critico_spec (movimentacoes : list MovimentacaoFinanceira)
    (mov : MovimentacaoFinanceira) :
  match CashFlowAnalyzer.mes_critico movimentacoes mov with
  | Some m =>
      (CashFlowAnalyzer.saldo_negativo mov || CashFlowAnalyzer.debito_excessivo mov
       || CashFlowAnalyzer.credito_baixo movimentacoes mov = true)
      /\ CashFlowAnalyzer.mc_periodo m = CashFlowAnalyzer.periodo_completo mov
      /\ CashFlowAnalyzer.mc_saldo_operacional m = saldo_operacional mov
      /\ In (CashFlowAnalyzer.score_risco m) [20; 30; 50; 70; 80; 100]%Z
      /\ (saldo_operacional mov < 0 ->
          (50 <= CashFlowAnalyzer.score_risco m)%Z
          /\ CashFlowAnalyzer.recomendacao_prazo m
             <> "Monitoramento (15-30 dias)"%string)
      /\ List.length (CashFlowAnalyzer.problemas_identificados m)
         = ((if CashFlowAnalyzer.saldo_negativo mov then 1 else 0)
            + (if CashFlowAnalyzer.debito_excessivo mov then 1 else 0)
            + (if CashFlowAnalyzer.credito_baixo movimentacoes mov then 1 else 0))%nat
  | None =>
      CashFlowAnalyzer.saldo_negativo mov || CashFlowAnalyzer.debito_excessivo mov
      || CashFlowAnalyzer.credito_baixo movimentacoes mov = false
  end.
Proof.
  unfold CashFlowAnalyzer.mes_critico.
  assert (Hneg : CashFlowAnalyzer.saldo_negativo mov = false -> ~ saldo_operacional mov < 0).
  { unfold CashFlowAnalyzer.saldo_negativo. intros H Hlt. apply Qltb_false in H. lra. }
  destruct (CashFlowAnalyzer.saldo_negativo mov);
    destruct (CashFlowAnalyzer.debito_excessivo mov);
    destruct (CashFlowAnalyzer.credito_baixo movimentacoes mov);
    cbn; try reflexivity;
    (split; [reflexivity|]; split; [reflexivity|]; split; [reflexivity|];
     split; [tauto|]; split; [|reflexivity]);
    intro Hlt; try (exfalso; apply (Hneg eq_refl); exact Hlt);
    (split; [lia | discriminate]).
Qed.

(** The critical months come with the highest risk score first; a score is
    one of 20, 30, 50, 70, 80, 100; the list holds exactly the months with a
    negative balance, a debit above 1.5 times the credit, or a credit below
    half the mean credit; a month with a negative balance scores at least 50
    and is never left to mere monitoring. *)
Theorem meses_criticos_ordenados_e_limitados
    (movimentacoes : list MovimentacaoFinanceira) :
  let meses := CashFlowAnalyzer._identificar_meses_criticos movimentacoes in
  StronglySorted (fun a b => (CashFlowAnalyzer.score_risco b
                              <= CashFlowAnalyzer.score_risco a)%Z) meses
  /\ Forall (fun m => In (CashFlowAnalyzer.score_risco m) [20; 30; 50; 70; 80; 100]%Z) meses
  /\ Permutation (map CashFlowAnalyzer.mc_periodo meses)
       (map CashFlowAnalyzer.periodo_completo
          (filter (fun mov => CashFlowAnalyzer.saldo_negativo mov
                              || CashFlowAnalyzer.debito_excessivo mov
                              || CashFlowAnalyzer.credito_baixo movimentacoes mov)
             movimentacoes))
  /\ Forall (fun m => CashFlowAnalyzer.mc_saldo_operacional m < 0 ->
                      (50 <= CashFlowAnalyzer.score_risco m)%Z
                      /\ CashFlowAnalyzer.recomendacao_prazo m
                         <> "Monitoramento (15-30 dias)"%string) meses.
Proof.
  cbv zeta. unfold CashFlowAnalyzer._identificar_meses_criticos.
  set (brutos := CashFlowAnalyzer.filter_some
                   (CashFlowAnalyzer.mes_critico movimentacoes) movimentacoes).
  set (antes := fun y x : CashFlowAnalyzer.MesCritico =>
                  (CashFlowAnalyzer.score_risco x <? CashFlowAnalyzer.score_risco y)%Z).
  pose proof (sorted_by_perm antes brutos) as Hperm.
  split; [|split; [|split]].
  - assert (H : StronglySorted (nao_depois antes) (sorted_by antes brutos)).
    { apply sorted_by_sorted.
      - intros a b. unfold antes. rewrite Z.ltb_lt, Z.ltb_ge. lia.
      - intros a b c. unfold nao_depois, antes. rewrite !Z.ltb_ge. lia. }
    rewrite <- (map_id (sorted_by antes brutos)). revert H.
    apply StronglySorted_map. intros a b. unfold nao_depois, antes.
    rewrite Z.ltb_ge. exact (fun H => H).
  - apply (Permutation_Forall (Permutation_sym Hperm)).
    apply filter_some_Forall. intros mov m _ Hm.
    pose proof (mes_critico_spec movimentacoes mov) as H. rewrite Hm in H.
    destruct H as (_ & _ & _ & H & _). exact H.
  - rewrite (Permutation_map CashFlowAnalyzer.mc_periodo Hperm).
    unfold brutos.
    rewrite (filter_some_map _ CashFlowAnalyzer.mc_periodo CashFlowAnalyzer.periodo_completo
               (fun mov => CashFlowAnalyzer.saldo_negativo mov
                           || CashFlowAnalyzer.debito_excessivo mov
                           || CashFlowAnalyzer.credito_baixo movimentacoes mov));
      [reflexivity|].
    intro mov. pose proof (mes_critico_spec movimentacoes mov) as H.
    destruct (CashFlowAnalyzer.mes_critico movimentacoes mov); [|exact H].
    destruct H as (H1 & H2 & _). split; assumption.
  - apply (Permutation_Forall (Permutation_sym Hperm)).
    apply filter_some_Forall. intros mov m _ Hm.
    pose proof (mes_critico_spec movimentacoes mov) as H. rewrite Hm in H.
    destruct H as (_ & _ & Hs & _ & H & _). rewrite Hs. exact H.
Qed.

Example meses_criticos_de_meses_seguidos :
  map (fun m => (fst (CashFlowAnalyzer.mc_periodo m), CashFlowAnalyzer.score_risco m))
    (CashFlowAnalyzer._identificar_meses_criticos meses_seguidos)
  = [("Junho", 100); ("Julho", 70)]%string%Z.
Proof. vm_compute. reflexivity. Qed.

(** ** Cash flow: conversion of the monthly records *)

Lemma obter_indice_mes_lt_12 (lower : string -> string) (m : string) :
  (CashFlowAnalyzer._obter_indice_mes lower m < 12)%nat.
Proof.
  unfold CashFlowAnalyzer._obter_indice_mes, CashFlowAnalyzer.meses_ordem,
    CashFlowAnalyzer.abreviacoes.
  set (s := lower m). clearbody s.
  cbn [CashFlowAnalyzer.index_of CashFlowAnalyzer.get_or].
  repeat match goal with
         | |- context [String.eqb ?a s] => destruct (String.eqb a s); [lia|]
         end.
  lia.
Qed.

Lemma converter_movimentacao_ok (mov : MovimentacaoDict) :
  0 <= m_credito mov ->
  CashFlowAnalyzer.converter_movimentacao mov
  = Ok {| mes := m_mes mov;
          ano := match m_ano mov with Some a => a | None => 2025%Z end;
          credito := m_credito mov;
          debito := Qabs (m_debito mov);
          saldo_operacional := m_saldo_operacional mov |}.
Proof.
  intro H. unfold CashFlowAnalyzer.converter_movimentacao, novo_MovimentacaoFinanceira.
  rewrite (proj2 (Qltb_false _ _) H).
  rewrite (proj2 (Qltb_false _ _) (Qabs_nonneg (m_debito mov))). reflexivity.
Qed.

Lemma mapM_ok {A B : Type} (f : A -> result B) (g : A -> B) (l : list A) :
  Forall (fun x => f x = Ok (g x)) l -> mapM f l = Ok (map g l).
Proof.
  induction 1 as [|x xs Hx _ IH]; cbn; [reflexivity|].
  rewrite Hx. cbn. rewrite IH. reflexivity.
Qed.

(** Records with non-negative credits are all converted: the result holds
    every record once, with the debit replaced by its absolute value, in the
    order of the month table (index below 12, unknown names counting as
    January), records of the same month keeping their input order. *)
Theorem converter_movimentacoes_ordena (lower : string -> string)
    (movimentacoes : list MovimentacaoDict) :
  Forall (fun mov => 0 <= m_credito mov) movimentacoes ->
  let indice := fun o => CashFlowAnalyzer._obter_indice_mes lower (mes o) in
  let objeto := fun mov =>
    {| mes := m_mes mov;
       ano := match m_ano mov with Some a => a | None => 2025%Z end;
       credito := m_credito mov;
       debito := Qabs (m_debito mov);
       saldo_operacional := m_saldo_operacional mov |} in
  exists objs,
    CashFlowAnalyzer._converter_movimentacoes lower movimentacoes = Ok objs
    /\ Permutation objs (map objeto movimentacoes)
    /\ StronglySorted (fun a b => (indice a <= indice b < 12)%nat) objs
    /\ Forall (fun o => 0 <= debito o /\ 0 <= credito o) objs
    /\ forall k, filter (fun o => (indice o =? k)%nat) objs
                 = filter (fun o => (indice o =? k)%nat) (map objeto movimentacoes).
Proof.
  intros Hc indice objeto.
  unfold CashFlowAnalyzer._converter_movimentacoes.
  rewrite (mapM_ok _ objeto).
  2:{ revert Hc. apply Forall_impl. intros mov H. apply converter_movimentacao_ok. exact H. }
  cbn [bind].
  set (antes := fun y x : MovimentacaoFinanceira =>
                  (CashFlowAnalyzer._obter_indice_mes lower (mes y)
                   <? CashFlowAnalyzer._obter_indice_mes lower (mes x))%nat).
  eexists. split; [reflexivity|]. split; [apply sorted_by_perm|]. split; [|split].
  - assert (H : StronglySorted (nao_depois antes) (sorted_by antes (map objeto movimentacoes))).
    { apply sorted_by_sorted.
      - intros a b. unfold antes. rewrite Nat.ltb_lt, Nat.ltb_ge. lia.
      - intros a b c. unfold nao_depois, antes. rewrite !Nat.ltb_ge. lia. }
    rewrite <- (map_id (sorted_by antes _)). revert H.
    apply StronglySorted_map. intros a b. unfold nao_depois, antes, indice.
    rewrite Nat.ltb_ge. intro H. split; [exact H | apply obter_indice_mes_lt_12].
  - apply (Permutation_Forall (Permutation_sym (sorted_by_perm antes _))).
    apply Forall_map. revert Hc. apply Forall_impl. intros mov H. cbn.
    split; [apply Qabs_nonneg | exact H].
  - intro k. apply sorted_by_stable.
    intros a b Ha Hb. unfold antes. apply Nat.eqb_eq in Ha, Hb. unfold indice in *.
    apply Nat.ltb_ge. lia.
Qed.

Lemma converter_movimentacoes_ordena_witness :
  exists objs,
    CashFlowAnalyzer._converter_movimentacoes lower_id registros_brutos = Ok objs
    /\ Forall (fun o => 0 <= debito o /\ 0 <= credito o) objs.
Proof.
  destruct (converter_movimentacoes_ordena lower_id registros_brutos)
    as (objs & H & _ & _ & H1 & _).
  - amostra.
  - exists objs. split; assumption.
Defined.

Example converter_registros_brutos :
  option_map (map (fun o => (mes o, debito o)))
    (match CashFlowAnalyzer._converter_movimentacoes lower_id registros_brutos with
     | Ok l => Some l
     | Raise _ => None
     end)
  = Some [("maio", 100); ("junho", 300); ("julho", 150); ("agosto", 100)]%string.
Proof. vm_compute. reflexivity. Qed.

(** ** Cash flow: monthly summary *)





(** ** Cash flow: projections *)

Lemma Qsum_nonneg (l : list Q) : Forall (fun v => 0 <= v) l -> 0 <= Qsum l.
Proof.
  induction 1 as [|x xs Hx _ IH].
  - unfold Qsum. cbn. apply Qle_refl.
  - rewrite Qsum_cons. lra.
Qed.

Lemma Forall_skipn {A : Type} (P : A -> Prop) (n : nat) (l : list A) :
  Forall P l -> Forall P (skipn n l).
Proof.
  revert l. induction n as [|n IH]; intros l H; cbn; [exact H|].
  destruct l; [constructor|]. apply IH. inversion H; assumption.
Qed.

(** A projection is produced only from three months on. The three projected
    months are one and the same figure: the debit is the mean debit of the
    last three months, the credit their mean credit moved by at most 10% up
    or down, each to the cent. *)
Theorem projecoes_planas (movimentacoes : list MovimentacaoFinanceira)
    (p : CashFlowAnalyzer.Projecoes) :
  Forall (fun m => 0 <= credito m) movimentacoes ->
  CashFlowAnalyzer._gerar_projecoes movimentacoes = Ok (Some p) ->
  let media_creditos :=
    Qsum (map credito (CashFlowAnalyzer.ultimos_3 movimentacoes)) / 3 in
  let media_debitos :=
    Qsum (map debito (CashFlowAnalyzer.ultimos_3 movimentacoes)) / 3 in
  (3 <= List.length movimentacoes)%nat
  /\ exists pm,
      CashFlowAnalyzer.projecoes_mensais p = [(1%nat, pm); (2%nat, pm); (3%nat, pm)]
      /\ CashFlowAnalyzer.debito_projetado pm = quantize media_debitos (1 # 100)
      /\ quantize (media_creditos * (9 # 10)) (1 # 100)
         <= CashFlowAnalyzer.credito_projetado pm
      /\ CashFlowAnalyzer.credito_projetado pm
         <= quantize (media_creditos * (11 # 10)) (1 # 100).
Proof.
  intros Hc Hp mc md.
  unfold CashFlowAnalyzer._gerar_projecoes in Hp.
  destruct (List.length movimentacoes <? 3)%nat eqn:E3; [discriminate|].
  apply Nat.ltb_ge in E3. split; [exact E3|].
  destruct (CashFlowAnalyzer._calcular_tendencia_metrica
              (map saldo_operacional movimentacoes) "Saldo") as [t|e] eqn:Et;
    cbn [bind] in Hp; [|discriminate].
  injection Hp as <-. cbn [map CashFlowAnalyzer.projecoes_mensais].
  eexists. split; [reflexivity|].
  cbn [CashFlowAnalyzer.debito_projetado CashFlowAnalyzer.credito_projetado].
  split; [reflexivity|]. fold mc.
  assert (Hmc : 0 <= mc).
  { unfold mc. apply Qle_shift_div_l; [reflexivity|]. rewrite Qmult_0_l.
    apply Qsum_nonneg, Forall_map. unfold CashFlowAnalyzer.ultimos_3.
    apply Forall_skipn. exact Hc. }
  assert (Hi : 0 <= intensidade t /\ intensidade t <= 100).
  { apply tendencia_metrica_spec in Et. destruct Et as (c & _ & _ & _ & ->).
    cbn [intensidade].
    pose proof (intensidade_valida
                  (CashFlowAnalyzer.slope (map saldo_operacional movimentacoes))) as V.
    cbv zeta in V. apply validar_percentuais_inv in V. tauto. }
  destruct Hi as [Hi0 Hi1].
  set (i := intensidade t) in *. clearbody i.
  assert (Hf : 0 <= i / 100 * (1 # 10) /\ i / 100 * (1 # 10) <= 1 # 10).
  { split.
    - apply Qmult_le_0_compat; [|discriminate].
      apply Qle_shift_div_l; [reflexivity | lra].
    - setoid_replace (1 # 10) with (1 * (1 # 10)) at 2 by reflexivity.
      apply Qmult_le_compat_r; [|discriminate].
      apply Qle_shift_div_r; [reflexivity | lra]. }
  destruct Hf as [Hf0 Hf1].
  set (f := i / 100 * (1 # 10)) in *. clearbody f.
  assert (Hprod : 0 <= mc * f /\ mc * f <= mc * (1 # 10)).
  { split; [apply Qmult_le_0_compat; assumption|].
    rewrite (Qmult_comm mc f), (Qmult_comm mc (1 # 10)).
    apply Qmult_le_compat_r; assumption. }
  destruct Hprod as [Hp0 Hp1].
  split; apply quantize_mono; try reflexivity;
    destruct (direcao t);
    try setoid_replace (mc * (1 + f)) with (mc + mc * f) by ring;
    try setoid_replace (mc * (1 - f)) with (mc - mc * f) by ring;
    lra.
Qed.

Lemma projecoes_planas_witness :
  exists p pm,
    CashFlowAnalyzer._gerar_projecoes meses_seguidos = Ok (Some p)
    /\ CashFlowAnalyzer.projecoes_mensais p = [(1%nat, pm); (2%nat, pm); (3%nat, pm)].
Proof.
  assert (E : exists p, CashFlowAnalyzer._gerar_projecoes meses_seguidos = Ok (Some p))
    by (vm_compute; eexists; reflexivity).
  destruct E as (p & E).
  destruct (projecoes_planas meses_seguidos p) as (_ & pm & H & _).
  - amostra.
  - exact E.
  - exists p, pm. split; assumption.
Defined.

(** ** Cash flow: the trend of a monotone series *)

Lemma fold_left_Zadd (l : list Z) (a : Z) :
  fold_left Z.add l a = (a + fold_left Z.add l 0)%Z.
Proof.
  revert a. induction l as [|x xs IH]; intro a; cbn; [lia|].
  rewrite (IH (a + x)%Z), (IH x). lia.
Qed.














(** The spec's sample series: balances -100, 0, 100, 200, 300 grow. *)
Example tendencia_da_serie_exemplo :
  option_map (fun t => (direcao t, intensidade t))
    (match CashFlowAnalyzer._calcular_tendencia_metrica [-(100); 0; 100; 200; 300]
             "Saldo Operacional" with
     | Ok t => Some t
     | Raise _ => None
     end)
  = Some (CRESCIMENTO, 100).
Proof. vm_compute. reflexivity. Qed.

(** ** Cash flow: critical points of a trend *)

Lemma negativos_spec (valores : list Q) (i k : nat) (v : Q) :
  In (k, v) (CashFlowAnalyzer.negativos i valores)
  <-> (i < k)%nat /\ nth_error valores (k - i - 1) = Some v /\ v < 0.
Proof.
  revert i. induction valores as [|x xs IH]; intro i; cbn [CashFlowAnalyzer.negativos].
  - split; [intros [] | intros (_ & H & _)]. destruct (k - i - 1)%nat; discriminate.
  - assert (Hcons : (i < k)%nat /\ nth_error (x :: xs) (k - i - 1) = Some v /\ v < 0
                    <-> (k = S i /\ x = v /\ v < 0)
                        \/ ((S i < k)%nat /\ nth_error xs (k - S i - 1) = Some v /\ v < 0)).
    { split.
      - intros (H1 & H2 & H3). destruct (Nat.eq_dec k (S i)) as [->|NE].
        + left. replace (S i - i - 1)%nat with 0%nat in H2 by lia. cbn in H2.
          injection H2 as ->. auto.
        + right. split; [lia|]. split; [|exact H3].
          replace (k - i - 1)%nat with (S (k - S i - 1)) in H2 by lia. exact H2.
      - intros [(-> & -> & H3) | (H1 & H2 & H3)].
        + split; [lia|]. split; [|exact H3].
          replace (S i - i - 1)%nat with 0%nat by lia. reflexivity.
        + split; [lia|]. split; [|exact H3].
          replace (k - i - 1)%nat with (S (k - S i - 1)) by lia. exact H2. }
    rewrite Hcons. destruct (Qltb x 0) eqn:E.
    + apply Qltb_true in E. cbn [In]. rewrite IH. split.
      * intros [H | H]; [left; injection H as <- <-; auto | right; exact H].
      * intros [(-> & -> & _) | H]; [left; reflexivity | right; exact H].
    + apply Qltb_false in E. rewrite IH. split.
      * intro H. right. exact H.
      * intros [(_ & -> & H3) | H]; [exfalso; lra | exact H].
Qed.

(** The critical points of a trend result are exactly the months of the
    series with a negative value, numbered from 1, and the period of the
    analysis is the length of the series. *)
Theorem pontos_criticos_sao_os_negativos (valores : list Q) (nome_metrica : string)
    (t : TendenciaFinanceira) :
  CashFlowAnalyzer._calcular_tendencia_metrica valores nome_metrica = Ok t ->
  periodo_analise t = List.length valores
  /\ forall k v,
      In (k, v) (pontos_criticos t)
      <-> (1 <= k)%nat /\ nth_error valores (k - 1) = Some v /\ v < 0.
Proof.
  intro Ht. apply tendencia_metrica_spec in Ht. destruct Ht as (c & _ & _ & _ & ->).
  cbn [periodo_analise pontos_criticos]. split; [reflexivity|].
  intros k v. rewrite negativos_spec.
  replace (k - 0 - 1)%nat with (k - 1)%nat by lia. reflexivity.
Qed.

Lemma pontos_criticos_sao_os_negativos_witness :
  exists t,
    CashFlowAnalyzer._calcular_tendencia_metrica [300; -(200); -(50); 400]
      "Saldo Operacional" = Ok t
    /\ In (2%nat, -(200)) (pontos_criticos t).
Proof.
  assert (E : exists t, CashFlowAnalyzer._calcular_tendencia_metrica
                          [300; -(200); -(50); 400] "Saldo Operacional" = Ok t)
    by (vm_compute; eexists; reflexivity).
  destruct E as (t & E). exists t. split; [exact E|].
  apply (proj2 (pontos_criticos_sao_os_negativos _ _ t E)).
  split; [lia|]. split; reflexivity.
Defined.

(** ** Insight engine: confidence score and summary *)

Lemma score_confianca_limites (insight : InsightFinanceiro) (dados_analise : DadosAnalise) :
  70 <= InsightEngine._calcular_score_confianca insight dados_analise
  /\ InsightEngine._calcular_score_confianca insight dados_analise <= 95.
Proof.
  unfold InsightEngine._calcular_score_confianca.
  destruct (i_tipo insight); destruct (prioridade insight);
    repeat match goal with
           | |- context [if ?b then _ else _] => destruct b
           end;
    vm_compute; split; discriminate.
Qed.

(** Every insight the engine returns carries a confidence score, and the
    score lies between 70 and 95: the clamp to [0, 100] never acts. *)
Theorem insights_com_score_entre_70_e_95
    (gerar_insights : DadosAnalise -> result (list InsightFinanceiro))
    (dados_analise : DadosAnalise) (insights : list InsightFinanceiro) :
  InsightEngine.gerar_insights_completos gerar_insights dados_analise = Ok insights ->
  Forall (fun i => exists s, score_confianca i = Some s /\ 70 <= s /\ s <= 95) insights.
Proof.
  unfold InsightEngine.gerar_insights_completos.
  destruct (gerar_insights dados_analise) as [gen|e]; cbn [bind]; [|discriminate].
  intro H. injection H as <-.
  apply Forall_map. apply Forall_forall. intros i _.
  cbn [score_confianca InsightEngine.com_score].
  eexists. split; [reflexivity|]. apply score_confianca_limites.
Qed.

Lemma insights_com_score_entre_70_e_95_witness :
  Forall (fun i => exists s, score_confianca i = Some s /\ 70 <= s /\ s <= 95)
    (map (fun insight =>
            InsightEngine.com_score insight
              (InsightEngine._calcular_score_confianca insight dados_exemplo))
       (InsightEngine._priorizar_insights insights_exemplo)).
Proof.
  apply (insights_com_score_entre_70_e_95 (fun _ => Ok insights_exemplo) dados_exemplo).
  reflexivity.
Defined.

Lemma scores_validos_limites (insights : list InsightFinanceiro) (a b : Q) :
  Forall (fun i => exists s, score_confianca i = Some s /\ a <= s /\ s <= b) insights ->
  List.length (InsightEngine.scores_validos insights) = List.length insights
  /\ Forall (fun s => a <= s /\ s <= b) (InsightEngine.scores_validos insights).
Proof.
  induction 1 as [|i l (s & Hs & Hb) _ [IH1 IH2]]; cbn [InsightEngine.scores_validos].
  - split; [reflexivity | constructor].
  - rewrite Hs. cbn [List.length]. split; [congruence | constructor; assumption].
Qed.

Lemma Qsum_limites (l : list Q) (a b : Q) :
  Forall (fun s => a <= s /\ s <= b) l ->
  Qlen l * a <= Qsum l /\ Qsum l <= Qlen l * b.
Proof.
  unfold Qlen. induction 1 as [|x xs [Hx1 Hx2] _ [IH1 IH2]]; cbn [List.length].
  - unfold Qsum. cbn. rewrite !Qmult_0_l. split; apply Qle_refl.
  - rewrite Qsum_cons, Nat2Z.inj_succ. unfold Z.succ.
    rewrite inject_Z_plus. change (inject_Z 1) with 1. split; lra.
Qed.

(** The summary counts every insight once per priority and once per type,
    never lists more than ten priority recommendations, and, on a non-empty
    list returned by the engine, reports a mean confidence between 70 and
    95. *)
Theorem resumo_insights_contagens
    (gerar_insights : DadosAnalise -> result (list InsightFinanceiro))
    (dados_analise : DadosAnalise) (insights : list InsightFinanceiro) :
  InsightEngine.gerar_insights_completos gerar_insights dados_analise = Ok insights ->
  let resumo := InsightEngine.gerar_resumo_insights insights in
  list_sum (map snd (InsightEngine.por_prioridade resumo)) = List.length insights
  /\ list_sum (map snd (InsightEngine.por_tipo resumo)) = List.length insights
  /\ (List.length (InsightEngine.recomendacoes_prioritarias resumo) <= 10)%nat
  /\ (insights <> [] ->
      70 <= InsightEngine.score_confianca_medio resumo
      /\ InsightEngine.score_confianca_medio resumo <= 95).
Proof.
  intros Hg resumo.
  pose proof (insights_score_aux := scores_validos_limites insights 70 95).
  assert (Hsc : Forall (fun i => exists s, score_confianca i = Some s /\ 70 <= s /\ s <= 95)
                  insights).
  { revert Hg. unfold InsightEngine.gerar_insights_completos.
    destruct (gerar_insights dados_analise) as [gen|e]; cbn [bind]; [|discriminate].
    intro H. injection H as <-.
    apply Forall_map. apply Forall_forall. intros i _.
    cbn [score_confianca InsightEngine.com_score].
    eexists. split; [reflexivity|]. apply score_confianca_limites. }
  destruct (insights_score_aux Hsc) as [Hlen Hall]. clear insights_score_aux Hg.
  unfold resumo, InsightEngine.gerar_resumo_insights.
  cbn [InsightEngine.por_prioridade InsightEngine.por_tipo
       InsightEngine.recomendacoes_prioritarias InsightEngine.score_confianca_medio].
  split; [|split; [|split]].
  - cbn [map snd]. unfold list_sum. cbn [fold_right]. clear.
    induction insights as [|i l IH]; [reflexivity|]. cbn [filter].
    destruct (prioridade i); cbn [InsightEngine.InsightPriority_eqb List.length]; lia.
  - cbn [map snd]. unfold list_sum. cbn [fold_right]. clear.
    induction insights as [|i l IH]; [reflexivity|]. cbn [filter].
    destruct (i_tipo i); cbn [InsightEngine.InsightType_eqb List.length]; lia.
  - rewrite length_firstn. lia.
  - intro Hne.
    destruct (InsightEngine.scores_validos insights) as [|s ss] eqn:E.
    + destruct insights; [congruence | discriminate].
    + rewrite <- E in *. clear E s ss.
      set (vs := InsightEngine.scores_validos insights) in *.
      assert (Hn : 0 < Qlen vs).
      { apply Qlen_pos. intro Hnil. rewrite Hnil in Hlen.
        destruct insights; [congruence | discriminate]. }
      destruct (Qsum_limites vs 70 95 Hall) as [H1 H2].
      split.
      * apply (quantize_ge 700 _ (1 # 10)); [reflexivity | unfold Qeq; reflexivity|].
        apply Qle_shift_div_l; [exact Hn|]. lra.
      * apply (quantize_le 950 _ (1 # 10)); [reflexivity | unfold Qeq; reflexivity|].
        apply Qle_shift_div_r; [exact Hn|]. lra.
Qed.

Lemma resumo_insights_contagens_witness :
  exists insights,
    InsightEngine.gerar_insights_completos (fun _ => Ok insights_exemplo) dados_exemplo
    = Ok insights
    /\ list_sum (map snd (InsightEngine.por_prioridade
                            (InsightEngine.gerar_resumo_insights insights))) = 4%nat.
Proof.
  eexists. split; [reflexivity|].
  apply (proj1 (resumo_insights_contagens (fun _ => Ok insights_exemplo) dados_exemplo
                  _ eq_refl)).
Defined.

(** ** Consolidated delinquency metrics *)

Lemma Qsum_acima (l : list Q) (m : Q) :
  l <> [] -> Forall (fun v => m < v) l -> Qlen l * m < Qsum l.
Proof.
  intros Hne Hall. unfold Qlen.
  induction Hall as [|x xs Hx Hxs IH]; [congruence|].
  cbn [List.length]. rewrite Qsum_cons, Nat2Z.inj_succ. unfold Z.succ.
  rewrite inject_Z_plus. change (inject_Z 1) with 1.
  destruct xs as [|y ys].
  - change (Qsum []) with 0.
    change (inject_Z (Z.of_nat (List.length (@nil Q)))) with 0. lra.
  - assert (H : inject_Z (Z.of_nat (List.length (y :: ys))) * m < Qsum (y :: ys))
      by (apply IH; discriminate).
    lra.
Qed.

Lemma contar_todos {A : Type} (p : A -> bool) (l : list A) :
  contar p l = List.length l -> Forall (fun x => p x = true) l.
Proof.
  unfold contar. induction l as [|x xs IH]; cbn [filter List.length]; [constructor|].
  pose proof (filter_length_le p xs) as Hle.
  destruct (p x) eqn:E; cbn [List.length]; intro H; [|lia].
  constructor; [exact E | apply IH; lia].
Qed.

Lemma mediana_limites (inadimplentes : list Inadimplente) (lo hi : Q) :
  inadimplentes <> [] ->
  Forall (fun i => lo <= valor_divida i /\ valor_divida i <= hi) inadimplentes ->
  exists m, DelinquencyAnalyzer._calcular_mediana_valores inadimplentes = Ok m
            /\ quantize lo (1 # 100) <= m /\ m <= quantize hi (1 # 100).
Proof.
  intros Hne Hall. unfold DelinquencyAnalyzer._calcular_mediana_valores.
  set (vs := DelinquencyAnalyzer.sorted_Q (map valor_divida inadimplentes)).
  assert (Hperm : Permutation vs (map valor_divida inadimplentes))
    by apply sorted_by_perm.
  assert (Hin : forall a, In a vs -> lo <= a /\ a <= hi).
  { intros a Ha. apply (Permutation_in _ Hperm) in Ha.
    apply in_map_iff in Ha. destruct Ha as (i & <- & Hi).
    rewrite Forall_forall in Hall. apply Hall, Hi. }
  assert (Hn : (0 < List.length vs)%nat).
  { rewrite (Permutation_length Hperm), length_map.
    destruct inadimplentes; [congruence | cbn; lia]. }
  assert (Hq : 0 < 1 # 100) by reflexivity.
  assert (Hmid : (List.length vs / 2 < List.length vs)%nat)
    by (apply Nat.div_lt; lia).
  destruct (nth_error vs (List.length vs / 2)) as [b|] eqn:Eb;
    [|apply nth_error_None in Eb; lia].
  pose proof (Hin b (nth_error_In _ _ Eb)) as [Hb1 Hb2].
  destruct (Nat.even (List.length vs)) eqn:Ev.
  - destruct (nth_error vs (List.length vs / 2 - 1)) as [a|] eqn:Ea;
      [|apply nth_error_None in Ea; lia].
    pose proof (Hin a (nth_error_In _ _ Ea)) as [Ha1 Ha2].
    eexists. split; [reflexivity|].
    split; apply quantize_mono; try exact Hq.
    + apply Qle_shift_div_l; lra.
    + apply Qle_shift_div_r; lra.
  - eexists. split; [reflexivity|].
    split; apply quantize_mono; assumption.
Qed.

(** On a non-empty ledger the consolidated metrics are always produced; the
    mean ticket and the median lie between the smallest and the largest
    debt (rounded to cents), strictly fewer debtors than the whole ledger
    are above the mean, and the high-risk count never exceeds the ledger. *)
Theorem metricas_dentro_do_ledger (inadimplentes : list Inadimplente)
    (receita_total : option Q) (lo hi : Q) :
  inadimplentes <> [] ->
  Forall (fun i => lo <= valor_divida i /\ valor_divida i <= hi) inadimplentes ->
  exists m,
    DelinquencyAnalyzer._calcular_metricas_inadimplencia inadimplentes receita_total = Ok m
    /\ quantize lo (1 # 100) <= DelinquencyAnalyzer.ticket_medio m
    /\ DelinquencyAnalyzer.ticket_medio m <= quantize hi (1 # 100)
    /\ quantize lo (1 # 100) <= DelinquencyAnalyzer.mediana_valores m
    /\ DelinquencyAnalyzer.mediana_valores m <= quantize hi (1 # 100)
    /\ (DelinquencyAnalyzer.inadimplentes_acima_media m
        < DelinquencyAnalyzer.numero_total_inadimplentes m)%nat
    /\ (DelinquencyAnalyzer.concentracao_risco_alto m
        <= DelinquencyAnalyzer.numero_total_inadimplentes m)%nat.
Proof.
  intros Hne Hall.
  destruct (mediana_limites inadimplentes lo hi Hne Hall) as (med & Hmed & Hm1 & Hm2).
  unfold DelinquencyAnalyzer._calcular_metricas_inadimplencia.
  set (vs := map valor_divida inadimplentes).
  assert (Hvne : vs <> []) by (unfold vs; destruct inadimplentes; [congruence | discriminate]).
  pose proof (Qlen_pos vs Hvne) as Hn.
  assert (Elen : inject_Z (Z.of_nat (List.length inadimplentes)) = Qlen vs)
    by (unfold Qlen, vs; rewrite length_map; reflexivity).
  rewrite Elen.
  assert (Hvs : Forall (fun s => lo <= s /\ s <= hi) vs)
    by (unfold vs; apply Forall_map; exact Hall).
  destruct (Qsum_limites vs lo hi Hvs) as [H1 H2].
  unfold DelinquencyAnalyzer.soma_dividas. fold vs.
  rewrite dividir_ok by lra. cbn [bind]. rewrite Hmed. cbn [bind].
  eexists. split; [reflexivity|].
  cbn [DelinquencyAnalyzer.ticket_medio DelinquencyAnalyzer.mediana_valores
       DelinquencyAnalyzer.inadimplentes_acima_media
       DelinquencyAnalyzer.numero_total_inadimplentes
       DelinquencyAnalyzer.concentracao_risco_alto].
  assert (Hq : 0 < 1 # 100) by reflexivity.
  repeat split; try assumption.
  - apply quantize_mono; [exact Hq|]. apply Qle_shift_div_l; [exact Hn | lra].
  - apply quantize_mono; [exact Hq|]. apply Qle_shift_div_r; [exact Hn | lra].
  - pose proof (contar_le (fun i => Qgtb (valor_divida i) (Qsum vs / Qlen vs)) inadimplentes)
      as Hle.
    apply Nat.le_lteq in Hle. destruct Hle as [Hlt | Heq]; [exact Hlt|].
    exfalso. apply contar_todos in Heq.
    assert (Hac : Forall (fun v => Qsum vs / Qlen vs < v) vs).
    { unfold vs. apply Forall_map. revert Heq. apply Forall_impl.
      intros i Hi. apply Qgtb_true. exact Hi. }
    pose proof (Qsum_acima vs _ Hvne Hac) as Habs.
    assert (E : Qlen vs * (Qsum vs / Qlen vs) == Qsum vs) by (field; lra).
    rewrite E in Habs. lra.
  - apply contar_le.
Qed.

Lemma metricas_dentro_do_ledger_witness :
  exists m,
    DelinquencyAnalyzer._calcular_metricas_inadimplencia quatro_devedores None = Ok m
    /\ (DelinquencyAnalyzer.inadimplentes_acima_media m < 4)%nat.
Proof.
  assert (Hne : quatro_devedores <> []) by discriminate.
  assert (Hall : Forall (fun i => 0 <= valor_divida i /\ valor_divida i <= 10000000)
                   quatro_devedores)
    by (repeat constructor; discriminate).
  destruct (metricas_dentro_do_ledger quatro_devedores None 0 10000000 Hne Hall)
    as (m & Hm & _ & _ & _ & _ & Hac & _).
  exists m. split; [exact Hm|].
  assert (E : DelinquencyAnalyzer.numero_total_inadimplentes m = 4%nat).
  { revert Hm. unfold DelinquencyAnalyzer._calcular_metricas_inadimplencia.
    destruct (DelinquencyAnalyzer.dividir _ _); cbn [bind]; [|discriminate].
    destruct (DelinquencyAnalyzer._calcular_mediana_valores _); cbn [bind]; [|discriminate].
    intro H. injection H as <-. reflexivity. }
  rewrite E in Hac. exact Hac.
Defined.

(** ** KPI classification and the KPI analysis *)

Ltac casos_Q :=
  repeat match goal with
         | |- context [Qle_bool ?a ?b] =>
             let E := fresh "E" in
             destruct (Qle_bool a b) eqn:E;
             [apply Qle_bool_iff in E | apply (Qgeb_false b a) in E]
         | |- context [Qgeb ?a ?b] =>
             let E := fresh "E" in
             destruct (Qgeb a b) eqn:E;
             [apply Qgeb_true in E | apply Qgeb_false in E]
         end.

(** The analyzer's status never gets worse when the value of an ordinary
    KPI grows, and never gets better when the value of an inverted KPI
    (delinquency rate, expenses, late receipts) grows, whatever the
    thresholds are. *)
Theorem status_kpi_monotono (nome_kpi : string) (thresholds : list (string * Q))
    (v1 v2 : Q) :
  v1 <= v2 ->
  let s1 := fst (KPIAnalyzer._classificar_status_kpi nome_kpi v1 thresholds) in
  let s2 := fst (KPIAnalyzer._classificar_status_kpi nome_kpi v2 thresholds) in
  if KPIAnalyzer.pertence nome_kpi KPIAnalyzer.kpis_invertidos
  then (status_rank s2 <= status_rank s1)%Z
  else (status_rank s1 <= status_rank s2)%Z.
Proof.
  intros Hv. unfold KPIAnalyzer._classificar_status_kpi.
  destruct thresholds as [|par resto].
  - cbn [fst status_rank].
    destruct (KPIAnalyzer.pertence nome_kpi KPIAnalyzer.kpis_invertidos); lia.
  - set (th := par :: resto).
    destruct (KPIAnalyzer.pertence nome_kpi KPIAnalyzer.kpis_invertidos).
    + unfold KPIAnalyzer.atinge.
      destruct (dict_get th "critico"), (dict_get th "atencao"), (dict_get th "bom");
        casos_Q; cbn [fst status_rank]; first [lia | exfalso; lra].
    + unfold KPIAnalyzer.nao_passa.
      destruct (dict_get th "critico"), (dict_get th "atencao"), (dict_get th "bom");
        casos_Q; cbn [fst status_rank]; first [lia | exfalso; lra].
Qed.

Lemma status_kpi_monotono_witness :
  (status_rank (fst (KPIAnalyzer._classificar_status_kpi "taxa_inadimplencia" 60
                       limites_inadimplencia))
   <= status_rank (fst (KPIAnalyzer._classificar_status_kpi "taxa_inadimplencia" 15
                          limites_inadimplencia)))%Z.
Proof.
  apply (status_kpi_monotono "taxa_inadimplencia" limites_inadimplencia 15 60).
  discriminate.
Defined.



Lemma total_pontos_limites (kpis : list KPIFinanceiro) :
  (0 <= KPIAnalyzer.total_pontos kpis <= 100 * Z.of_nat (List.length kpis))%Z.
Proof.
  unfold KPIAnalyzer.total_pontos.
  induction kpis as [|k ks IH]; cbn [map fold_left List.length]; [lia|].
  rewrite fold_left_Zadd, Nat2Z.inj_succ.
  destruct (k_status k); cbn [KPIAnalyzer.pesos_status]; lia.
Qed.

Lemma score_saude_limites (kpis : list KPIFinanceiro) :
  0 <= KPIAnalyzer._calcular_score_saude_financeira kpis
  /\ KPIAnalyzer._calcular_score_saude_financeira kpis <= 100.
Proof.
  unfold KPIAnalyzer._calcular_score_saude_financeira.
  destruct kpis as [|k ks]; [split; discriminate|].
  set (l := k :: ks).
  pose proof (total_pontos_limites l) as [H0 H1].
  assert (Hn : 0 < inject_Z (Z.of_nat (List.length l))).
  { rewrite <- (Zlt_Qlt 0). unfold l. cbn [List.length]. lia. }
  rewrite Zle_Qle in H0, H1. rewrite inject_Z_mult in H1.
  change (inject_Z 0) with 0 in H0. change (inject_Z 100) with 100 in H1.
  split.
  - apply (quantize_ge 0 _ (1 # 10)); [reflexivity | unfold Qeq; reflexivity|].
    apply Qle_shift_div_l; [exact Hn | lra].
  - apply (quantize_le 1000 _ (1 # 10)); [reflexivity | unfold Qeq; reflexivity|].
    apply Qle_shift_div_r; [exact Hn | lra].
Qed.

Section KPIFacts.
Context {Acao : Type}.
Variable lower title : string -> string.
Variable configuracao : ConfiguracaoAnalise.
Variable _gerar_recomendacoes_kpis : list KPIFinanceiro -> result (list string).
Variable _priorizar_acoes : list KPIFinanceiro -> result (list Acao).

Lemma novo_KPIFinanceiro_ok (nome : string) (valor : Q) (unidade : string)
    (status : StatusKPI) (meta variacao : option Q) (obs : option string)
    (kpi : KPIFinanceiro) :
  lower "KPIFinanceiro" = "kpifinanceiro"%string ->
  novo_KPIFinanceiro lower nome valor unidade status meta variacao obs = Ok kpi ->
  0 <= valor /\ k_valor kpi = valor /\ k_status kpi = status.
Proof.
  intro Hl. unfold novo_KPIFinanceiro, KPIFinanceiro__name__. rewrite Hl.
  change (contem "saldo" "kpifinanceiro") with false. cbn [negb]. rewrite andb_true_r.
  destruct (Qltb valor 0) eqn:E; [discriminate|].
  apply Qltb_false in E.
  destruct (match variacao with Some v => Qgtb (Qabs v) 1000 | None => false end);
    [discriminate|].
  intro H. injection H as <-. cbn. repeat split. exact E.
Qed.

Lemma analisar_kpi_individual_ok (nome : string) (valor : Q) (kpi : KPIFinanceiro) :
  lower "KPIFinanceiro" = "kpifinanceiro"%string ->
  KPIAnalyzer._analisar_kpi_individual lower title configuracao nome valor = Ok kpi ->
  0 <= valor /\ k_valor kpi = valor.
Proof.
  intros Hl. unfold KPIAnalyzer._analisar_kpi_individual, try_except_calculation.
  destruct (KPIAnalyzer._classificar_status_kpi _ _ _) as [st ob].
  match goal with
  | |- context [novo_KPIFinanceiro ?l ?n ?v ?u ?s ?m ?va ?o] =>
      destruct (novo_KPIFinanceiro l n v u s m va o) as [k|e] eqn:E
  end; [|discriminate].
  intro H. injection H as <-.
  destruct (novo_KPIFinanceiro_ok _ _ _ _ _ _ _ _ Hl E) as (H0 & H1 & _).
  split; assumption.
Qed.

Hypothesis lower_critico : lower "CRÍTICO" = "crítico"%string.
Hypothesis lower_atencao : lower "ATENÇÃO" = "atenção"%string.
Hypothesis lower_bom : lower "BOM" = "bom"%string.
Hypothesis lower_excelente : lower "EXCELENTE" = "excelente"%string.

Lemma incrementar_resumo (s : StatusKPI) (b e : nat) :
  incrementar (lower (StatusKPI_value s)) (resumo_de b e)
  = resumo_de (b + (if StatusKPI_eqb s BOM then 1 else 0))
      (e + (if StatusKPI_eqb s EXCELENTE then 1 else 0)).
Proof.
  destruct s; cbn [StatusKPI_value];
    rewrite ?lower_critico, ?lower_atencao, ?lower_bom, ?lower_excelente;
    unfold resumo_de; cbn; rewrite ?Nat.add_0_r, ?Nat.add_1_r; reflexivity.
Qed.

Lemma laco_kpis_spec (dados : list (string * Q)) :
  forall (kpis0 : list KPIFinanceiro) (b e : nat) kpis res,
    KPIAnalyzer.laco_kpis lower title configuracao dados kpis0 (resumo_de b e)
    = Ok (kpis, res) ->
    exists novos,
      kpis = kpis0 ++ novos
      /\ List.length novos = List.length dados
      /\ res = resumo_de (b + contar (fun k => StatusKPI_eqb (k_status k) BOM) novos)
                 (e + contar (fun k => StatusKPI_eqb (k_status k) EXCELENTE) novos).
Proof.
  induction dados as [|[nome valor] resto IH]; intros kpis0 b e kpis res;
    cbn [KPIAnalyzer.laco_kpis].
  - intro H. injection H as <- <-. exists []. rewrite app_nil_r.
    unfold contar. cbn. rewrite !Nat.add_0_r. repeat split.
  - destruct (KPIAnalyzer._analisar_kpi_individual lower title configuracao nome valor)
      as [k|err]; cbn [bind]; [|discriminate].
    rewrite incrementar_resumo. intro H.
    destruct (IH _ _ _ _ _ H) as (novos & -> & Hlen & ->).
    exists (k :: novos). rewrite <- app_assoc. cbn [app List.length].
    split; [reflexivity|]. split; [congruence|].
    unfold contar. cbn [filter].
    destruct (StatusKPI_eqb (k_status k) BOM), (StatusKPI_eqb (k_status k) EXCELENTE);
      cbn [List.length]; f_equal; lia.
Qed.

Lemma laco_kpis_valores (dados : list (string * Q)) :
  lower "KPIFinanceiro" = "kpifinanceiro"%string ->
  forall (kpis0 : list KPIFinanceiro) res0 par,
    KPIAnalyzer.laco_kpis lower title configuracao dados kpis0 res0 = Ok par ->
    Forall (fun d => 0 <= snd d) dados.
Proof.
  intro Hl. induction dados as [|[nome valor] resto IH]; intros kpis0 res0 par;
    cbn [KPIAnalyzer.laco_kpis]; [constructor|].
  destruct (KPIAnalyzer._analisar_kpi_individual lower title configuracao nome valor)
    as [k|err] eqn:E; cbn [bind]; [|discriminate].
  intro H. constructor.
  - apply (analisar_kpi_individual_ok _ _ _ Hl E).
  - apply (IH _ _ _ H).
Qed.

Lemma analisar_kpis_inv (dados : list (string * Q)) (r : KPIAnalyzer.Analise) :
  KPIAnalyzer.analisar lower title configuracao _gerar_recomendacoes_kpis _priorizar_acoes
    dados = Ok r ->
  exists res,
    KPIAnalyzer.laco_kpis lower title configuracao dados [] (resumo_de 0 0)
    = Ok (KPIAnalyzer.kpis_analisados r, res)
    /\ KPIAnalyzer.resumo_status r = res
    /\ KPIAnalyzer.total_kpis r = List.length (KPIAnalyzer.kpis_analisados r)
    /\ KPIAnalyzer.score_saude_financeira r
       = KPIAnalyzer._calcular_score_saude_financeira (KPIAnalyzer.kpis_analisados r)
    /\ KPIAnalyzer.kpis_criticos r
       = filter (fun kpi => StatusKPI_eqb (k_status kpi) CRITICO)
           (KPIAnalyzer.kpis_analisados r).
Proof.
  unfold KPIAnalyzer.analisar, try_except_calculation.
  change [("critico"%string, 0%nat); ("atencao"%string, 0%nat); ("bom"%string, 0%nat);
          ("excelente"%string, 0%nat)] with (resumo_de 0 0).
  destruct (KPIAnalyzer.laco_kpis lower title configuracao dados [] (resumo_de 0 0))
    as [[kpis res]|err]; cbn [bind]; [|discriminate].
  destruct (_gerar_recomendacoes_kpis kpis) as [recs|err]; cbn [bind]; [|discriminate].
  destruct (_priorizar_acoes _) as [prio|err]; cbn [bind]; [|discriminate].
  intro H. injection H as <-. cbn. exists res. repeat split.
Qed.

End KPIFacts.

(** When the KPI analysis returns, its status summary has counted the good
    and the excellent KPIs but no critical and no attention one: the keys
    of the summary are unaccented, the lowered status names are not.  The
    critical KPIs are still listed, every KPI is analysed, and the health
    score lies between 0 and 100. *)
Theorem resumo_status_nunca_conta_criticos {Acao : Type}
    (lower title : string -> string) (configuracao : ConfiguracaoAnalise)
    (recomendar : list KPIFinanceiro -> result (list string))
    (priorizar : list KPIFinanceiro -> result (list Acao))
    (dados_kpis : list (string * Q)) (r : KPIAnalyzer.Analise) :
  lower "CRÍTICO"%string = "crítico"%string ->
  lower "ATENÇÃO"%string = "atenção"%string ->
  lower "BOM"%string = "bom"%string ->
  lower "EXCELENTE"%string = "excelente"%string ->
  KPIAnalyzer.analisar lower title configuracao recomendar priorizar dados_kpis = Ok r ->
  let kpis := KPIAnalyzer.kpis_analisados r in
  KPIAnalyzer.resumo_status r
  = [ ("critico"%string, 0%nat); ("atencao"%string, 0%nat);
      ("bom"%string, contar (fun k => StatusKPI_eqb (k_status k) BOM) kpis);
      ("excelente"%string, contar (fun k => StatusKPI_eqb (k_status k) EXCELENTE) kpis) ]
  /\ KPIAnalyzer.kpis_criticos r
     = filter (fun k => StatusKPI_eqb (k_status k) CRITICO) kpis
  /\ KPIAnalyzer.total_kpis r = List.length dados_kpis
  /\ 0 <= KPIAnalyzer.score_saude_financeira r
  /\ KPIAnalyzer.score_saude_financeira r <= 100.
Proof.
  intros Hc Ha Hb He Hr kpis.
  destruct (analisar_kpis_inv _ _ _ _ _ _ _ Hr) as (res & Hl & Hres & Htot & Hsc & Hcr).
  destruct (laco_kpis_spec lower title configuracao Hc Ha Hb He _ _ _ _ _ _ Hl)
    as (novos & Hk & Hlen & ->).
  cbn [app] in Hk. fold kpis in Hk. subst novos.
  split; [rewrite Hres; reflexivity|].
  split; [exact Hcr|].
  split; [rewrite Htot; exact Hlen|].
  rewrite Hsc. apply score_saude_limites.
Qed.

Lemma resumo_status_nunca_conta_criticos_witness :
  exists r,
    analisar_kpis_exemplo kpis_exemplo = Ok r
    /\ map (fun k => k_status k) (KPIAnalyzer.kpis_analisados r) = [CRITICO; EXCELENTE; BOM]
    /\ KPIAnalyzer.resumo_status r
       = [ ("critico"%string, 0%nat); ("atencao"%string, 0%nat);
           ("bom"%string, 1%nat); ("excelente"%string, 1%nat) ].
Proof.
  destruct (analisar_kpis_exemplo kpis_exemplo) as [r|e] eqn:E;
    [|vm_compute in E; discriminate].
  exists r. split; [reflexivity|].
  assert (Hs : map (fun k => k_status k) (KPIAnalyzer.kpis_analisados r)
               = [CRITICO; EXCELENTE; BOM]).
  { revert E. vm_compute. intro H. injection H as <-. reflexivity. }
  split; [exact Hs|].
  destruct (resumo_status_nunca_conta_criticos lower_latin1 (fun s => s) configuracao_padrao
              sem_texto sem_texto kpis_exemplo r eq_refl eq_refl eq_refl eq_refl E)
    as (Hres & _).
  rewrite Hres. unfold contar.
  revert E. vm_compute. intro H. injection H as <-. reflexivity.
Defined.

(** A negative value always stops the KPI analysis, also for a KPI that is
    a balance: the validator looks for the word in the name of the class,
    not in the name of the KPI. *)
Theorem kpi_negativo_derruba_analise {Acao : Type}
    (lower title : string -> string) (configuracao : ConfiguracaoAnalise)
    (recomendar : list KPIFinanceiro -> result (list string))
    (priorizar : list KPIFinanceiro -> result (list Acao))
    (dados_kpis : list (string * Q)) :
  lower "KPIFinanceiro"%string = "kpifinanceiro"%string ->
  Exists (fun d => snd d < 0) dados_kpis ->
  exists e,
    KPIAnalyzer.analisar lower title configuracao recomendar priorizar dados_kpis
    = Raise (CalculationError "analise_kpis" e).
Proof.
  intros Hl Hex.
  destruct (KPIAnalyzer.analisar lower title configuracao recomendar priorizar dados_kpis)
    as [r|e] eqn:E.
  - exfalso.
    destruct (analisar_kpis_inv _ _ _ _ _ _ _ E) as (res & Hlaco & _).
    pose proof (laco_kpis_valores lower title configuracao _ Hl _ _ _ Hlaco) as Hall.
    apply Exists_exists in Hex. destruct Hex as (d & Hd & Hneg).
    rewrite Forall_forall in Hall. specialize (Hall d Hd). lra.
  - revert E. unfold KPIAnalyzer.analisar, try_except_calculation.
    match goal with
    | |- match ?m with _ => _ end = _ -> _ => destruct m as [a|e']
    end; [discriminate|].
    intro H. injection H as <-. eexists. reflexivity.
Qed.

Lemma kpi_negativo_derruba_analise_witness :
  exists e, analisar_kpis_exemplo kpis_saldo_negativo
            = Raise (CalculationError "analise_kpis" e).
Proof.
  apply (kpi_negativo_derruba_analise lower_latin1 (fun s => s) configuracao_padrao
           sem_texto sem_texto kpis_saldo_negativo eq_refl).
  apply Exists_cons_tl, Exists_cons_hd. reflexivity.
Defined.

(** ** Trend analyzer: the regression over the periods *)














Lemma Qnat_Qlen (valores : list Q) : TrendAnalyzer.Qnat (List.length valores) = Qlen valores.
Proof. reflexivity. Qed.








(** ** Trend analyzer: simple forecasts *)






(** ** Trend analyzer: critical points *)

Lemma max_lista_spec (l : list Q) (m : Q) :
  max_lista l = Ok m -> In m l /\ Forall (fun x => x <= m) l.
Proof.
  destruct l as [|x xs]; cbn [max_lista]; [discriminate|].
  intro H. injection H as <-.
  assert (G : forall x0,
             let r := fold_left (fun m y => if Qltb m y then y else m) xs x0 in
             (r = x0 \/ In r xs) /\ x0 <= r /\ Forall (fun y => y <= r) xs).
  { induction xs as [|y ys IH]; intro x0; cbn [fold_left].
    - split; [left; reflexivity|]. split; [apply Qle_refl | constructor].
    - destruct (Qltb x0 y) eqn:E.
      + apply Qltb_true in E. destruct (IH y) as ([H|H] & H1 & H2).
        * split; [right; left; symmetry; exact H|].
          split; [lra | constructor; assumption].
        * split; [right; right; exact H|].
          split; [lra | constructor; assumption].
      + apply Qltb_false in E. destruct (IH x0) as ([H|H] & H1 & H2).
        * split; [left; exact H|]. split; [exact H1 | constructor; [lra | exact H2]].
        * split; [right; right; exact H|].
          split; [exact H1 | constructor; [lra | exact H2]]. }
  destruct (G x) as ([H|H] & H1 & H2).
  - split; [left; symmetry; exact H | constructor; assumption].
  - split; [right; exact H | constructor; assumption].
Qed.

Lemma min_lista_spec (l : list Q) (m : Q) :
  min_lista l = Ok m -> In m l /\ Forall (fun x => m <= x) l.
Proof.
  destruct l as [|x xs]; cbn [min_lista]; [discriminate|].
  intro H. injection H as <-.
  assert (G : forall x0,
             let r := fold_left (fun m y => if Qltb y m then y else m) xs x0 in
             (r = x0 \/ In r xs) /\ r <= x0 /\ Forall (fun y => r <= y) xs).
  { induction xs as [|y ys IH]; intro x0; cbn [fold_left].
    - split; [left; reflexivity|]. split; [apply Qle_refl | constructor].
    - destruct (Qltb y x0) eqn:E.
      + apply Qltb_true in E. destruct (IH y) as ([H|H] & H1 & H2).
        * split; [right; left; symmetry; exact H|].
          split; [lra | constructor; assumption].
        * split; [right; right; exact H|].
          split; [lra | constructor; assumption].
      + apply Qltb_false in E. destruct (IH x0) as ([H|H] & H1 & H2).
        * split; [left; exact H|]. split; [exact H1 | constructor; [lra | exact H2]].
        * split; [right; right; exact H|].
          split; [exact H1 | constructor; [lra | exact H2]]. }
  destruct (G x) as ([H|H] & H1 & H2).
  - split; [left; symmetry; exact H | constructor; assumption].
  - split; [right; exact H | constructor; assumption].
Qed.

Lemma index_Q_ok (x : Q) (valores : list Q) :
  In x valores ->
  exists i, TrendAnalyzer.index_Q x valores = Ok i
            /\ (i < List.length valores)%nat /\ nth i valores 0 == x
            /\ forall j, (j < i)%nat -> ~ nth j valores 0 == x.
Proof.
  induction valores as [|v vs IH]; intro H; [contradiction|].
  cbn [TrendAnalyzer.index_Q].
  destruct (Qeq_bool v x) eqn:E.
  - exists 0%nat. apply Qeq_bool_iff in E. cbn [nth List.length].
    split; [reflexivity|]. split; [lia|]. split; [exact E | intros j Hj; lia].
  - apply Qeq_bool_neq in E. destruct H as [H|H]; [exfalso; apply E; rewrite H; reflexivity|].
    destruct (IH H) as (i & -> & Hi & Hx & Hmin). cbn [bind].
    exists (S i). cbn [nth List.length].
    split; [reflexivity|]. split; [lia|]. split; [exact Hx|].
    intros [|j] Hj; cbn [nth]; [exact E | apply Hmin; lia].
Qed.

Lemma laco_extremos_spec (series : list TrendAnalyzer.ItemSerie) :
  let valores := map TrendAnalyzer.valor_principal series in
  let indices := seq 1 (List.length valores - 2) in
  TrendAnalyzer.laco_extremos series
  = (map (TrendAnalyzer.ponto series) (filter (TrendAnalyzer.maximo_local valores) indices),
     map (TrendAnalyzer.ponto series)
       (filter (fun i => negb (TrendAnalyzer.maximo_local valores i)
                         && TrendAnalyzer.minimo_local valores i) indices)).
Proof.
  cbv zeta. unfold TrendAnalyzer.laco_extremos.
  set (valores := map TrendAnalyzer.valor_principal series).
  generalize (seq 1 (List.length valores - 2)). intro l.
  assert (G : forall a b,
             fold_left
               (fun (listas : list TrendAnalyzer.PontoExtremo * list TrendAnalyzer.PontoExtremo)
                    i =>
                  let (maximos_locais, minimos_locais) := listas in
                  if TrendAnalyzer.maximo_local valores i
                  then (maximos_locais ++ [TrendAnalyzer.ponto series i], minimos_locais)
                  else if TrendAnalyzer.minimo_local valores i
                       then (maximos_locais, minimos_locais ++ [TrendAnalyzer.ponto series i])
                       else (maximos_locais, minimos_locais)) l (a, b)
             = (a ++ map (TrendAnalyzer.ponto series)
                       (filter (TrendAnalyzer.maximo_local valores) l),
                b ++ map (TrendAnalyzer.ponto series)
                       (filter (fun i => negb (TrendAnalyzer.maximo_local valores i)
                                         && TrendAnalyzer.minimo_local valores i) l))).
  { induction l as [|i l IH]; intros a b; cbn [fold_left filter map].
    - rewrite !app_nil_r. reflexivity.
    - destruct (TrendAnalyzer.maximo_local valores i); cbn [negb andb].
      + rewrite IH. cbn [map]. rewrite <- app_assoc. reflexivity.
      + destruct (TrendAnalyzer.minimo_local valores i).
        * rewrite IH. cbn [map]. rewrite <- app_assoc. reflexivity.
        * apply IH. }
  apply (G [] []).
Qed.

Lemma laco_mudancas_spec (valores : list Q) (m : TrendAnalyzer.MudancaBrusca) :
  In m (TrendAnalyzer.laco_mudancas valores) ->
  exists i,
    (1 <= i < List.length valores)%nat
    /\ ~ nth (i - 1) valores 0 == 0
    /\ 20 < Qabs ((nth i valores 0 - nth (i - 1) valores 0) / nth (i - 1) valores 0 * 100)
    /\ m = {| TrendAnalyzer.periodo_anterior := i;
              TrendAnalyzer.periodo_atual := i + 1;
              TrendAnalyzer.valor_anterior := nth (i - 1) valores 0;
              TrendAnalyzer.valor_atual := nth i valores 0;
              TrendAnalyzer.mb_variacao_percentual :=
                quantize (Qabs ((nth i valores 0 - nth (i - 1) valores 0)
                                / nth (i - 1) valores 0 * 100)) (1 # 10);
              TrendAnalyzer.mb_tipo :=
                if Qltb (nth i valores 0) (nth (i - 1) valores 0) then "QUEDA" else "ALTA" |}.
Proof.
  unfold TrendAnalyzer.laco_mudancas.
  assert (G : forall l acc,
             In m (fold_left
                     (fun mudancas_bruscas i =>
                        let anterior := nth (i - 1) valores 0 in
                        let atual := nth i valores 0 in
                        if negb (Qeq_bool anterior 0) then
                          let variacao := Qabs ((atual - anterior) / anterior * 100) in
                          if Qgtb variacao 20 then
                            mudancas_bruscas
                            ++ [{| TrendAnalyzer.periodo_anterior := i;
                                   TrendAnalyzer.periodo_atual := i + 1;
                                   TrendAnalyzer.valor_anterior := anterior;
                                   TrendAnalyzer.valor_atual := atual;
                                   TrendAnalyzer.mb_variacao_percentual :=
                                     quantize variacao (1 # 10);
                                   TrendAnalyzer.mb_tipo :=
                                     if Qltb atual anterior then "QUEDA" else "ALTA" |}]
                          else mudancas_bruscas
                        else mudancas_bruscas) l acc) ->
             In m acc
             \/ exists i,
                 In i l
                 /\ ~ nth (i - 1) valores 0 == 0
                 /\ 20 < Qabs ((nth i valores 0 - nth (i - 1) valores 0)
                               / nth (i - 1) valores 0 * 100)
                 /\ m = {| TrendAnalyzer.periodo_anterior := i;
                           TrendAnalyzer.periodo_atual := i + 1;
                           TrendAnalyzer.valor_anterior := nth (i - 1) valores 0;
                           TrendAnalyzer.valor_atual := nth i valores 0;
                           TrendAnalyzer.mb_variacao_percentual :=
                             quantize (Qabs ((nth i valores 0 - nth (i - 1) valores 0)
                                             / nth (i - 1) valores 0 * 100)) (1 # 10);
                           TrendAnalyzer.mb_tipo :=
                             if Qltb (nth i valores 0) (nth (i - 1) valores 0)
                             then "QUEDA" else "ALTA" |}).
  { induction l as [|i l IH]; intros acc; cbn [fold_left]; [intro H; left; exact H|].
    cbv zeta. intro H. apply IH in H. destruct H as [H | (j & Hj & Hrest)].
    - destruct (Qeq_bool (nth (i - 1) valores 0) 0) eqn:E0; cbn [negb] in H;
        [left; exact H|].
      destruct (Qgtb _ 20) eqn:E20 in H; [|left; exact H].
      apply in_app_or in H. destruct H as [H | [H | []]]; [left; exact H|].
      right. exists i. split; [left; reflexivity|].
      split; [apply Qeq_bool_neq; exact E0|].
      split; [apply Qgtb_true; exact E20 | symmetry; exact H].
    - right. exists j. split; [right; exact Hj | exact Hrest]. }
  intro H. apply G in H. destruct H as [[] | (i & Hi & Hrest)].
  exists i. split; [|exact Hrest].
  apply in_seq in Hi. lia.
Qed.

(** On a non-empty series the critical points are always produced.  The
    local maxima (minima) reported are exactly the interior periods whose
    value is strictly above (below) both neighbours; the absolute extremes
    bound every value and sit at the period given; and every abrupt change
    joins two consecutive periods, the earlier one non-zero, with a
    variation above 20 per cent. *)
Theorem pontos_criticos_extremos (series : list TrendAnalyzer.ItemSerie) :
  series <> [] ->
  let valores := map TrendAnalyzer.valor_principal series in
  exists r,
    TrendAnalyzer._detectar_pontos_criticos series = Ok r
    /\ (forall p, In p (TrendAnalyzer.maximos_locais r) <->
          exists i, (1 <= i /\ i + 1 < List.length series)%nat
                    /\ nth (i - 1) valores 0 < nth i valores 0
                    /\ nth (i + 1) valores 0 < nth i valores 0
                    /\ p = TrendAnalyzer.ponto series i)
    /\ (forall p, In p (TrendAnalyzer.minimos_locais r) <->
          exists i, (1 <= i /\ i + 1 < List.length series)%nat
                    /\ nth i valores 0 < nth (i - 1) valores 0
                    /\ nth i valores 0 < nth (i + 1) valores 0
                    /\ p = TrendAnalyzer.ponto series i)
    /\ Forall (fun v => TrendAnalyzer.pe_valor (TrendAnalyzer.minimo_absoluto r) <= v
                        /\ v <= TrendAnalyzer.pe_valor (TrendAnalyzer.maximo_absoluto r))
         valores
    /\ nth (TrendAnalyzer.pe_periodo (TrendAnalyzer.maximo_absoluto r) - 1) valores 0
       == TrendAnalyzer.pe_valor (TrendAnalyzer.maximo_absoluto r)
    /\ nth (TrendAnalyzer.pe_periodo (TrendAnalyzer.minimo_absoluto r) - 1) valores 0
       == TrendAnalyzer.pe_valor (TrendAnalyzer.minimo_absoluto r)
    /\ 0 <= TrendAnalyzer.amplitude_total r
    /\ Forall (fun m => TrendAnalyzer.periodo_atual m
                        = (TrendAnalyzer.periodo_anterior m + 1)%nat
                        /\ (TrendAnalyzer.periodo_atual m <= List.length series)%nat
                        /\ ~ TrendAnalyzer.valor_anterior m == 0
                        /\ 20 <= TrendAnalyzer.mb_variacao_percentual m
                        /\ (TrendAnalyzer.mb_tipo m = "QUEDA"%string
                            <-> TrendAnalyzer.valor_atual m < TrendAnalyzer.valor_anterior m))
         (TrendAnalyzer.mudancas_bruscas r).
Proof.
  intros Hne valores. unfold TrendAnalyzer._detectar_pontos_criticos. fold valores.
  pose proof (laco_extremos_spec series) as Hext. cbv zeta in Hext. fold valores in Hext.
  rewrite Hext. clear Hext.
  assert (Elen : List.length valores = List.length series) by apply length_map.
  assert (Hvne : valores <> []).
  { unfold valores. destruct series; [congruence | discriminate]. }
  destruct (max_lista valores) as [mx|e] eqn:Emax;
    [|destruct valores; [congruence | discriminate]].
  destruct (min_lista valores) as [mn|e] eqn:Emin;
    [|destruct valores; [congruence | discriminate]].
  destruct (max_lista_spec _ _ Emax) as [Hmx_in Hmx].
  destruct (min_lista_spec _ _ Emin) as [Hmn_in Hmn].
  destruct (index_Q_ok mx valores Hmx_in) as (imx & Eimx & _ & Himx & _).
  destruct (index_Q_ok mn valores Hmn_in) as (imn & Eimn & _ & Himn & _).
  cbn [bind]. rewrite Eimx. cbn [bind]. rewrite Eimn. cbn [bind]. eexists. split; [reflexivity|].
  cbn [TrendAnalyzer.maximos_locais TrendAnalyzer.minimos_locais
       TrendAnalyzer.maximo_absoluto TrendAnalyzer.minimo_absoluto
       TrendAnalyzer.amplitude_total TrendAnalyzer.mudancas_bruscas
       TrendAnalyzer.pe_valor TrendAnalyzer.pe_periodo].
  split; [|split; [|split; [|split; [|split; [|split]]]]].
  - intro p. rewrite in_map_iff. split.
    + intros (i & <- & Hi). apply filter_In in Hi. destruct Hi as [Hi Hm].
      apply in_seq in Hi. unfold TrendAnalyzer.maximo_local in Hm.
      apply andb_true_iff in Hm. destruct Hm as [H1 H2].
      apply Qgtb_true in H1, H2.
      exists i. repeat split; try assumption; lia.
    + intros (i & [Hi1 Hi2] & H1 & H2 & ->). exists i. split; [reflexivity|].
      apply filter_In. split; [apply in_seq; lia|].
      unfold TrendAnalyzer.maximo_local. apply andb_true_iff.
      split; apply Qgtb_true; assumption.
  - intro p. rewrite in_map_iff. split.
    + intros (i & <- & Hi). apply filter_In in Hi. destruct Hi as [Hi Hm].
      apply in_seq in Hi. apply andb_true_iff in Hm. destruct Hm as [_ Hm].
      unfold TrendAnalyzer.minimo_local in Hm.
      apply andb_true_iff in Hm. destruct Hm as [H1 H2].
      apply Qltb_true in H1, H2.
      exists i. repeat split; try assumption; lia.
    + intros (i & [Hi1 Hi2] & H1 & H2 & ->). exists i. split; [reflexivity|].
      apply filter_In. split; [apply in_seq; lia|].
      apply andb_true_iff. split.
      * apply negb_true_iff. unfold TrendAnalyzer.maximo_local.
        apply andb_false_iff. left. apply Qgtb_false. lra.
      * unfold TrendAnalyzer.minimo_local. apply andb_true_iff.
        split; apply Qltb_true; assumption.
  - rewrite Forall_forall in *. intros v Hv. split; [apply Hmn | apply Hmx]; exact Hv.
  - rewrite Nat.add_sub. exact Himx.
  - rewrite Nat.add_sub. exact Himn.
  - rewrite Forall_forall in Hmx. specialize (Hmx mn Hmn_in). lra.
  - apply Forall_forall. intros m Hm.
    destruct (laco_mudancas_spec valores m Hm) as (i & Hi & Hnz & H20 & ->).
    cbn [TrendAnalyzer.periodo_atual TrendAnalyzer.periodo_anterior
         TrendAnalyzer.valor_anterior TrendAnalyzer.valor_atual
         TrendAnalyzer.mb_variacao_percentual TrendAnalyzer.mb_tipo].
    split; [reflexivity|]. split; [lia|]. split; [exact Hnz|]. split.
    + apply (quantize_ge 200 _ (1 # 10)); [reflexivity | unfold Qeq; reflexivity | lra].
    + destruct (Qltb (nth i valores 0) (nth (i - 1) valores 0)) eqn:E.
      * apply Qltb_true in E. split; [intros _; exact E | reflexivity].
      * apply Qltb_false in E. split; [discriminate | intro H; exfalso; lra].
Qed.

Lemma pontos_criticos_extremos_witness :
  exists r,
    TrendAnalyzer._detectar_pontos_criticos serie_com_picos = Ok r
    /\ In (TrendAnalyzer.ponto serie_com_picos 1) (TrendAnalyzer.maximos_locais r)
    /\ In (TrendAnalyzer.ponto serie_com_picos 3) (TrendAnalyzer.minimos_locais r).
Proof.
  destruct (pontos_criticos_extremos serie_com_picos) as (r & Hr & Hmax & Hmin & _).
  - discriminate.
  - exists r. split; [exact Hr|]. split.
    + apply Hmax. exists 1%nat. repeat split; cbn; lia || reflexivity.
    + apply Hmin. exists 3%nat. repeat split; cbn; lia || reflexivity.
Defined.

(** ** Cash flow: what the trend step demands of the input *)

Lemma mapM_Forall {A B : Type} (f : A -> result B) (P : B -> Prop) :
  (forall x y, f x = Ok y -> P y) ->
  forall l ys, mapM f l = Ok ys -> Forall P ys.
Proof.
  intros Hf. induction l as [|x xs IH]; intros ys; cbn [mapM].
  - intro H. injection H as <-. constructor.
  - destruct (f x) as [y|e] eqn:E; cbn [bind]; [|discriminate].
    destruct (mapM f xs) as [zs|e]; cbn [bind]; [|discriminate].
    intro H. injection H as <-. constructor; [apply (Hf x y E) | apply IH; reflexivity].
Qed.

Lemma converter_movimentacao_inv (mov : MovimentacaoDict) (m : MovimentacaoFinanceira) :
  CashFlowAnalyzer.converter_movimentacao mov = Ok m ->
  0 <= credito m /\ 0 <= debito m.
Proof.
  unfold CashFlowAnalyzer.converter_movimentacao, novo_MovimentacaoFinanceira,
    try_except_calculation.
  destruct (Qltb (m_credito mov) 0) eqn:Ec; cbn [orb]; [discriminate|].
  destruct (Qltb (Qabs (m_debito mov)) 0) eqn:Ed; [discriminate|].
  intro H. injection H as <-. cbn [credito debito].
  split; [apply Qltb_false; exact Ec | apply Qabs_nonneg].
Qed.

Lemma tendencia_exige_maximo (valores : list Q) (nome : string) (t : TendenciaFinanceira) :
  CashFlowAnalyzer._calcular_tendencia_metrica valores nome = Ok t ->
  exists m, In m valores /\ ~ m == 0 /\ Forall (fun v => v <= m) valores.
Proof.
  intro H. apply tendencia_metrica_spec in H. destruct H as (c & Hc & _).
  apply confiabilidade_bruta_spec in Hc. destruct Hc as (_ & v & m & Hm & _ & Hnz & _).
  destruct (max_lista_spec _ _ Hm) as [Hin Hall].
  exists m. repeat split; assumption.
Qed.

(** The cash-flow analysis returns only for inputs in which some month has
    a positive credit, some month has a positive debit and some month has
    a balance other than zero: a series whose largest value is zero stops
    the trend step with a division by zero. *)
Theorem cashflow_exige_valores_positivos (lower : string -> string)
    (movimentacoes : list MovimentacaoDict) (r : CashFlowAnalyzer.Analise) :
  CashFlowAnalyzer.analisar lower movimentacoes = Ok r ->
  let objs := CashFlowAnalyzer.movimentacoes_analisadas r in
  Permutation (map mes objs) (map m_mes movimentacoes)
  /\ Exists (fun m => 0 < credito m) objs
  /\ Exists (fun m => 0 < debito m) objs
  /\ Exists (fun m => ~ saldo_operacional m == 0) objs.
Proof.
  unfold CashFlowAnalyzer.analisar, try_except_calculation.
  destruct (List.length movimentacoes <? 2)%nat; [discriminate|].
  destruct (CashFlowAnalyzer._converter_movimentacoes lower movimentacoes)
    as [objs|e] eqn:Econv; cbn [bind]; [|discriminate].
  destruct (CashFlowAnalyzer._calcular_volatilidade_saldos objs) as [vol|e];
    cbn [bind]; [|discriminate].
  destruct (CashFlowAnalyzer._analisar_tendencias objs) as [tends|e] eqn:Et;
    cbn [bind]; [|discriminate].
  destruct (CashFlowAnalyzer._gerar_alertas_cashflow objs) as [al|e];
    cbn [bind]; [|discriminate].
  intro H. injection H as <-. cbn [CashFlowAnalyzer.movimentacoes_analisadas].
  revert Econv. unfold CashFlowAnalyzer._converter_movimentacoes.
  destruct (mapM (CashFlowAnalyzer.converter_movimentacao) movimentacoes)
    as [brutos|e] eqn:Em; cbn [bind]; [|discriminate].
  intro H. injection H as <-.
  set (objs := sorted_by _ brutos) in *.
  assert (Hperm : Permutation objs brutos) by apply sorted_by_perm.
  assert (Hval : Forall (fun m => 0 <= credito m /\ 0 <= debito m) objs).
  { apply (Permutation_Forall (Permutation_sym Hperm)).
    apply (mapM_Forall _ _ converter_movimentacao_inv _ _ Em). }
  assert (Hmes : map mes brutos = map m_mes movimentacoes).
  { clear - Em. revert brutos Em.
    induction movimentacoes as [|mov movs IH]; intros brutos; cbn [mapM].
    - intro H. injection H as <-. reflexivity.
    - destruct (CashFlowAnalyzer.converter_movimentacao mov) as [m|e] eqn:E;
        cbn [bind]; [|discriminate].
      destruct (mapM CashFlowAnalyzer.converter_movimentacao movs) as [ms|e];
        cbn [bind]; [|discriminate].
      intro H. injection H as <-. cbn [map]. f_equal; [|apply IH; reflexivity].
      revert E. unfold CashFlowAnalyzer.converter_movimentacao, novo_MovimentacaoFinanceira,
        try_except_calculation.
      destruct (_ || _); [discriminate|]. intro H. injection H as <-. reflexivity. }
  split; [rewrite <- Hmes; apply Permutation_map; exact Hperm|].
  revert Et. unfold CashFlowAnalyzer._analisar_tendencias.
  destruct (CashFlowAnalyzer._calcular_tendencia_metrica (map credito objs) _)
    as [tc|e] eqn:Ec; cbn [bind]; [|discriminate].
  destruct (CashFlowAnalyzer._calcular_tendencia_metrica (map debito objs) _)
    as [td|e] eqn:Ed; cbn [bind]; [|discriminate].
  destruct (CashFlowAnalyzer._calcular_tendencia_metrica (map saldo_operacional objs) _)
    as [ts|e] eqn:Es; cbn [bind]; [|discriminate].
  intros _.
  destruct (tendencia_exige_maximo _ _ _ Ec) as (mc & Hc_in & Hc_nz & _).
  destruct (tendencia_exige_maximo _ _ _ Ed) as (md & Hd_in & Hd_nz & _).
  destruct (tendencia_exige_maximo _ _ _ Es) as (ms & Hs_in & Hs_nz & _).
  apply in_map_iff in Hc_in, Hd_in, Hs_in.
  destruct Hc_in as (xc & <- & Hxc). destruct Hd_in as (xd & <- & Hxd).
  destruct Hs_in as (xs & <- & Hxs).
  rewrite Forall_forall in Hval.
  split; [|split]; apply Exists_exists.
  - exists xc. split; [exact Hxc|]. destruct (Hval xc Hxc) as [H0 _].
    destruct (Qle_lt_or_eq _ _ H0) as [H|H]; [exact H|].
    exfalso. apply Hc_nz. symmetry. exact H.
  - exists xd. split; [exact Hxd|]. destruct (Hval xd Hxd) as [_ H0].
    destruct (Qle_lt_or_eq _ _ H0) as [H|H]; [exact H|].
    exfalso. apply Hd_nz. symmetry. exact H.
  - exists xs. split; [exact Hxs | exact Hs_nz].
Qed.

Lemma cashflow_exige_valores_positivos_witness :
  exists r,
    CashFlowAnalyzer.analisar lower_id registros_brutos = Ok r
    /\ Exists (fun m => 0 < debito m) (CashFlowAnalyzer.movimentacoes_analisadas r).
Proof.
  destruct (CashFlowAnalyzer.analisar lower_id registros_brutos) as [r|e] eqn:E;
    [|vm_compute in E; discriminate].
  exists r. split; [reflexivity|].
  apply (cashflow_exige_valores_positivos lower_id registros_brutos r E).
Defined.

(** ** Cash flow: consolidated metrics *)

Lemma coeficiente_variacao_nonneg (valores : list Q) :
  exists c, CashFlowAnalyzer._calcular_coeficiente_variacao valores = Ok c /\ 0 <= c.
Proof.
  unfold CashFlowAnalyzer._calcular_coeficiente_variacao.
  destruct valores as [|v vs]; [exists 0; split; [reflexivity | discriminate]|].
  set (l := v :: vs).
  destruct (Qeq_bool (mean l) 0) eqn:E; [exists 0; split; [reflexivity | discriminate]|].
  apply Qeq_bool_neq in E.
  assert (Hd : exists d, (if (1 <? List.length l)%nat then stdev l else Ok 0) = Ok d
                         /\ 0 <= d).
  { destruct (1 <? List.length l)%nat eqn:E1.
    - apply Nat.ltb_lt in E1. rewrite stdev_ok by lia.
      eexists. split; [reflexivity | apply fsqrt_nonneg].
    - exists 0. split; [reflexivity | discriminate]. }
  destruct Hd as (d & -> & Hd). cbn [bind].
  eexists. split; [reflexivity|].
  apply (quantize_ge 0 _ (1 # 10)); [reflexivity | unfold Qeq; reflexivity|].
  assert (Hm : 0 < Qabs (mean l)).
  { destruct (Qle_lt_or_eq _ _ (Qabs_nonneg (mean l))) as [H|H]; [exact H|].
    exfalso. apply E. destruct (Qlt_le_dec (mean l) 0) as [Hn|Hp].
    - rewrite Qabs_neg in H by lra. lra.
    - rewrite Qabs_pos in H by exact Hp. lra. }
  assert (0 <= d / Qabs (mean l)) by (apply Qle_shift_div_l; [exact Hm | lra]).
  lra.
Qed.

(** The consolidated cash-flow metrics are produced for every list of
    validated movements; the stability of the balance never exceeds 100,
    the efficiency is never negative and is above 100 exactly when the
    credits outweigh positive debits, and no month is counted both as a
    surplus and as a deficit. *)
Theorem metricas_gerais_limites (movimentacoes : list MovimentacaoFinanceira) :
  Forall (fun m => 0 <= credito m /\ 0 <= debito m) movimentacoes ->
  exists g,
    CashFlowAnalyzer._calcular_metricas_gerais movimentacoes = Ok g
    /\ CashFlowAnalyzer.estabilidade_saldo g <= 100
    /\ 0 <= CashFlowAnalyzer.eficiencia_operacional g
    /\ (100 < CashFlowAnalyzer.eficiencia_operacional g
        <-> 0 < Qsum (map debito movimentacoes)
            /\ Qsum (map debito movimentacoes) < Qsum (map credito movimentacoes))
    /\ (CashFlowAnalyzer.meses_superavit g + CashFlowAnalyzer.meses_deficit g
        <= List.length movimentacoes)%nat.
Proof.
  intro Hval. unfold CashFlowAnalyzer._calcular_metricas_gerais.
  destruct (coeficiente_variacao_nonneg (map saldo_operacional movimentacoes))
    as (c & -> & Hc).
  cbn [bind]. eexists. split; [reflexivity|].
  cbn [CashFlowAnalyzer.estabilidade_saldo CashFlowAnalyzer.eficiencia_operacional
       CashFlowAnalyzer.meses_superavit CashFlowAnalyzer.meses_deficit].
  assert (Hcred : 0 <= Qsum (map credito movimentacoes)).
  { clear Hc. induction Hval as [|m ms [H1 _] _ IH]; [discriminate|].
    cbn [map]. rewrite Qsum_cons. lra. }
  set (D := Qsum (map debito movimentacoes)) in *.
  set (C := Qsum (map credito movimentacoes)) in *.
  split; [lra|].
  split; [|split].
  - destruct (Qgtb D 0) eqn:E; [|discriminate].
    apply Qgtb_true in E.
    assert (0 <= C / D) by (apply Qle_shift_div_l; [exact E | lra]). lra.
  - destruct (Qgtb D 0) eqn:E.
    + apply Qgtb_true in E. split.
      * intro H. split; [exact E|].
        assert (H1 : 1 < C / D) by lra.
        apply (Qmult_lt_compat_r _ _ D E) in H1.
        setoid_replace (C / D * D) with C in H1 by (field; lra). lra.
      * intros [_ H].
        assert (H1 : 1 < C / D) by (apply Qlt_shift_div_l; [exact E | lra]). lra.
    + apply Qgtb_false in E. split; [intro H; exfalso; revert H; discriminate|].
      intros [H _]. exfalso. lra.
  - unfold contar. rewrite <- (length_map saldo_operacional movimentacoes).
    induction (map saldo_operacional movimentacoes) as [|s ss IH]; [cbn; lia|].
    cbn [filter List.length].
    destruct (Qgtb s 0) eqn:E1; destruct (Qltb s 0) eqn:E2; cbn [List.length]; try lia.
    apply Qgtb_true in E1. apply Qltb_true in E2. exfalso. lra.
Qed.

Lemma metricas_gerais_limites_witness :
  exists g,
    CashFlowAnalyzer._calcular_metricas_gerais meses_seguidos = Ok g
    /\ CashFlowAnalyzer.estabilidade_saldo g <= 100.
Proof.
  destruct (metricas_gerais_limites meses_seguidos) as (g & Hg & He & _).
  - amostra.
  - exists g. split; assumption.
Defined.

(** ** Delinquency: financial impact *)

Lemma quantize_abaixo (k : Z) (x q : Q) :
  0 < q -> x < (inject_Z k - (1 # 2)) * q -> quantize x q < inject_Z k * q.
Proof.
  intros Hq Hx. rewrite quantize_eq.
  apply Qmult_lt_compat_r; [exact Hq|].
  pose proof (round_half_even_error (x / q)) as [_ Hhi].
  assert (Hy : x / q < inject_Z k - (1 # 2)) by (apply Qlt_shift_div_r; assumption).
  assert (Hr : inject_Z (round_half_even (x / q)) < inject_Z k) by lra.
  exact Hr.
Qed.

Lemma potencial_recuperacao_ok (inadimplentes : list Inadimplente) :
  ~ DelinquencyAnalyzer.soma_dividas inadimplentes == 0 ->
  exists p, DelinquencyAnalyzer._calcular_potencial_recuperacao inadimplentes = Ok p.
Proof.
  intro H. unfold DelinquencyAnalyzer._calcular_potencial_recuperacao.
  destruct (DelinquencyAnalyzer.recuperacao_loop inadimplentes 0 0) as [O C].
  rewrite !(dividir_ok _ _ H). cbn [bind]. eexists. reflexivity.
Qed.

(** With a positive revenue the impact on the cash flow is always reported.
    The share of the revenue is rounded to one decimal before it is
    classified, so the impact is critical from 14.95 per cent of the
    revenue on, and minimal below 4.95 per cent. *)
Theorem impacto_fluxo_classifica_arredondado (inadimplentes : list Inadimplente)
    (receita_total : Q) :
  inadimplentes <> [] ->
  Forall (fun inad => 0 < valor_divida inad) inadimplentes ->
  0 < receita_total ->
  let parte := DelinquencyAnalyzer.soma_dividas inadimplentes / receita_total * 100 in
  exists r,
    DelinquencyAnalyzer._calcular_impacto_financeiro inadimplentes (Some receita_total) = Ok r
    /\ DelinquencyAnalyzer.percentual_receita r = Some (quantize parte (1 # 10))
    /\ (DelinquencyAnalyzer.impacto_fluxo_caixa r
        = Some "CRÍTICO - Comprometimento severo do fluxo de caixa"%string
        <-> 1495 # 100 <= parte)
    /\ (DelinquencyAnalyzer.impacto_fluxo_caixa r
        = Some "BAIXO - Impacto mínimo no fluxo de caixa"%string
        <-> parte < 495 # 100).
Proof.
  intros Hne Hpos Hrec parte.
  set (T := DelinquencyAnalyzer.soma_dividas inadimplentes) in *.
  assert (HT : 0 < T).
  { apply Qsum_pos.
    - destruct inadimplentes; [congruence | discriminate].
    - apply Forall_map. exact Hpos. }
  assert (Hnz : ~ T == 0) by lra.
  assert (Hn : ~ inject_Z (Z.of_nat (List.length inadimplentes)) == 0).
  { intro H. unfold Qeq in H. cbn in H. destruct inadimplentes; [congruence|].
    cbn [List.length] in H. lia. }
  unfold DelinquencyAnalyzer._calcular_impacto_financeiro. fold T.
  rewrite (dividir_ok _ _ Hn). cbn [bind].
  destruct (potencial_recuperacao_ok inadimplentes Hnz) as (p & ->). cbn [bind].
  assert (Eg : Qgtb receita_total 0 = true) by (apply Qgtb_true; exact Hrec).
  rewrite Eg. fold parte.
  eexists. split; [reflexivity|].
  cbn [DelinquencyAnalyzer.percentual_receita DelinquencyAnalyzer.impacto_fluxo_caixa
       option_map].
  split; [reflexivity|].
  assert (Hq : 0 < 1 # 10) by reflexivity.
  assert (Q15 : 1495 # 100 <= parte -> 15 <= quantize parte (1 # 10)).
  { intro H. apply Qle_trans with (quantize (1495 # 100) (1 # 10)); [vm_compute; discriminate|].
    apply quantize_mono; assumption. }
  assert (Q15' : parte < 1495 # 100 -> quantize parte (1 # 10) < 15).
  { intro H. setoid_replace 15 with (inject_Z 150 * (1 # 10)) by (unfold Qeq; reflexivity).
    apply quantize_abaixo; [exact Hq|].
    setoid_replace ((inject_Z 150 - (1 # 2)) * (1 # 10)) with (1495 # 100)
      by (unfold Qeq; reflexivity).
    exact H. }
  assert (Q5 : 495 # 100 <= parte -> 5 <= quantize parte (1 # 10)).
  { intro H. apply Qle_trans with (quantize (495 # 100) (1 # 10)); [vm_compute; discriminate|].
    apply quantize_mono; assumption. }
  assert (Q5' : parte < 495 # 100 -> quantize parte (1 # 10) < 5).
  { intro H. setoid_replace 5 with (inject_Z 50 * (1 # 10)) by (unfold Qeq; reflexivity).
    apply quantize_abaixo; [exact Hq|].
    setoid_replace ((inject_Z 50 - (1 # 2)) * (1 # 10)) with (495 # 100)
      by (unfold Qeq; reflexivity).
    exact H. }
  unfold DelinquencyAnalyzer._classificar_impacto_fluxo.
  set (pc := quantize parte (1 # 10)) in *.
  destruct (Qgeb pc 15) eqn:E15.
  - apply Qgeb_true in E15. split.
    + split; [intros _ | reflexivity].
      destruct (Qlt_le_dec parte (1495 # 100)) as [H|H]; [|exact H].
      apply Q15' in H. exfalso. lra.
    + split; [discriminate|]. intro H.
      assert (H' : parte < 1495 # 100) by lra. apply Q15' in H'. exfalso. lra.
  - apply Qgeb_false in E15.
    assert (N15 : ~ 1495 # 100 <= parte) by (intro H; apply Q15 in H; lra).
    destruct (Qgeb pc 10) eqn:E10.
    + apply Qgeb_true in E10. split.
      * split; [discriminate | intro H; contradiction].
      * split; [discriminate|]. intro H. apply Q5' in H. exfalso. lra.
    + destruct (Qgeb pc 5) eqn:E5.
      * apply Qgeb_true in E5. split.
        -- split; [discriminate | intro H; contradiction].
        -- split; [discriminate|]. intro H. apply Q5' in H. exfalso. lra.
      * apply Qgeb_false in E5. split.
        -- split; [discriminate | intro H; contradiction].
        -- split; [intros _ | reflexivity].
           destruct (Qlt_le_dec parte (495 # 100)) as [H|H]; [exact H|].
           apply Q5 in H. exfalso. lra.
Qed.

Lemma impacto_fluxo_classifica_arredondado_witness :
  exists r,
    DelinquencyAnalyzer._calcular_impacto_financeiro quatro_devedores (Some 1000000) = Ok r
    /\ exists p, DelinquencyAnalyzer.percentual_receita r = Some p.
Proof.
  destruct (impacto_fluxo_classifica_arredondado quatro_devedores 1000000)
    as (r & Hr & Hp & _).
  - discriminate.
  - amostra.
  - reflexivity.
  - exists r. split; [exact Hr|]. eexists. exact Hp.
Defined.

(** ** Delinquency: the complete analysis *)

Lemma Qnat_len_nz {A : Type} (l : list A) :
  l <> [] -> ~ inject_Z (Z.of_nat (List.length l)) == 0.
Proof.
  intros Hne H. unfold Qeq in H. cbn in H. destruct l; [congruence|].
  cbn [List.length] in H. lia.
Qed.

Lemma perfil_risco_ok (inadimplentes : list Inadimplente) :
  inadimplentes <> [] ->
  exists p, DelinquencyAnalyzer._analisar_perfil_risco inadimplentes = Ok p.
Proof.
  intro Hne. unfold DelinquencyAnalyzer._analisar_perfil_risco.
  rewrite !(dividir_ok _ _ (Qnat_len_nz inadimplentes Hne)). cbn [bind].
  destruct inadimplentes as [|i l]; [congruence|].
  cbn [map max_lista min_lista bind]. eexists. reflexivity.
Qed.

Lemma impacto_financeiro_ok (inadimplentes : list Inadimplente) (receita_total : option Q) :
  inadimplentes <> [] ->
  Forall (fun inad => 0 < valor_divida inad) inadimplentes ->
  exists r,
    DelinquencyAnalyzer._calcular_impacto_financeiro inadimplentes receita_total = Ok r.
Proof.
  intros Hne Hpos. unfold DelinquencyAnalyzer._calcular_impacto_financeiro.
  rewrite (dividir_ok _ _ (Qnat_len_nz inadimplentes Hne)). cbn [bind].
  assert (HT : 0 < DelinquencyAnalyzer.soma_dividas inadimplentes).
  { apply Qsum_pos; [destruct inadimplentes; [congruence | discriminate]|].
    apply Forall_map. exact Hpos. }
  destruct (potencial_recuperacao_ok inadimplentes) as (p & ->); [lra|].
  cbn [bind]. eexists. reflexivity.
Qed.

Lemma metricas_inadimplencia_ok (inadimplentes : list Inadimplente)
    (receita_total : option Q) :
  inadimplentes <> [] ->
  exists m,
    DelinquencyAnalyzer._calcular_metricas_inadimplencia inadimplentes receita_total = Ok m.
Proof.
  intro Hne. unfold DelinquencyAnalyzer._calcular_metricas_inadimplencia.
  rewrite (dividir_ok _ _ (Qnat_len_nz inadimplentes Hne)). cbn [bind].
  assert (Hv : map valor_divida inadimplentes <> [])
    by (destruct inadimplentes; [congruence | discriminate]).
  destruct (max_lista (map valor_divida inadimplentes)) as [M|e] eqn:EM;
    [|destruct (map valor_divida inadimplentes); [congruence | discriminate]].
  destruct (min_lista (map valor_divida inadimplentes)) as [m|e] eqn:Em;
    [|destruct (map valor_divida inadimplentes); [congruence | discriminate]].
  destruct (max_lista_spec _ _ EM) as [_ HM]. destruct (min_lista_spec _ _ Em) as [_ Hm].
  destruct (mediana_limites inadimplentes m M Hne) as (med & -> & _).
  { rewrite Forall_forall in *. intros i Hi.
    split; [apply Hm | apply HM]; apply in_map; exact Hi. }
  cbn [bind]. eexists. reflexivity.
Qed.

(** With every step of its body, and a text step that does not raise,
    [analisar] returns exactly for the non-empty ledgers whose debts are all
    positive and whose days late, where given, are not negative.  The
    steps after the concentration never decide the outcome: the complete
    analysis and the one restricted to conversion, ranking and
    concentration return together, with the same values, and raise the same
    error. *)
Theorem analisar_completo_retorna_sse_ledger_valido
    (recomendar : list Inadimplente -> DelinquencyAnalyzer.PerfilRisco -> result (list string))
    (inadimplentes : list InadimplenteDict) (receita_total : option Q) :
  (forall objs p, exists t, recomendar objs p = Ok t) ->
  ((exists r, DelinquencyAnalyzer.analisar_completo recomendar inadimplentes receita_total
              = Ok r)
   <-> inadimplentes <> []
       /\ Forall (fun i => 0 < d_valor_divida i
                           /\ match d_dias_atraso i with
                              | Some d => (0 <= d)%Z
                              | None => True
                              end) inadimplentes)
  /\ match DelinquencyAnalyzer.analisar_completo recomendar inadimplentes receita_total,
           DelinquencyAnalyzer.analisar inadimplentes with
     | Ok rc, Ok r =>
         DelinquencyAnalyzer.ac_inadimplentes_analisados rc
         = DelinquencyAnalyzer.inadimplentes_analisados r
         /\ DelinquencyAnalyzer.ac_ranking_por_valor rc
            = DelinquencyAnalyzer.ranking_por_valor r
         /\ DelinquencyAnalyzer.ac_concentracao_dividas rc
            = DelinquencyAnalyzer.concentracao_dividas r
         /\ DelinquencyAnalyzer.ac_total_inadimplentes rc
            = DelinquencyAnalyzer.total_inadimplentes r
     | Raise e1, Raise e2 => e1 = e2
     | _, _ => False
     end.
Proof.
  intro Hrec.
  destruct inadimplentes as [|x xs].
  { split; [|reflexivity].
    split; [intros (r & H); discriminate | intros (H & _); congruence]. }
  set (l := x :: xs).
  destruct (DelinquencyAnalyzer._converter_inadimplentes l) as [objs|e] eqn:Ec.
  - assert (Hval : Forall (fun i => 0 < d_valor_divida i
                                    /\ match d_dias_atraso i with
                                       | Some d => (0 <= d)%Z
                                       | None => True
                                       end) l).
    { pose proof (mapM_Ok_inv _ _ _ Ec) as HF.
      clear - HF. induction HF as [|a b l0 l' Hab _ IH]; constructor; [|exact IH].
      exact (converter_inadimplente_Ok_inv a b Hab). }
    destruct (converter_inadimplentes_ok l Hval) as (objs' & Hobjs & HF).
    assert (objs' = objs) by congruence. subst objs'. clear Hobjs.
    assert (Hne : objs <> []).
    { intro Hnil. subst objs. inversion HF. }
    assert (Hpos : Forall (fun inad => 0 < valor_divida inad) objs).
    { clear - HF Hval. induction HF as [|a b l0 l' (_ & Hv & _) _ IH]; constructor.
      - inversion Hval as [|? ? [Ha _] _]; subst. rewrite Hv. exact Ha.
      - apply IH. inversion Hval; assumption. }
    destruct (proj2 (analisar_retorna_sse_ledger_valido l)) as (r0 & Hr0).
    { split; [discriminate | exact Hval]. }
    pose proof Hr0 as Hcore. unfold DelinquencyAnalyzer.analisar in Hcore.
    unfold l in Hcore at 1. rewrite Ec in Hcore. cbn [bind] in Hcore.
    destruct (DelinquencyAnalyzer._gerar_ranking_por_valor objs) as [rk|e] eqn:Er;
      cbn [bind] in Hcore; [|discriminate].
    destruct (DelinquencyAnalyzer._analisar_concentracao_dividas objs) as [co|e] eqn:Eco;
      cbn [bind try_except_calculation] in Hcore; [|discriminate].
    injection Hcore as <-.
    destruct (perfil_risco_ok objs Hne) as (pf & Hpf).
    destruct (impacto_financeiro_ok objs receita_total Hne Hpos) as (im & Him).
    destruct (metricas_inadimplencia_ok objs receita_total Hne) as (mt & Hmt).
    destruct (Hrec objs pf) as (txt & Htxt).
    assert (Hc : exists rc,
               DelinquencyAnalyzer.analisar_completo recomendar l receita_total = Ok rc
               /\ DelinquencyAnalyzer.ac_inadimplentes_analisados rc = objs
               /\ DelinquencyAnalyzer.ac_ranking_por_valor rc = rk
               /\ DelinquencyAnalyzer.ac_concentracao_dividas rc = co
               /\ DelinquencyAnalyzer.ac_total_inadimplentes rc = List.length objs).
    { unfold DelinquencyAnalyzer.analisar_completo. unfold l at 1.
      rewrite Ec. cbn [bind]. rewrite Er. cbn [bind]. rewrite Hpf. cbn [bind].
      rewrite Eco. cbn [bind]. rewrite Him. cbn [bind]. rewrite Hmt. cbn [bind].
      rewrite Htxt. cbn [bind try_except_calculation].
      eexists. split; [reflexivity|]. repeat split. }
    destruct Hc as (rc & Hrc & H1 & H2 & H3 & H4).
    rewrite Hrc, Hr0. cbn [DelinquencyAnalyzer.inadimplentes_analisados
                            DelinquencyAnalyzer.ranking_por_valor
                            DelinquencyAnalyzer.concentracao_dividas
                            DelinquencyAnalyzer.total_inadimplentes].
    split; [|repeat split; assumption].
    split; [intros _; split; [discriminate | exact Hval] | intros _; exists rc; reflexivity].
  - assert (E1 : DelinquencyAnalyzer.analisar_completo recomendar l receita_total
                 = Raise (CalculationError "analise_inadimplencia" e)).
    { unfold DelinquencyAnalyzer.analisar_completo. unfold l at 1. rewrite Ec. reflexivity. }
    assert (E2 : DelinquencyAnalyzer.analisar l
                 = Raise (CalculationError "analise_inadimplencia" e)).
    { unfold DelinquencyAnalyzer.analisar. unfold l at 1. rewrite Ec. reflexivity. }
    rewrite E1, E2. split; [|reflexivity].
    split; [intros (r & H); discriminate|].
    intros (_ & Hval). destruct (converter_inadimplentes_ok l Hval) as (objs & Hobjs & _).
    congruence.
Qed.

Lemma analisar_completo_retorna_sse_ledger_valido_witness :
  exists r,
    DelinquencyAnalyzer.analisar_completo (fun _ _ => Ok []) ledger_bruto (Some 1000000)
    = Ok r.
Proof.
  apply (proj1 (analisar_completo_retorna_sse_ledger_valido (fun _ _ => Ok []) ledger_bruto
                  (Some 1000000) (fun _ _ => ex_intro _ [] eq_refl))).
  split; [discriminate|]. amostra.
Defined.
